(** * Link resolution in the HotSpot interpreter (jdk7u)

    A shallow embedding of [hotspot/src/share/vm/interpreter/linkResolver.cpp]
    and of the few inline members of [instanceKlass.hpp] it relies on,
    together with the properties of method, field and call-site resolution
    that the design document of the resolver states.

    Conventions of the embedding.

    - A function declared with [TRAPS] returns an [outcome]: it returns
      normally, or returns with a pending Java exception ([THROW],
      propagated by [CHECK]), or hits a fatal VM error.
    - [assert(c, msg)] is kept, as the source has it: a violated assertion
      is a fatal VM error ([Fatal]), never a Java exception.  Dereferencing a
      null handle is fatal as well.
    - Exceptions carry their class and their cause; the message text, which
      the resolver only formats for diagnostics, is left out, and so is the
      tracing under [TraceMethodHandles].
    - The parts of the VM that live in other files (class hierarchy lookups,
      reflection, the system dictionary, method handles, the compile broker)
      are the fields of the class [Runtime]: every theorem holds for every
      implementation of them. *)

From Stdlib Require Import ZArith String Ascii List Bool Lia.
Import ListNotations.
Local Open Scope string_scope.
Local Open Scope Z_scope.

Set Implicit Arguments.

(* ------------------------------------------------------------------ *)
(** ** Outcomes of functions declared with [TRAPS] *)

(** The classes of the exceptions the resolver throws or inspects, with the
    superclass each one extends in java.lang (and java.lang.invoke); an
    exception of any other class is a [OtherThrowable] with its parent. *)
Inductive ExnClass : Type :=
| java_lang_Throwable
| java_lang_Exception
| java_lang_RuntimeException
| java_lang_NullPointerException
| java_lang_Error
| java_lang_VirtualMachineError
| java_lang_InternalError
| java_lang_LinkageError
| java_lang_BootstrapMethodError
| java_lang_ExceptionInInitializerError
| java_lang_NoClassDefFoundError
| java_lang_IncompatibleClassChangeError
| java_lang_AbstractMethodError
| java_lang_IllegalAccessError
| java_lang_NoSuchFieldError
| java_lang_NoSuchMethodError
| OtherThrowable (name : string) (parent : ExnClass).

#[warnings="-register-all"]
Inductive Throwable : Type :=
| mkThrowable (klass : ExnClass) (cause : option Throwable).

Definition exn_klass (e : Throwable) : ExnClass :=
  match e with mkThrowable k _ => k end.

Definition exn_cause (e : Throwable) : option Throwable :=
  match e with mkThrowable _ c => c end.

Definition ExnClass_eq_dec (a b : ExnClass) : {a = b} + {a <> b}.
Proof. decide equality. apply string_dec. Defined.

Definition ExnClass_eqb (a b : ExnClass) : bool :=
  if ExnClass_eq_dec a b then true else false.

(** The proper superclasses of the classes named above. *)
Definition builtin_ancestors (k : ExnClass) : list ExnClass :=
  match k with
  | java_lang_Throwable => []
  | java_lang_Exception => [java_lang_Throwable]
  | java_lang_RuntimeException => [java_lang_Exception; java_lang_Throwable]
  | java_lang_NullPointerException =>
      [java_lang_RuntimeException; java_lang_Exception; java_lang_Throwable]
  | java_lang_Error => [java_lang_Throwable]
  | java_lang_VirtualMachineError => [java_lang_Error; java_lang_Throwable]
  | java_lang_InternalError =>
      [java_lang_VirtualMachineError; java_lang_Error; java_lang_Throwable]
  | java_lang_LinkageError => [java_lang_Error; java_lang_Throwable]
  | java_lang_BootstrapMethodError
  | java_lang_ExceptionInInitializerError
  | java_lang_NoClassDefFoundError
  | java_lang_IncompatibleClassChangeError =>
      [java_lang_LinkageError; java_lang_Error; java_lang_Throwable]
  | java_lang_AbstractMethodError
  | java_lang_IllegalAccessError
  | java_lang_NoSuchFieldError
  | java_lang_NoSuchMethodError =>
      [java_lang_IncompatibleClassChangeError; java_lang_LinkageError;
       java_lang_Error; java_lang_Throwable]
  | OtherThrowable _ _ => []
  end.

Fixpoint is_subclass_of (k target : ExnClass) : bool :=
  if ExnClass_eqb k target then true
  else match k with
       | OtherThrowable _ parent => is_subclass_of parent target
       | _ => existsb (ExnClass_eqb target) (builtin_ancestors k)
       end.

(** [oop->is_a(klass)] on a pending exception. *)
Definition is_a (e : Throwable) (k : ExnClass) : bool :=
  is_subclass_of (exn_klass e) k.

Inductive outcome (A : Type) : Type :=
| Normal (a : A)
| Pending (e : Throwable)
| Fatal
| OutOfFuel.

Arguments Normal {A} a.
Arguments Pending {A} e.
Arguments Fatal {A}.
Arguments OutOfFuel {A}.

(** [CHECK]: continue only when no exception is pending. *)
Definition bind {A B : Type} (c : outcome A) (k : A -> outcome B) : outcome B :=
  match c with
  | Normal a => k a
  | Pending e => Pending e
  | Fatal => Fatal
  | OutOfFuel => OutOfFuel
  end.

Notation "x <- c ;; k" := (bind c (fun x => k))
  (at level 61, c at next level, right associativity).
Notation "c ;;; k" := (bind c (fun _ => k))
  (at level 61, right associativity).

Definition vm_assert (c : bool) : outcome unit :=
  if c then Normal tt else Fatal.

Definition THROW {A : Type} (k : ExnClass) : outcome A :=
  Pending (mkThrowable k None).

(** [THROW_CAUSE] and [THROW_MSG_CAUSE]: the cause is a handle, possibly null. *)
Definition THROW_CAUSE {A : Type} (k : ExnClass) (cause : option Throwable) : outcome A :=
  Pending (mkThrowable k cause).

(* ------------------------------------------------------------------ *)
(** ** Symbols, access flags, oops *)

(** Symbols are interned: pointer equality is equality of the text. *)
Definition Symbol : Type := string.

Definition symbol_eqb (a b : Symbol) : bool := String.eqb a b.

Module vmSymbols.
Definition clone_name : Symbol := "clone".
Definition invoke_name : Symbol := "invoke".
Definition object_initializer_name : Symbol := "<init>".
Definition class_initializer_name : Symbol := "<clinit>".
End vmSymbols.

(** The access flag bits of the class file format ([jvm.h]). *)
Definition JVM_ACC_PUBLIC : Z := 0x0001.
Definition JVM_ACC_PRIVATE : Z := 0x0002.
Definition JVM_ACC_PROTECTED : Z := 0x0004.
Definition JVM_ACC_STATIC : Z := 0x0008.
Definition JVM_ACC_FINAL : Z := 0x0010.
Definition JVM_ACC_SUPER : Z := 0x0020.
Definition JVM_ACC_INTERFACE : Z := 0x0200.
Definition JVM_ACC_ABSTRACT : Z := 0x0400.

(** [AccessFlags]: a [jint] of flag bits. *)
Definition AccessFlags : Type := Z.

Definition has_flag (flags : AccessFlags) (bit : Z) : bool :=
  negb (Z.land flags bit =? 0).

Definition flags_is_public (f : AccessFlags) : bool := has_flag f JVM_ACC_PUBLIC.
Definition flags_is_private (f : AccessFlags) : bool := has_flag f JVM_ACC_PRIVATE.
Definition flags_is_protected (f : AccessFlags) : bool := has_flag f JVM_ACC_PROTECTED.
Definition flags_is_static (f : AccessFlags) : bool := has_flag f JVM_ACC_STATIC.
Definition flags_is_final (f : AccessFlags) : bool := has_flag f JVM_ACC_FINAL.
Definition flags_is_super (f : AccessFlags) : bool := has_flag f JVM_ACC_SUPER.
Definition flags_is_interface (f : AccessFlags) : bool := has_flag f JVM_ACC_INTERFACE.
Definition flags_is_abstract (f : AccessFlags) : bool := has_flag f JVM_ACC_ABSTRACT.

(** Heap objects are named by their address; a [Handle] may be null. *)
Definition oop : Type := nat.
Definition Handle : Type := option oop.
Definition klassOop : Type := nat.

Definition handle_is_null (h : Handle) : bool :=
  match h with None => true | Some _ => false end.

Inductive vmIntrinsicsID : Type :=
| _none
| _invokeGeneric
| _invokeBasic
| _linkToVirtual
| _linkToStatic
| _linkToSpecial
| _linkToInterface
| _other_intrinsic (n : nat).

Definition vmIntrinsicsID_eq_dec (a b : vmIntrinsicsID) : {a = b} + {a <> b}.
Proof. decide equality. apply Nat.eq_dec. Defined.

Definition iid_eqb (a b : vmIntrinsicsID) : bool :=
  if vmIntrinsicsID_eq_dec a b then true else false.

(** [methodOopDesc::VtableIndexFlag]. *)
Definition invalid_vtable_index : Z := -4.
Definition garbage_vtable_index : Z := -3.
Definition nonvirtual_vtable_index : Z := -2.

Record methodOopDesc : Type := mkMethod {
  name : Symbol;
  signature : Symbol;
  method_holder : klassOop;
  access_flags : AccessFlags;
  vtable_index : Z;
  intrinsic_id : vmIntrinsicsID;
  is_compiled_lambda_form : bool
}.

(** A [methodHandle] or [methodOop] may be null. *)
Definition methodHandle : Type := option methodOopDesc.

Definition is_static (m : methodOopDesc) : bool := flags_is_static (access_flags m).
Definition is_public (m : methodOopDesc) : bool := flags_is_public (access_flags m).
Definition is_abstract (m : methodOopDesc) : bool := flags_is_abstract (access_flags m).

(** Two method pointers are equal when they point to the same method. *)
Definition methodOop_eq_dec (a b : methodOopDesc) : {a = b} + {a <> b}.
Proof.
  decide equality;
    solve [ apply Bool.bool_dec | apply vmIntrinsicsID_eq_dec | apply Z.eq_dec
          | apply Nat.eq_dec | apply string_dec ].
Defined.

Definition methodOop_eqb (a b : methodOopDesc) : bool :=
  if methodOop_eq_dec a b then true else false.

(** [BasicType] of a field, as far as the resolver passes it on. *)
Inductive BasicType : Type :=
| T_BOOLEAN | T_CHAR | T_FLOAT | T_DOUBLE | T_BYTE | T_SHORT | T_INT | T_LONG
| T_OBJECT | T_ARRAY.

Record fieldDescriptor : Type := mkField {
  fd_name : Symbol;
  fd_field_holder : klassOop;
  fd_access_flags : AccessFlags;
  fd_index : Z;
  fd_offset : Z;
  fd_field_type : BasicType
}.

Definition fd_is_static (fd : fieldDescriptor) : bool := flags_is_static (fd_access_flags fd).

(* ------------------------------------------------------------------ *)
(** ** Classes ([instanceKlass.hpp]) *)

(** [instanceKlass::ClassState], with the values of the enum. *)
Inductive ClassState : Type :=
| unparsable_by_gc
| allocated
| loaded
| linked
| being_initialized
| fully_initialized
| initialization_error.

Definition ClassState_value (s : ClassState) : Z :=
  match s with
  | unparsable_by_gc => 0
  | allocated => 1
  | loaded => 2
  | linked => 3
  | being_initialized => 4
  | fully_initialized => 5
  | initialization_error => 6
  end.

(** The immutable part of a class. *)
Record Klass : Type := mkKlass {
  klass_name : Symbol;
  klass_access_flags : AccessFlags;
  oop_is_array : bool;
  super : option klassOop;
  class_loader : Handle;
  vtable : list methodHandle
}.

(** The mutable part: [_init_state] of every class. *)
Definition State : Type := klassOop -> ClassState.

Definition is_linked (st : State) (k : klassOop) : bool :=
  ClassState_value linked <=? ClassState_value (st k).
Definition is_initialized (st : State) (k : klassOop) : bool :=
  ClassState_value (st k) =? ClassState_value fully_initialized.
Definition is_not_initialized (st : State) (k : klassOop) : bool :=
  ClassState_value (st k) <? ClassState_value being_initialized.
Definition is_loaded (st : State) (k : klassOop) : bool :=
  ClassState_value loaded <=? ClassState_value (st k).
Definition is_being_initialized (st : State) (k : klassOop) : bool :=
  ClassState_value (st k) =? ClassState_value being_initialized.
Definition is_in_error_state (st : State) (k : klassOop) : bool :=
  ClassState_value (st k) =? ClassState_value initialization_error.
Definition object_is_parsable (st : State) (k : klassOop) : bool :=
  negb (ClassState_value (st k) =? ClassState_value unparsable_by_gc).

(** [u2 _misc_flags] and the bits of its enum.  A compound assignment
    computes in [int] and converts the result back to [u2]. *)
Definition to_u2 (z : Z) : Z := z mod 2 ^ 16.

Definition _misc_rewritten : Z := Z.shiftl 1 0.
Definition _misc_has_nonstatic_fields : Z := Z.shiftl 1 1.
Definition _misc_should_verify_class : Z := Z.shiftl 1 2.
Definition _misc_is_anonymous : Z := Z.shiftl 1 3.

Definition has_nonstatic_fields (_misc_flags : Z) : bool :=
  negb (Z.land _misc_flags _misc_has_nonstatic_fields =? 0).
Definition set_has_nonstatic_fields (_misc_flags : Z) (b : bool) : Z :=
  if b then to_u2 (Z.lor _misc_flags _misc_has_nonstatic_fields)
  else to_u2 (Z.land _misc_flags (Z.lnot _misc_has_nonstatic_fields)).

Definition is_rewritten (_misc_flags : Z) : bool :=
  negb (Z.land _misc_flags _misc_rewritten =? 0).
Definition set_rewritten (_misc_flags : Z) : Z :=
  to_u2 (Z.lor _misc_flags _misc_rewritten).

Definition should_verify_class (_misc_flags : Z) : bool :=
  negb (Z.land _misc_flags _misc_should_verify_class =? 0).
Definition set_should_verify_class (_misc_flags : Z) (value : bool) : Z :=
  if value then to_u2 (Z.lor _misc_flags _misc_should_verify_class)
  else to_u2 (Z.land _misc_flags (Z.lnot _misc_should_verify_class)).

Definition is_anonymous (_misc_flags : Z) : bool :=
  negb (Z.land _misc_flags _misc_is_anonymous =? 0).
Definition set_is_anonymous (_misc_flags : Z) (value : bool) : Z :=
  if value then to_u2 (Z.lor _misc_flags _misc_is_anonymous)
  else to_u2 (Z.land _misc_flags (Z.lnot _misc_is_anonymous)).

(** Functions that also change [_init_state] thread the state. *)
Definition stateful (A : Type) : Type := State -> outcome A * State.

Definition sbind {A B : Type} (c : stateful A) (k : A -> stateful B) : stateful B :=
  fun st =>
    match c st with
    | (Normal a, st') => k a st'
    | (Pending e, st') => (Pending e, st')
    | (Fatal, st') => (Fatal, st')
    | (OutOfFuel, st') => (OutOfFuel, st')
    end.

(** A function that only reads the state. *)
Definition reading {A : Type} (c : State -> outcome A) : stateful A :=
  fun st => (c st, st).

Notation "x <~ c ;; k" := (sbind c (fun x => k))
  (at level 61, c at next level, right associativity).

Definition KlassHandle : Type := option klassOop.

(** [->] on a handle: a null handle cannot be dereferenced. *)
Definition deref {A : Type} (h : option A) : outcome A :=
  match h with
  | Some a => Normal a
  | None => Fatal
  end.

Definition is_null {A : Type} (h : option A) : bool :=
  match h with None => true | Some _ => false end.

(* ------------------------------------------------------------------ *)
(** ** Constant pool and its cache *)

Record ConstantPoolCacheEntry : Type := mkCPCE {
  is_f1_null : bool;
  f2_as_vfinal_method : methodHandle;
  appendix_if_resolved : Handle;
  method_type_if_resolved : Handle
}.

Record constantPoolOopDesc : Type := mkPool {
  pool_holder : klassOop;
  klass_ref_at : Z -> outcome KlassHandle;
  klass_ref_at_if_loaded_check : Z -> outcome KlassHandle;
  name_ref_at : Z -> Symbol;
  signature_ref_at : Z -> Symbol;
  has_preresolution : bool;
  method_at_if_loaded : Z -> methodHandle;
  secondary_entry_at : Z -> ConstantPoolCacheEntry;
  main_entry_constant_pool_index : Z -> Z;
  resolve_bootstrap_specifier_at : Z -> outcome oop
}.

Inductive Bytecode : Type :=
| _getstatic | _putstatic | _getfield | _putfield
| _invokevirtual | _invokespecial | _invokestatic | _invokeinterface
| _invokedynamic | _invokehandle
| _other_bytecode (n : nat).

Definition Bytecode_eq_dec (a b : Bytecode) : {a = b} + {a <> b}.
Proof. decide equality. apply Nat.eq_dec. Defined.

Definition bc_eqb (a b : Bytecode) : bool :=
  if Bytecode_eq_dec a b then true else false.

(* ------------------------------------------------------------------ *)
(** ** The rest of the VM

    What [linkResolver.cpp] calls and other files define.  A collaborator
    that returns with a pending exception returns a null handle. *)

Class Runtime : Type := {
  (** the heap: the class a [klassOop] points to, the class of an object *)
  klass_part : klassOop -> Klass;
  oop_klass : oop -> klassOop;

  (** [Klass], [instanceKlass], [klassVtable] *)
  is_subtype_of : klassOop -> klassOop -> bool;
  uncached_lookup_method : klassOop -> Symbol -> Symbol -> methodHandle;
  lookup_method_in_all_interfaces : klassOop -> Symbol -> Symbol -> methodHandle;
  find_field : klassOop -> Symbol -> Symbol -> option (klassOop * fieldDescriptor);
  index_of_miranda : klassOop -> Symbol -> Symbol -> Z;
  should_be_initialized : State -> klassOop -> bool;
  initialize : klassOop -> stateful unit;

  (** [methodOopDesc] *)
  can_be_statically_bound : methodOopDesc -> bool;
  is_method_handle_intrinsic : methodOopDesc -> bool;

  (** [SystemDictionary] *)
  Object_klass : klassOop;
  MethodHandle_klass : klassOop;
  (** the block under [!MethodHandles::enabled()] of
      [lookup_polymorphic_method], which makes sure that
      [MethodHandleNatives] is loaded *)
  ensure_MethodHandleNatives_booted : outcome unit;
  check_signature_loaders : Symbol -> Handle -> Handle -> bool -> outcome (option string);
  find_method_handle_intrinsic : vmIntrinsicsID -> Symbol -> outcome methodHandle;
  find_method_handle_invoker :
    Symbol -> Symbol -> KlassHandle -> outcome (methodHandle * Handle * Handle);
  find_dynamic_call_site_invoker :
    KlassHandle -> Handle -> Symbol -> Symbol -> outcome (methodHandle * Handle * Handle);

  (** [Reflection] *)
  verify_class_access : klassOop -> klassOop -> bool -> bool;
  verify_field_access : klassOop -> klassOop -> klassOop -> AccessFlags -> bool -> bool;

  (** [MethodHandles] *)
  signature_polymorphic_name_id : Symbol -> vmIntrinsicsID;
  is_signature_polymorphic : vmIntrinsicsID -> bool;
  is_signature_polymorphic_intrinsic : vmIntrinsicsID -> bool;
  is_signature_polymorphic_static : vmIntrinsicsID -> bool;
  is_signature_polymorphic_name : Symbol -> bool;
  is_signature_polymorphic_name_in : klassOop -> Symbol -> bool;
  is_signature_polymorphic_public_name : klassOop -> Symbol -> bool;
  lookup_basic_type_signature : Symbol -> bool -> outcome Symbol;

  (** VM flags and the current thread *)
  EnableInvokeDynamic : bool;
  AllowNonVirtualCalls : bool;
  is_Compiler_thread : bool;

  (** [CompilationPolicy], [CompileBroker] *)
  must_be_compiled : methodOopDesc -> bool;
  compile_method : methodOopDesc -> outcome unit;

  (** bound on the number of classes a lookup loop may walk through *)
  max_super_walk : nat
}.

(* ------------------------------------------------------------------ *)
(** ** [FieldAccessInfo] and [CallInfo] *)

Record FieldAccessInfo : Type := mkFieldAccessInfo {
  _klass : klassOop;
  _name : Symbol;
  _field_index : Z;
  _field_offset : Z;
  _field_type : BasicType;
  _access_flags : AccessFlags
}.

Record CallInfo : Type := mkCallInfo {
  _resolved_klass : KlassHandle;
  _selected_klass : KlassHandle;
  _resolved_method : methodOopDesc;
  _selected_method : methodOopDesc;
  _vtable_index : Z;
  _resolved_appendix : Handle;
  _resolved_method_type : Handle
}.

Section LinkResolver.

Context {VM : Runtime}.

(** Accessors of [Klass] through its access flags. *)
Definition is_interface (k : klassOop) : bool :=
  flags_is_interface (klass_access_flags (klass_part k)).
Definition klass_is_abstract (k : klassOop) : bool :=
  flags_is_abstract (klass_access_flags (klass_part k)).
Definition is_super (k : klassOop) : bool :=
  flags_is_super (klass_access_flags (klass_part k)).

(** [instanceKlass::method_at_vtable]: the entry at [index] of the vtable
    embedded in the class.  Nothing is defined for an index outside of it. *)
Definition method_at_vtable (k : klassOop) (index : Z) : outcome methodHandle :=
  vm_assert (0 <=? index) ;;;
  match nth_error (vtable (klass_part k)) (Z.to_nat index) with
  | Some ve => Normal ve
  | None => Fatal
  end.

(** [FieldAccessInfo::set] *)
Definition FieldAccessInfo_set (klass : klassOop) (name : Symbol) (field_index field_offset : Z)
  (field_type : BasicType) (access_flags : AccessFlags) : FieldAccessInfo :=
  mkFieldAccessInfo klass name field_index field_offset field_type access_flags.

(** [CallInfo::set_common] *)
Definition set_common (st : State) (resolved_klass selected_klass : KlassHandle)
  (resolved_method selected_method : methodOopDesc) (index : Z) : outcome CallInfo :=
  vm_assert (symbol_eqb (signature resolved_method) (signature selected_method)) ;;;
  let result :=
    mkCallInfo resolved_klass selected_klass resolved_method selected_method
               index None None in
  if must_be_compiled selected_method then
    if is_Compiler_thread then Normal result
    else if is_not_initialized st (method_holder selected_method) then Normal result
    else compile_method selected_method ;;; Normal result
  else Normal result.

(** [CallInfo::set_static] *)
Definition set_static (st : State) (resolved_klass : KlassHandle)
  (resolved_method : methodOopDesc) : outcome CallInfo :=
  let index := nonvirtual_vtable_index in
  set_common st resolved_klass resolved_klass resolved_method resolved_method index.

(** [CallInfo::set_interface] *)
Definition set_interface (st : State) (resolved_klass selected_klass : KlassHandle)
  (resolved_method selected_method : methodOopDesc) : outcome CallInfo :=
  index <-
    (if Nat.eqb (method_holder resolved_method) Object_klass then
       vm_assert (vtable_index resolved_method =? vtable_index selected_method) ;;;
       Normal (vtable_index resolved_method)
     else Normal invalid_vtable_index) ;;
  set_common st resolved_klass selected_klass resolved_method selected_method index.

(** [CallInfo::set_virtual] *)
Definition set_virtual (st : State) (resolved_klass selected_klass : KlassHandle)
  (resolved_method selected_method : methodOopDesc) (index : Z) : outcome CallInfo :=
  vm_assert ((0 <=? index) || (index =? nonvirtual_vtable_index)) ;;;
  result <- set_common st resolved_klass selected_klass resolved_method selected_method
                       index ;;
  vm_assert (negb (is_compiled_lambda_form resolved_method)) ;;;
  Normal result.

(** [CallInfo::set_handle] *)
Definition set_handle (st : State) (resolved_method : methodHandle)
  (resolved_appendix resolved_method_type : Handle) : outcome CallInfo :=
  match resolved_method with
  | None => THROW java_lang_InternalError
  | Some m =>
      let resolved_klass := Some MethodHandle_klass in
      vm_assert (iid_eqb (intrinsic_id m) _invokeBasic || is_compiled_lambda_form m) ;;;
      let index := nonvirtual_vtable_index in
      vm_assert (vtable_index m =? index) ;;;
      result <- set_common st resolved_klass resolved_klass m m index ;;
      Normal (mkCallInfo (_resolved_klass result) (_selected_klass result)
                (_resolved_method result) (_selected_method result)
                (_vtable_index result) resolved_appendix resolved_method_type)
  end.

(* ------------------------------------------------------------------ *)
(** ** Klass resolution *)

(** [LinkResolver::check_klass_accessability] *)
Definition check_klass_accessability (ref_klass sel_klass : klassOop) : outcome unit :=
  if negb (verify_class_access ref_klass sel_klass true)
  then THROW java_lang_IllegalAccessError
  else Normal tt.

(** [LinkResolver::resolve_klass] *)
Definition resolve_klass (pool : constantPoolOopDesc) (index : Z) : outcome KlassHandle :=
  klass_ref_at pool index.

(** [LinkResolver::resolve_klass_no_update] *)
Definition resolve_klass_no_update (pool : constantPoolOopDesc) (index : Z) : outcome KlassHandle :=
  klass_ref_at_if_loaded_check pool index.

(* ------------------------------------------------------------------ *)
(** ** Method resolution

    A parameter [methodHandle& result] that a function may leave untouched
    is passed in and handed back. *)

(** [LinkResolver::lookup_method_in_klasses]: look up method in klasses,
    including static methods. *)
Definition lookup_method_in_klasses (result : methodHandle) (klass : klassOop)
  (name signature : Symbol) : outcome methodHandle :=
  let result_oop := uncached_lookup_method klass name signature in
  if oop_is_array (klass_part klass) then
    (* Only consider klass and super klass for arrays *)
    Normal result_oop
  else
    match result_oop with
    | Some m =>
        if EnableInvokeDynamic && is_signature_polymorphic (intrinsic_id m) then
          (* Do not link directly to these. *)
          Normal result
        else Normal result_oop
    | None => Normal result_oop
    end.

(** The [while] loop of [lookup_instance_method_in_klasses]. *)
Fixpoint lookup_instance_method_loop (fuel : nat) (result : methodHandle)
  (name signature : Symbol) : outcome methodHandle :=
  match result with
  | None => Normal result
  | Some m =>
      if is_static m then
        match fuel with
        | O => OutOfFuel
        | S fuel' =>
            super_klass <- deref (super (klass_part (method_holder m))) ;;
            lookup_instance_method_loop fuel'
              (uncached_lookup_method super_klass name signature) name signature
        end
      else Normal result
  end.

(** [LinkResolver::lookup_instance_method_in_klasses]: returns first
    instance method. *)
Definition lookup_instance_method_in_klasses (klass : klassOop)
  (name signature : Symbol) : outcome methodHandle :=
  lookup_instance_method_loop max_super_walk
    (uncached_lookup_method klass name signature) name signature.

(** [LinkResolver::vtable_index_of_miranda_method] *)
Definition vtable_index_of_miranda_method (klass : klassOop) (name signature : Symbol) : Z :=
  index_of_miranda klass name signature.

(** [LinkResolver::lookup_method_in_interfaces] *)
Definition lookup_method_in_interfaces (klass : klassOop) (name signature : Symbol)
  : outcome methodHandle :=
  Normal (lookup_method_in_all_interfaces klass name signature).

(** [LinkResolver::lookup_polymorphic_method].  [want_appendix] says that
    [appendix_result_or_null] is not [NULL]; the appendix and the method
    type are handed back with the result.  The comparison of parameter
    sizes under [#ifdef ASSERT], which needs [ArgumentSizeComputer], is
    left out. *)
Definition lookup_polymorphic_method (result : methodHandle) (klass : klassOop)
  (name full_signature : Symbol) (current_klass : KlassHandle) (want_appendix : bool)
  : outcome (methodHandle * Handle * Handle) :=
  let iid := signature_polymorphic_name_id name in
  if EnableInvokeDynamic && Nat.eqb klass MethodHandle_klass && negb (iid_eqb iid _none) then
    if is_signature_polymorphic_intrinsic iid then
      let keep_last_arg := is_signature_polymorphic_static iid in
      basic_signature <- lookup_basic_type_signature full_signature keep_last_arg ;;
      result <- find_method_handle_intrinsic iid basic_signature ;;
      match result with
      | Some m =>
          vm_assert (is_method_handle_intrinsic m) ;;;
          vm_assert (negb (iid_eqb (intrinsic_id m) _invokeGeneric)) ;;;
          vm_assert (symbol_eqb basic_signature (signature m)) ;;;
          Normal (result, None, None)
      | None => Normal (result, None, None)
      end
    else if iid_eqb iid _invokeGeneric && negb is_Compiler_thread && want_appendix then
      ensure_MethodHandleNatives_booted ;;;
      r <- find_method_handle_invoker name full_signature current_klass ;;
      let '(result, appendix, method_type) := r in
      match result with
      | Some _ => Normal (result, appendix, method_type)
      | None => Normal (result, None, None)
      end
    else Normal (result, None, None)
  else Normal (result, None, None).

(** [LinkResolver::check_method_accessability] *)
Definition check_method_accessability (ref_klass resolved_klass sel_klass : klassOop)
  (sel_method : methodOopDesc) : outcome unit :=
  let flags := access_flags sel_method in
  (* Special case: arrays always override "clone". JVMS 2.15. *)
  flags <-
    (if symbol_eqb (name sel_method) vmSymbols.clone_name
        && Nat.eqb sel_klass Object_klass
        && oop_is_array (klass_part resolved_klass)
     then
       (* We need to change "protected" to "public". *)
       vm_assert (flags_is_protected flags) ;;;
       let new_flags := flags in
       let new_flags := Z.land new_flags (Z.lnot JVM_ACC_PROTECTED) in
       let new_flags := Z.lor new_flags JVM_ACC_PUBLIC in
       Normal new_flags
     else Normal flags) ;;
  if negb (verify_field_access ref_klass resolved_klass sel_klass flags true)
  then THROW java_lang_IllegalAccessError
  else Normal tt.

(** [LinkResolver::check_method_loader_constraints] *)
Definition check_method_loader_constraints (resolved_method : methodOopDesc)
  (resolved_klass : klassOop) (method_name method_signature : Symbol)
  (current_klass : klassOop) : outcome unit :=
  let loader := class_loader (klass_part current_klass) in
  let class_loader := class_loader (klass_part (method_holder resolved_method)) in
  failed_type_name <- check_signature_loaders method_signature loader class_loader true ;;
  match failed_type_name with
  | Some _ => THROW java_lang_LinkageError
  | None => Normal tt
  end.

(** Steps 2 and 3 of [LinkResolver::resolve_method]: the method found, and
    the exception of the polymorphic lookup that was caught and cleared. *)
Definition resolve_method_lookup (resolved_method : methodHandle) (resolved_klass : klassOop)
  (method_name method_signature : Symbol) (current_klass : KlassHandle)
  : outcome (methodHandle * option Throwable) :=
  (* 2. lookup method in resolved klass and its super klasses *)
  resolved_method <-
    lookup_method_in_klasses resolved_method resolved_klass method_name method_signature ;;
  if is_null resolved_method && negb (oop_is_array (klass_part resolved_klass)) then
    (* 3. lookup method in all the interfaces implemented by the resolved klass *)
    resolved_method <-
      lookup_method_in_interfaces resolved_klass method_name method_signature ;;
    if is_null resolved_method then
      (* JSR 292: see if this is an implicitly generated method *)
      match lookup_polymorphic_method resolved_method resolved_klass method_name
              method_signature current_klass false with
      | Normal (resolved_method, _, _) => Normal (resolved_method, None)
      | Pending nested_exception => Normal (resolved_method, Some nested_exception)
      | Fatal => Fatal
      | OutOfFuel => OutOfFuel
      end
    else Normal (resolved_method, None)
  else Normal (resolved_method, None).

(** Steps 5 and 6 of [LinkResolver::resolve_method]. *)
Definition resolve_method_checks (resolved_method : methodOopDesc) (resolved_klass : klassOop)
  (method_name method_signature : Symbol) (current_klass : KlassHandle)
  (check_access : bool) : outcome methodOopDesc :=
  (* 5. check if method is concrete *)
  if is_abstract resolved_method && negb (klass_is_abstract resolved_klass) then
    THROW java_lang_AbstractMethodError
  else
    (* 6. access checks, access checking may be turned off when calling
          from within the VM. *)
    if check_access then
      vm_assert (negb (is_null current_klass)) ;;;
      current <- deref current_klass ;;
      (* check if method can be accessed by the referring class *)
      check_method_accessability current resolved_klass
        (method_holder resolved_method) resolved_method ;;;
      (* check loader constraints *)
      check_method_loader_constraints resolved_method resolved_klass method_name
        method_signature current ;;;
      Normal resolved_method
    else Normal resolved_method.

(** [LinkResolver::resolve_method] *)
Definition resolve_method (resolved_method : methodHandle) (resolved_klass : klassOop)
  (method_name method_signature : Symbol) (current_klass : KlassHandle)
  (check_access : bool) : outcome methodOopDesc :=
  (* 1. check if klass is not interface *)
  if is_interface resolved_klass then THROW java_lang_IncompatibleClassChangeError
  else
    found <- resolve_method_lookup resolved_method resolved_klass method_name
               method_signature current_klass ;;
    let '(resolved_method, nested_exception) := found in
    match resolved_method with
    | None =>
        (* 4. method lookup failed *)
        THROW_CAUSE java_lang_NoSuchMethodError nested_exception
    | Some m =>
        resolve_method_checks m resolved_klass method_name method_signature
          current_klass check_access
    end.

(** [LinkResolver::resolve_interface_method] *)
Definition resolve_interface_method (resolved_klass : klassOop)
  (method_name method_signature : Symbol) (current_klass : KlassHandle)
  (check_access : bool) : outcome methodOopDesc :=
  (* check if klass is interface *)
  if negb (is_interface resolved_klass) then THROW java_lang_IncompatibleClassChangeError
  else
    (* lookup method in this interface or its super, java.lang.Object *)
    resolved_method <-
      lookup_instance_method_in_klasses resolved_klass method_name method_signature ;;
    resolved_method <-
      (if is_null resolved_method && negb (oop_is_array (klass_part resolved_klass)) then
         (* lookup method in all the super-interfaces *)
         lookup_method_in_interfaces resolved_klass method_name method_signature
       else Normal resolved_method) ;;
    match resolved_method with
    | None => THROW java_lang_NoSuchMethodError
    | Some m =>
        if check_access then
          current <- deref current_klass ;;
          check_method_loader_constraints m resolved_klass method_name method_signature
            current ;;;
          Normal m
        else Normal m
    end.

(** [LinkResolver::resolve_method_statically]: the resolved method and the
    resolved klass. *)
Definition resolve_method_statically (code : Bytecode) (pool : constantPoolOopDesc)
  (index : Z) : outcome (methodOopDesc * KlassHandle) :=
  (* resolve klass *)
  if bc_eqb code _invokedynamic then
    let resolved_klass := MethodHandle_klass in
    let method_name := vmSymbols.invoke_name in
    let method_signature := signature_ref_at pool index in
    let current_klass := Some (pool_holder pool) in
    m <- resolve_method None resolved_klass method_name method_signature current_klass true ;;
    Normal (m, Some resolved_klass)
  else
    resolved_klass <- resolve_klass pool index ;;
    let method_name := name_ref_at pool index in
    let method_signature := signature_ref_at pool index in
    let current_klass := Some (pool_holder pool) in
    let preresolved :=
      if has_preresolution pool
         || match resolved_klass with
            | Some k => Nat.eqb k MethodHandle_klass
                        && is_signature_polymorphic_name_in k method_name
            | None => false
            end
      then method_at_if_loaded pool index
      else None in
    match preresolved with
    | Some result_oop => Normal (result_oop, resolved_klass)
    | None =>
        klass <- deref resolved_klass ;;
        m <- (if bc_eqb code _invokeinterface then
                resolve_interface_method klass method_name method_signature
                  current_klass true
              else
                resolve_method None klass method_name method_signature current_klass true) ;;
        Normal (m, resolved_klass)
    end.

(* ------------------------------------------------------------------ *)
(** ** Field resolution *)

(** [LinkResolver::check_field_accessability] *)
Definition check_field_accessability (ref_klass resolved_klass sel_klass : klassOop)
  (fd : fieldDescriptor) : outcome unit :=
  if negb (verify_field_access ref_klass resolved_klass sel_klass (fd_access_flags fd) true)
  then THROW java_lang_IllegalAccessError
  else Normal tt.

(** [LinkResolver::check_field_loader_constraints] *)
Definition check_field_loader_constraints (ref_klass sel_klass : klassOop)
  (name sig : Symbol) : outcome unit :=
  let ref_loader := class_loader (klass_part ref_klass) in
  let sel_loader := class_loader (klass_part sel_klass) in
  failed_type_name <- check_signature_loaders sig ref_loader sel_loader false ;;
  match failed_type_name with
  | Some _ => THROW java_lang_LinkageError
  | None => Normal tt
  end.

(** A step that leaves the state alone. *)
Definition lift {A : Type} (c : outcome A) : stateful A :=
  fun st => (c, st).

(** [LinkResolver::resolve_field], with [update_pool]. *)
Definition resolve_field (pool : constantPoolOopDesc) (index : Z) (byte : Bytecode)
  (check_only update_pool : bool) : stateful FieldAccessInfo :=
  _ <~ lift (vm_assert (bc_eqb byte _getstatic || bc_eqb byte _putstatic
                        || bc_eqb byte _getfield || bc_eqb byte _putfield)) ;;
  let is_static := bc_eqb byte _getstatic || bc_eqb byte _putstatic in
  let is_put := bc_eqb byte _putfield || bc_eqb byte _putstatic in
  (* resolve specified klass *)
  resolved_klass <~ lift (if update_pool then resolve_klass pool index
                          else resolve_klass_no_update pool index) ;;
  let field := name_ref_at pool index in
  let sig := signature_ref_at pool index in
  (* Check if there's a resolved klass containing the field *)
  match resolved_klass with
  | None => lift (THROW java_lang_NoSuchFieldError)
  | Some resolved_klass =>
      (* Resolve instance field *)
      match find_field resolved_klass field sig with
      | None => lift (THROW java_lang_NoSuchFieldError)
      | Some (sel_klass, fd) =>
          (* check access *)
          let ref_klass := pool_holder pool in
          _ <~ lift (check_field_accessability ref_klass resolved_klass sel_klass fd) ;;
          (* check for errors *)
          if negb (Bool.eqb is_static (fd_is_static fd)) then
            lift (THROW java_lang_IncompatibleClassChangeError)
          else
            (* Final fields can only be accessed from its own class. *)
            if is_put && flags_is_final (fd_access_flags fd)
               && negb (Nat.eqb sel_klass (pool_holder pool))
            then lift (THROW java_lang_IllegalAccessError)
            else
              (* initialize resolved_klass if necessary *)
              _ <~ (if is_static && negb check_only then initialize sel_klass
                    else lift (Normal tt)) ;;
              _ <~ lift (check_field_loader_constraints ref_klass sel_klass field sig) ;;
              (* return information *)
              let holder := fd_field_holder fd in
              let name := fd_name fd in
              lift (Normal (FieldAccessInfo_set holder name (fd_index fd) (fd_offset fd)
                              (fd_field_type fd) (fd_access_flags fd)))
      end
  end.

(** [LinkResolver::resolve_field], the overload that updates the pool. *)
Definition resolve_field' (pool : constantPoolOopDesc) (index : Z) (byte : Bytecode)
  (check_only : bool) : stateful FieldAccessInfo :=
  resolve_field pool index byte check_only true.

(* ------------------------------------------------------------------ *)
(** ** Invoke resolution

    resolved_method: the specified method (static receiver specified via
    constant pool index); sel_method: the selected method (selected via
    run-time lookup); resolved_klass: the specified klass; recv_klass: the
    receiver klass. *)

(** [LinkResolver::linktime_resolve_static_method] *)
Definition linktime_resolve_static_method (resolved_method : methodHandle)
  (resolved_klass : klassOop) (method_name method_signature : Symbol)
  (current_klass : KlassHandle) (check_access : bool) : outcome methodOopDesc :=
  resolved_method <- resolve_method resolved_method resolved_klass method_name
                       method_signature current_klass check_access ;;
  vm_assert (negb (symbol_eqb (name resolved_method) vmSymbols.class_initializer_name)) ;;;
  (* check if static *)
  if negb (is_static resolved_method) then THROW java_lang_IncompatibleClassChangeError
  else Normal resolved_method.

(** [LinkResolver::resolve_static_call] *)
Definition resolve_static_call (resolved_klass : klassOop)
  (method_name method_signature : Symbol) (current_klass : KlassHandle)
  (check_access initialize_class : bool) : stateful CallInfo :=
  resolved_method <~ lift (linktime_resolve_static_method None resolved_klass method_name
                             method_signature current_klass check_access) ;;
  let resolved_klass := method_holder resolved_method in
  fun st =>
    (* Initialize klass (this should only happen if everything is ok) *)
    if initialize_class && should_be_initialized st resolved_klass then
      (_ <~ initialize resolved_klass ;;
       resolved_method <~ lift (linktime_resolve_static_method (Some resolved_method)
                                  resolved_klass method_name method_signature
                                  current_klass check_access) ;;
       (* setup result *)
       reading (fun st => set_static st (Some resolved_klass) resolved_method)) st
    else
      reading (fun st => set_static st (Some resolved_klass) resolved_method) st.

(** [LinkResolver::linktime_resolve_special_method] *)
Definition linktime_resolve_special_method (resolved_method : methodHandle)
  (resolved_klass : klassOop) (method_name method_signature : Symbol)
  (current_klass : KlassHandle) (check_access : bool) : outcome methodOopDesc :=
  resolved_method <- resolve_method resolved_method resolved_klass method_name
                       method_signature current_klass check_access ;;
  (* check if method name is <init>, that it is found in same klass as static type *)
  if symbol_eqb (name resolved_method) vmSymbols.object_initializer_name
     && negb (Nat.eqb (method_holder resolved_method) resolved_klass)
  then THROW java_lang_NoSuchMethodError
  else
    (* check if not static *)
    if is_static resolved_method then THROW java_lang_IncompatibleClassChangeError
    else Normal resolved_method.

(** The first block of [runtime_resolve_special_method]: the selected
    method, which is the resolved method unless we have an old-style
    lookup. *)
Definition special_select_method (resolved_method : methodOopDesc) (resolved_klass : klassOop)
  (current_klass : KlassHandle) (check_access : bool) : outcome methodOopDesc :=
  let sel_method := resolved_method in
  let method_klass := method_holder resolved_method in
  if check_access then
    current <- deref current_klass ;;
    if (* a) check if ACC_SUPER flag is set for the current class *)
       (is_super current || negb AllowNonVirtualCalls)
       (* b) check if the method class is a superclass of the current class *)
       && is_subtype_of current method_klass && negb (Nat.eqb current method_klass)
       (* c) check if the method is not <init> *)
       && negb (symbol_eqb (name resolved_method) vmSymbols.object_initializer_name)
    then
      (* Lookup super method *)
      super_klass <- deref (super (klass_part current)) ;;
      sel_method <- lookup_instance_method_in_klasses super_klass
                      (name resolved_method) (signature resolved_method) ;;
      (* check if found *)
      match sel_method with
      | None => THROW java_lang_AbstractMethodError
      | Some sel =>
          if negb (methodOop_eqb sel resolved_method) then
            check_method_loader_constraints sel resolved_klass (name sel) (signature sel)
              current ;;;
            Normal sel
          else Normal sel
      end
    else Normal sel_method
  else Normal sel_method.

(** [LinkResolver::runtime_resolve_special_method] *)
Definition runtime_resolve_special_method (st : State) (resolved_method : methodOopDesc)
  (resolved_klass : klassOop) (current_klass : KlassHandle) (check_access : bool)
  : outcome CallInfo :=
  (* resolved method is selected method unless we have an old-style lookup *)
  sel_method <- special_select_method resolved_method resolved_klass current_klass
                  check_access ;;
  (* check if not static *)
  if is_static sel_method then THROW java_lang_IncompatibleClassChangeError
  else
    (* check if abstract *)
    if is_abstract sel_method then THROW java_lang_AbstractMethodError
    else
      (* setup result *)
      set_static st (Some resolved_klass) sel_method.

(** [LinkResolver::resolve_special_call] *)
Definition resolve_special_call (st : State) (resolved_klass : klassOop)
  (method_name method_signature : Symbol) (current_klass : KlassHandle)
  (check_access : bool) : outcome CallInfo :=
  resolved_method <- linktime_resolve_special_method None resolved_klass method_name
                       method_signature current_klass check_access ;;
  runtime_resolve_special_method st resolved_method resolved_klass current_klass check_access.

(** [LinkResolver::linktime_resolve_virtual_method] *)
Definition linktime_resolve_virtual_method (resolved_method : methodHandle)
  (resolved_klass : klassOop) (method_name method_signature : Symbol)
  (current_klass : KlassHandle) (check_access : bool) : outcome methodOopDesc :=
  (* normal method resolution *)
  resolved_method <- resolve_method resolved_method resolved_klass method_name
                       method_signature current_klass check_access ;;
  vm_assert (negb (symbol_eqb (name resolved_method) vmSymbols.object_initializer_name)) ;;;
  vm_assert (negb (symbol_eqb (name resolved_method) vmSymbols.class_initializer_name)) ;;;
  (* check if not static *)
  if is_static resolved_method then THROW java_lang_IncompatibleClassChangeError
  else Normal resolved_method.

(** The lookup of [runtime_resolve_virtual_method] based on the receiver
    klass: the vtable index and the selected method. *)
Definition virtual_select_method (resolved_method : methodOopDesc) (resolved_klass : klassOop)
  (recv_klass : KlassHandle) : outcome (Z * methodHandle) :=
  if is_interface (method_holder resolved_method) then
    (* miranda method *)
    let index := vtable_index_of_miranda_method resolved_klass (name resolved_method)
                   (signature resolved_method) in
    vm_assert (0 <=? index) ;;;
    inst <- deref recv_klass ;;
    selected_method <- method_at_vtable inst index ;;
    Normal (index, selected_method)
  else
    (* at this point we are sure that resolved_method is virtual and not
       a miranda method; therefore, it must have a valid vtable index. *)
    let index := vtable_index resolved_method in
    (* We could get a negative vtable_index for final methods *)
    if index =? nonvirtual_vtable_index then
      vm_assert (can_be_statically_bound resolved_method) ;;;
      Normal (index, Some resolved_method)
    else
      inst <- deref recv_klass ;;
      selected_method <- method_at_vtable inst index ;;
      Normal (index, selected_method).

(** [LinkResolver::runtime_resolve_virtual_method] *)
Definition runtime_resolve_virtual_method (st : State) (resolved_method : methodOopDesc)
  (resolved_klass : klassOop) (recv : Handle) (recv_klass : KlassHandle)
  (check_null_and_abstract : bool) : outcome CallInfo :=
  (* assert(recv.is_null() || recv->is_oop()): a handle that is not null
     holds an oop *)
  (* runtime method resolution *)
  if check_null_and_abstract && is_null recv then
    (* check if receiver exists *)
    THROW java_lang_NullPointerException
  else
    (* Virtual methods cannot be resolved before its klass has been linked
       (the source asserts this twice) *)
    vm_assert (is_linked st (method_holder resolved_method)) ;;;
    (* do lookup based on receiver klass using the vtable index *)
    sel <- virtual_select_method resolved_method resolved_klass recv_klass ;;
    let '(index, selected_method) := sel in
    (* check if method exists *)
    match selected_method with
    | None => THROW java_lang_AbstractMethodError
    | Some selected_method =>
        (* check if abstract *)
        if check_null_and_abstract && is_abstract selected_method then
          THROW java_lang_AbstractMethodError
        else
          (* setup result *)
          set_virtual st (Some resolved_klass) recv_klass resolved_method selected_method
            index
    end.

(** [LinkResolver::resolve_virtual_call] *)
Definition resolve_virtual_call (st : State) (recv : Handle) (receiver_klass : KlassHandle)
  (resolved_klass : klassOop) (method_name method_signature : Symbol)
  (current_klass : KlassHandle) (check_access check_null_and_abstract : bool)
  : outcome CallInfo :=
  resolved_method <- linktime_resolve_virtual_method None resolved_klass method_name
                       method_signature current_klass check_access ;;
  runtime_resolve_virtual_method st resolved_method resolved_klass recv receiver_klass
    check_null_and_abstract.

(** [LinkResolver::linktime_resolve_interface_method] *)
Definition linktime_resolve_interface_method (resolved_klass : klassOop)
  (method_name method_signature : Symbol) (current_klass : KlassHandle)
  (check_access : bool) : outcome methodOopDesc :=
  (* normal interface method resolution *)
  resolved_method <- resolve_interface_method resolved_klass method_name method_signature
                       current_klass check_access ;;
  vm_assert (negb (symbol_eqb (name resolved_method) vmSymbols.object_initializer_name)) ;;;
  vm_assert (negb (symbol_eqb (name resolved_method) vmSymbols.class_initializer_name)) ;;;
  Normal resolved_method.

(** [LinkResolver::runtime_resolve_interface_method] *)
Definition runtime_resolve_interface_method (st : State) (resolved_method : methodOopDesc)
  (resolved_klass : klassOop) (recv : Handle) (recv_klass : KlassHandle)
  (check_null_and_abstract : bool) : outcome CallInfo :=
  (* check if receiver exists *)
  if check_null_and_abstract && is_null recv then THROW java_lang_NullPointerException
  else
    receiver <- deref recv_klass ;;
    (* check if receiver klass implements the resolved interface *)
    if negb (is_subtype_of receiver resolved_klass) then
      THROW java_lang_IncompatibleClassChangeError
    else
      (* do lookup based on receiver klass *)
      sel_method <- lookup_instance_method_in_klasses receiver (name resolved_method)
                      (signature resolved_method) ;;
      (* check if method exists *)
      match sel_method with
      | None => THROW java_lang_AbstractMethodError
      | Some sel_method =>
          (* check if public *)
          if negb (is_public sel_method) then THROW java_lang_IllegalAccessError
          else
            (* check if abstract *)
            if check_null_and_abstract && is_abstract sel_method then
              THROW java_lang_AbstractMethodError
            else
              (* setup result *)
              set_interface st (Some resolved_klass) recv_klass resolved_method sel_method
      end.

(** [LinkResolver::resolve_interface_call] *)
Definition resolve_interface_call (st : State) (recv : Handle) (recv_klass : KlassHandle)
  (resolved_klass : klassOop) (method_name method_signature : Symbol)
  (current_klass : KlassHandle) (check_access check_null_and_abstract : bool)
  : outcome CallInfo :=
  resolved_method <- linktime_resolve_interface_method resolved_klass method_name
                       method_signature current_klass check_access ;;
  runtime_resolve_interface_method st resolved_method resolved_klass recv recv_klass
    check_null_and_abstract.

(** [EXCEPTION_MARK] with [CLEAR_PENDING_EXCEPTION]: a pending exception
    becomes the given default. *)
Definition or_default {A B : Type} (c : outcome A) (f : A -> B) (default : B) : outcome B :=
  match c with
  | Normal a => Normal (f a)
  | Pending _ => Normal default
  | Fatal => Fatal
  | OutOfFuel => OutOfFuel
  end.

(** [LinkResolver::linktime_resolve_interface_method_or_null] *)
Definition linktime_resolve_interface_method_or_null (resolved_klass : klassOop)
  (method_name method_signature : Symbol) (current_klass : KlassHandle)
  (check_access : bool) : outcome methodHandle :=
  or_default (linktime_resolve_interface_method resolved_klass method_name method_signature
                current_klass check_access) Some None.

(** [LinkResolver::linktime_resolve_virtual_method_or_null] *)
Definition linktime_resolve_virtual_method_or_null (resolved_klass : klassOop)
  (method_name method_signature : Symbol) (current_klass : KlassHandle)
  (check_access : bool) : outcome methodHandle :=
  or_default (linktime_resolve_virtual_method None resolved_klass method_name
                method_signature current_klass check_access) Some None.

(** [LinkResolver::resolve_virtual_call_or_null] *)
Definition resolve_virtual_call_or_null (st : State) (receiver_klass : KlassHandle)
  (resolved_klass : klassOop) (name signature : Symbol) (current_klass : KlassHandle)
  : outcome methodHandle :=
  or_default (resolve_virtual_call st None receiver_klass resolved_klass name signature
                current_klass true false)
    (fun info => Some (_selected_method info)) None.

(** [LinkResolver::resolve_interface_call_or_null] *)
Definition resolve_interface_call_or_null (st : State) (receiver_klass : KlassHandle)
  (resolved_klass : klassOop) (name signature : Symbol) (current_klass : KlassHandle)
  : outcome methodHandle :=
  or_default (resolve_interface_call st None receiver_klass resolved_klass name signature
                current_klass true false)
    (fun info => Some (_selected_method info)) None.

(** [LinkResolver::resolve_virtual_vtable_index] *)
Definition resolve_virtual_vtable_index (st : State) (receiver_klass : KlassHandle)
  (resolved_klass : klassOop) (name signature : Symbol) (current_klass : KlassHandle)
  : outcome Z :=
  or_default (resolve_virtual_call st None receiver_klass resolved_klass name signature
                current_klass true false)
    _vtable_index invalid_vtable_index.

(** [LinkResolver::resolve_static_call_or_null]; the state the call leaves
    is kept. *)
Definition resolve_static_call_or_null (resolved_klass : klassOop) (name signature : Symbol)
  (current_klass : KlassHandle) : State -> outcome methodHandle * State :=
  fun st =>
    let '(info, st') :=
      resolve_static_call resolved_klass name signature current_klass true false st in
    (or_default info (fun info => Some (_selected_method info)) None, st').

(** [LinkResolver::resolve_special_call_or_null] *)
Definition resolve_special_call_or_null (st : State) (resolved_klass : klassOop)
  (name signature : Symbol) (current_klass : KlassHandle) : outcome methodHandle :=
  or_default (resolve_special_call st resolved_klass name signature current_klass true)
    (fun info => Some (_selected_method info)) None.

(* ------------------------------------------------------------------ *)
(** ** ConstantPool entries *)

(** [LinkResolver::resolve_pool]: resolved klass, name, signature and
    current klass. *)
Definition resolve_pool (pool : constantPoolOopDesc) (index : Z)
  : outcome (KlassHandle * Symbol * Symbol * KlassHandle) :=
  (* resolve klass *)
  resolved_klass <- resolve_klass pool index ;;
  (* Get name, signature, and static klass *)
  let method_name := name_ref_at pool index in
  let method_signature := signature_ref_at pool index in
  let current_klass := Some (pool_holder pool) in
  Normal (resolved_klass, method_name, method_signature, current_klass).

(** [LinkResolver::resolve_invokestatic] *)
Definition resolve_invokestatic (pool : constantPoolOopDesc) (index : Z) : stateful CallInfo :=
  p <~ lift (resolve_pool pool index) ;;
  let '(resolved_klass, method_name, method_signature, current_klass) := p in
  resolved_klass <~ lift (deref resolved_klass) ;;
  resolve_static_call resolved_klass method_name method_signature current_klass true true.

(** [LinkResolver::resolve_invokespecial] *)
Definition resolve_invokespecial (st : State) (pool : constantPoolOopDesc) (index : Z)
  : outcome CallInfo :=
  p <- resolve_pool pool index ;;
  let '(resolved_klass, method_name, method_signature, current_klass) := p in
  resolved_klass <- deref resolved_klass ;;
  resolve_special_call st resolved_klass method_name method_signature current_klass true.

(** [LinkResolver::resolve_invokevirtual] *)
Definition resolve_invokevirtual (st : State) (recv : Handle) (pool : constantPoolOopDesc)
  (index : Z) : outcome CallInfo :=
  p <- resolve_pool pool index ;;
  let '(resolved_klass, method_name, method_signature, current_klass) := p in
  let recvrKlass := match recv with None => None | Some r => Some (oop_klass r) end in
  resolved_klass <- deref resolved_klass ;;
  resolve_virtual_call st recv recvrKlass resolved_klass method_name method_signature
    current_klass true true.

(** [LinkResolver::resolve_invokeinterface] *)
Definition resolve_invokeinterface (st : State) (recv : Handle) (pool : constantPoolOopDesc)
  (index : Z) : outcome CallInfo :=
  p <- resolve_pool pool index ;;
  let '(resolved_klass, method_name, method_signature, current_klass) := p in
  let recvrKlass := match recv with None => None | Some r => Some (oop_klass r) end in
  resolved_klass <- deref resolved_klass ;;
  resolve_interface_call st recv recvrKlass resolved_klass method_name method_signature
    current_klass true true.

(** [LinkResolver::resolve_handle_call] *)
Definition resolve_handle_call (st : State) (resolved_klass : klassOop)
  (method_name method_signature : Symbol) (current_klass : KlassHandle)
  (check_access : bool) : outcome CallInfo :=
  (* JSR 292: this must be an implicitly generated method
     MethodHandle.invokeExact or similar *)
  vm_assert (Nat.eqb resolved_klass MethodHandle_klass) ;;;
  vm_assert (is_signature_polymorphic_name method_name) ;;;
  r <- lookup_polymorphic_method None resolved_klass method_name method_signature
         current_klass true ;;
  let '(resolved_method, resolved_appendix, resolved_method_type) := r in
  (if check_access then
     let iid := signature_polymorphic_name_id method_name in
     if is_signature_polymorphic_intrinsic iid then
       (* Check if method can be accessed by the referring class. *)
       vm_assert (iid_eqb iid _invokeBasic) ;;;
       vm_assert (negb (is_null current_klass)) ;;;
       current <- deref current_klass ;;
       m <- deref resolved_method ;;
       check_method_accessability current resolved_klass (method_holder m) m
     else
       (* Java code is free to arbitrarily link signature-polymorphic invokers. *)
       vm_assert (iid_eqb iid _invokeGeneric) ;;;
       vm_assert (is_signature_polymorphic_public_name resolved_klass method_name)
   else Normal tt) ;;;
  set_handle st resolved_method resolved_appendix resolved_method_type.

(** [LinkResolver::resolve_invokehandle] *)
Definition resolve_invokehandle (st : State) (pool : constantPoolOopDesc) (index : Z)
  : outcome CallInfo :=
  vm_assert EnableInvokeDynamic ;;;
  p <- resolve_pool pool index ;;
  let '(resolved_klass, method_name, method_signature, current_klass) := p in
  resolved_klass <- deref resolved_klass ;;
  resolve_handle_call st resolved_klass method_name method_signature current_klass true.

(** [LinkResolver::resolve_dynamic_call] *)
Definition resolve_dynamic_call (st : State) (bootstrap_specifier : Handle)
  (method_name method_signature : Symbol) (current_klass : KlassHandle)
  : outcome CallInfo :=
  (* JSR 292: this must resolve to an implicitly generated method
     MH.linkToCallSite *)
  match find_dynamic_call_site_invoker current_klass bootstrap_specifier method_name
          method_signature with
  | Pending pending_exception =>
      if is_a pending_exception java_lang_BootstrapMethodError then
        (* throw these guys, since they are already wrapped *)
        Pending pending_exception
      else if negb (is_a pending_exception java_lang_LinkageError) then
        (* intercept only LinkageErrors which might have failed to wrap *)
        Pending pending_exception
      else
        let nested_exception := Some pending_exception in
        THROW_CAUSE java_lang_BootstrapMethodError nested_exception
  | Normal (resolved_method, resolved_appendix, resolved_method_type) =>
      set_handle st resolved_method resolved_appendix resolved_method_type
  | Fatal => Fatal
  | OutOfFuel => OutOfFuel
  end.

(** [LinkResolver::resolve_invokedynamic]; marking the pool header
    ([set_invokedynamic]) is outside of this model. *)
Definition resolve_invokedynamic (st : State) (pool : constantPoolOopDesc) (index : Z)
  : outcome CallInfo :=
  vm_assert EnableInvokeDynamic ;;;
  let method_name := name_ref_at pool index in
  let method_signature := signature_ref_at pool index in
  let current_klass := Some (pool_holder pool) in
  (* Resolve the bootstrap specifier (BSM + optional arguments). *)
  (* Check if CallSite has been bound already: *)
  let cpce := secondary_entry_at pool index in
  bootstrap_specifier <-
    (if is_f1_null cpce then
       let pool_index := main_entry_constant_pool_index pool index in
       bsm_info <- resolve_bootstrap_specifier_at pool pool_index ;;
       Normal (Some bsm_info)
     else Normal None) ;;
  if negb (is_f1_null cpce) then
    let method := f2_as_vfinal_method cpce in
    let appendix := appendix_if_resolved cpce in
    let method_type := method_type_if_resolved cpce in
    set_handle st method appendix method_type
  else
    resolve_dynamic_call st bootstrap_specifier method_name method_signature current_klass.

(** [LinkResolver::resolve_invoke] *)
Definition resolve_invoke (recv : Handle) (pool : constantPoolOopDesc) (index : Z)
  (byte : Bytecode) : State -> option (outcome CallInfo) * State :=
  fun st =>
    match byte with
    | _invokestatic =>
        let '(r, st') := resolve_invokestatic pool index st in (Some r, st')
    | _invokespecial => (Some (resolve_invokespecial st pool index), st)
    | _invokevirtual => (Some (resolve_invokevirtual st recv pool index), st)
    | _invokehandle => (Some (resolve_invokehandle st pool index), st)
    | _invokedynamic => (Some (resolve_invokedynamic st pool index), st)
    | _invokeinterface => (Some (resolve_invokeinterface st recv pool index), st)
    | _ => (None, st)
    end.

End LinkResolver.

(* ------------------------------------------------------------------ *)
(** ** What the design promises about the collaborators *)

Section Contracts.

Context {VM : Runtime}.

(** Modelled from the spec: [Reflection::verify_field_access] is defined in
    reflection.cpp, which is not among these sources; section 4.3 of the
    design says of it "public: always permitted". *)
Definition public_always_permitted : Prop :=
  forall (ref_klass resolved_klass sel_klass : klassOop) (flags : AccessFlags)
         (classloader_only : bool),
    flags_is_public flags = true ->
    verify_field_access ref_klass resolved_klass sel_klass flags classloader_only = true.

(** Modelled from the spec: two loaders disagree on a type name when
    "resolving that type name independently through" each of them "would
    yield two different concrete types" (section 4.4); [find_class] is the
    Type Registry's [lookup(name, loader)]. *)
Definition loaders_disagree (find_class : Handle -> Symbol -> option klassOop)
  (loader1 loader2 : Handle) (type_name : Symbol) : Prop :=
  exists c1 c2 : klassOop,
    find_class loader1 type_name = Some c1 /\
    find_class loader2 type_name = Some c2 /\
    c1 <> c2.

(** Modelled from the spec: [SystemDictionary::check_signature_loaders] is
    defined in systemDictionary.cpp, which is not among these sources;
    section 4.4 of the design says that it fails "for every type name
    occurring in a resolved member's descriptor" on which the two loaders
    disagree: it then hands back a failed type name. *)
Definition check_signature_loaders_contract (type_names : Symbol -> list Symbol)
  (find_class : Handle -> Symbol -> option klassOop) : Prop :=
  forall (sig : Symbol) (loader1 loader2 : Handle) (is_method : bool) (type_name : Symbol),
    In type_name (type_names sig) ->
    loaders_disagree find_class loader1 loader2 type_name ->
    exists failed_type_name : string,
      check_signature_loaders sig loader1 loader2 is_method = Normal (Some failed_type_name).

(** Modelled from the spec: [uncached_lookup_method] is defined in
    instanceKlass.cpp, which is not among these sources; section 4.1 of the
    design says that it uses "exact name+descriptor match". *)
Definition lookup_matches_exactly : Prop :=
  forall (k : klassOop) (name' signature' : Symbol) (m : methodOopDesc),
    uncached_lookup_method k name' signature' = Some m ->
    name m = name' /\ signature m = signature'.

(** A class hierarchy is well founded when a rank decreases along [super]
    and a lookup that starts at a class finds methods of that class or of
    a class of smaller rank. *)
Definition hierarchy_ranked (rank : klassOop -> nat) : Prop :=
  (forall k s : klassOop, super (klass_part k) = Some s -> (rank s < rank k)%nat) /\
  (forall (k : klassOop) (name signature : Symbol) (m : methodOopDesc),
      uncached_lookup_method k name signature = Some m ->
      (rank (method_holder m) <= rank k)%nat).





End Contracts.

(* ------------------------------------------------------------------ *)
(** ** A small class table

    Classes, methods and fields on which the resolver is run: [Object], a
    chain [A], [B], [C], an interface [Shape] with implementations, an
    array class, [MethodHandle], and a class [X] defined by another loader
    than its caller.  The collaborators are computed from the table. *)

Module World.

Definition Object_k : klassOop := 0%nat.
Definition A_k : klassOop := 1%nat.
Definition B_k : klassOop := 2%nat.
Definition C_k : klassOop := 3%nat.
Definition Shape_k : klassOop := 4%nat.
Definition IntArray_k : klassOop := 5%nat.
Definition MethodHandle_k : klassOop := 6%nat.
Definition Square_k : klassOop := 7%nat.
Definition Circle_k : klassOop := 8%nat.
Definition Other_k : klassOop := 9%nat.
Definition X_k : klassOop := 10%nat.
Definition T1_k : klassOop := 11%nat.
Definition T3_k : klassOop := 12%nat.
Definition LambdaForm_k : klassOop := 13%nat.
Definition AbstractShape_k : klassOop := 14%nat.
Definition Disk_k : klassOop := 15%nat.

Definition loader1 : Handle := Some 1%nat.
Definition loader3 : Handle := Some 3%nat.

Definition JVM_ACC_NATIVE : Z := 0x0100.

Definition Object_clone : methodOopDesc :=
  mkMethod "clone" "()Ljava/lang/Object;" Object_k (JVM_ACC_PROTECTED + JVM_ACC_NATIVE) 0
    _none false.
Definition Object_registerNatives : methodOopDesc :=
  mkMethod "registerNatives" "()V" Object_k
    (JVM_ACC_PRIVATE + JVM_ACC_STATIC + JVM_ACC_NATIVE) nonvirtual_vtable_index _none false.
Definition A_m : methodOopDesc :=
  mkMethod "m" "()V" A_k JVM_ACC_PUBLIC 1 _none false.
Definition B_m : methodOopDesc :=
  mkMethod "m" "()V" B_k JVM_ACC_PUBLIC 1 _none false.
Definition A_s : methodOopDesc :=
  mkMethod "s" "()V" A_k (JVM_ACC_PUBLIC + JVM_ACC_STATIC) nonvirtual_vtable_index _none false.
Definition A_t : methodOopDesc :=
  mkMethod "t" "()V" A_k (JVM_ACC_PUBLIC + JVM_ACC_FINAL) nonvirtual_vtable_index _none false.
Definition Shape_area : methodOopDesc :=
  mkMethod "area" "()D" Shape_k (JVM_ACC_PUBLIC + JVM_ACC_ABSTRACT) invalid_vtable_index
    _none false.
Definition Square_area : methodOopDesc :=
  mkMethod "area" "()D" Square_k 0 1 _none false.
Definition Circle_area : methodOopDesc :=
  mkMethod "area" "()D" Circle_k JVM_ACC_PUBLIC 1 _none false.
Definition Disk_area : methodOopDesc :=
  mkMethod "area" "()D" Disk_k JVM_ACC_PUBLIC 1 _none false.
Definition MethodHandle_invokeBasic : methodOopDesc :=
  mkMethod "invokeBasic" "([Ljava/lang/Object;)Ljava/lang/Object;" MethodHandle_k
    (JVM_ACC_PUBLIC + JVM_ACC_FINAL + JVM_ACC_NATIVE) nonvirtual_vtable_index
    _invokeBasic false.
Definition invokeBasic_intrinsic : methodOopDesc :=
  mkMethod "invokeBasic" "(Ljava/lang/Object;)Ljava/lang/Object;" MethodHandle_k
    (JVM_ACC_PUBLIC + JVM_ACC_FINAL + JVM_ACC_NATIVE) nonvirtual_vtable_index
    _invokeBasic false.
Definition X_f : methodOopDesc :=
  mkMethod "f" "(Lq/T;)V" X_k JVM_ACC_PUBLIC 1 _none false.
Definition linkToCallSite_adapter : methodOopDesc :=
  mkMethod "linkToCallSite" "(Ljava/lang/Object;)V" LambdaForm_k
    (JVM_ACC_STATIC + JVM_ACC_FINAL) nonvirtual_vtable_index _none true.

Definition X_count : fieldDescriptor :=
  mkField "count" X_k (JVM_ACC_PUBLIC + JVM_ACC_FINAL) 0 12 T_INT.
Definition X_LIMIT : fieldDescriptor :=
  mkField "LIMIT" X_k (JVM_ACC_PUBLIC + JVM_ACC_STATIC + JVM_ACC_FINAL) 1 96 T_INT.
Definition X_size : fieldDescriptor :=
  mkField "size" X_k JVM_ACC_PUBLIC 2 16 T_INT.

Definition public_class : AccessFlags := JVM_ACC_PUBLIC + JVM_ACC_SUPER.

Definition klasses (k : klassOop) : Klass :=
  match k with
  | 0%nat => mkKlass "java/lang/Object" public_class false None None [Some Object_clone]
  | 1%nat => mkKlass "p/A" public_class false (Some Object_k) loader1
               [Some Object_clone; Some A_m]
  | 2%nat => mkKlass "p/B" public_class false (Some A_k) loader1
               [Some Object_clone; Some B_m]
  | 3%nat => mkKlass "p/C" public_class false (Some B_k) loader1
               [Some Object_clone; Some B_m]
  | 4%nat => mkKlass "p/Shape" (JVM_ACC_PUBLIC + JVM_ACC_INTERFACE + JVM_ACC_ABSTRACT)
               false (Some Object_k) loader1 [Some Object_clone]
  | 5%nat => mkKlass "[I" (JVM_ACC_PUBLIC + JVM_ACC_FINAL + JVM_ACC_ABSTRACT) true
               (Some Object_k) None [Some Object_clone]
  | 6%nat => mkKlass "java/lang/invoke/MethodHandle" (public_class + JVM_ACC_ABSTRACT)
               false (Some Object_k) None [Some Object_clone]
  | 7%nat => mkKlass "p/Square" public_class false (Some Object_k) loader1
               [Some Object_clone; Some Square_area]
  | 8%nat => mkKlass "p/Circle" public_class false (Some Object_k) loader1
               [Some Object_clone; Some Circle_area]
  | 9%nat => mkKlass "q/Other" public_class false (Some Object_k) loader1
               [Some Object_clone]
  | 10%nat => mkKlass "q/X" public_class false (Some Object_k) loader3
                [Some Object_clone; Some X_f]
  | 11%nat => mkKlass "q/T" public_class false (Some Object_k) loader1 [Some Object_clone]
  | 12%nat => mkKlass "q/T" public_class false (Some Object_k) loader3 [Some Object_clone]
  | 14%nat => mkKlass "p/AbstractShape" (public_class + JVM_ACC_ABSTRACT) false
                (Some Object_k) loader1 [Some Object_clone; Some Shape_area]
  | 15%nat => mkKlass "p/Disk" public_class false (Some AbstractShape_k) loader1
                [Some Object_clone; Some Disk_area]
  | _ => mkKlass "java/lang/invoke/LambdaForm$MH" (JVM_ACC_FINAL + JVM_ACC_SUPER) false
           (Some Object_k) None [Some Object_clone]
  end.

Definition declared_methods (k : klassOop) : list methodOopDesc :=
  match k with
  | 0%nat => [Object_clone; Object_registerNatives]
  | 1%nat => [A_m; A_s; A_t]
  | 2%nat => [B_m]
  | 4%nat => [Shape_area]
  | 6%nat => [MethodHandle_invokeBasic]
  | 7%nat => [Square_area]
  | 8%nat => [Circle_area]
  | 10%nat => [X_f]
  | 13%nat => [linkToCallSite_adapter]
  | 15%nat => [Disk_area]
  | _ => []
  end.

Definition declared_fields (k : klassOop) : list fieldDescriptor :=
  match k with
  | 10%nat => [X_count; X_LIMIT; X_size]
  | _ => []
  end.

(** All the interfaces a class implements, in declaration order. *)
Definition transitive_interfaces (k : klassOop) : list klassOop :=
  match k with
  | 7%nat | 8%nat | 14%nat | 15%nat => [Shape_k]
  | _ => []
  end.

Definition package_of (k : klassOop) : string :=
  match k with
  | 0%nat => "java/lang"
  | 6%nat | 13%nat => "java/lang/invoke"
  | 9%nat | 10%nat | 11%nat | 12%nat => "q"
  | 5%nat => ""
  | _ => "p"
  end.

Definition number_of_klasses : nat := 16.

Definition matches (method_name method_signature : Symbol) (m : methodOopDesc) : bool :=
  symbol_eqb (name m) method_name && symbol_eqb (signature m) method_signature.

(** Modelled from the spec: [uncached_lookup_method] is defined in
    instanceKlass.cpp, which is not among these sources; it "walks type,
    superType, ... using exact name+descriptor match against declared
    methods only", static methods included, and stops at the first match. *)
Fixpoint lookup_in_chain (fuel : nat) (k : klassOop) (name signature : Symbol)
  : methodHandle :=
  match find (matches name signature) (declared_methods k) with
  | Some m => Some m
  | None =>
      match fuel, super (klasses k) with
      | S fuel', Some s => lookup_in_chain fuel' s name signature
      | _, _ => None
      end
  end.

Fixpoint first_found {A B : Type} (f : A -> option B) (l : list A) : option B :=
  match l with
  | [] => None
  | a :: l' => match f a with Some b => Some b | None => first_found f l' end
  end.

(** Modelled from the spec: the interface search returns the "first match
    found in traversal order" among "all transitively implemented
    interfaces". *)
Definition lookup_in_interfaces (k : klassOop) (name signature : Symbol) : methodHandle :=
  first_found (fun i => find (matches name signature) (declared_methods i))
    (transitive_interfaces k).

Fixpoint in_super_chain (fuel : nat) (k other : klassOop) : bool :=
  Nat.eqb k other
  || match fuel, super (klasses k) with
     | S fuel', Some s => in_super_chain fuel' s other
     | _, _ => false
     end.

(** Modelled from the spec: [isSubtypeOf(other)]: the class itself, its
    superclasses, and the interfaces it implements. *)
Definition subtype_of (k other : klassOop) : bool :=
  in_super_chain number_of_klasses k other
  || existsb (Nat.eqb other) (transitive_interfaces k).

(** Modelled from the spec: the field search, "own declared fields first;
    then direct superinterfaces recursively; else the superclass"; no
    interface of this table declares a field. *)
Fixpoint find_field_in (fuel : nat) (k : klassOop) (name : Symbol)
  : option (klassOop * fieldDescriptor) :=
  match find (fun fd => symbol_eqb (fd_name fd) name) (declared_fields k) with
  | Some fd => Some (k, fd)
  | None =>
      match fuel, super (klasses k) with
      | S fuel', Some s => find_field_in fuel' s name
      | _, _ => None
      end
  end.

Fixpoint position_of (f : methodOopDesc -> bool) (l : list methodHandle) (i : Z) : Z :=
  match l with
  | [] => invalid_vtable_index
  | Some m :: l' => if f m then i else position_of f l' (i + 1)
  | None :: l' => position_of f l' (i + 1)
  end.

(** The slot of the vtable of [k] that holds an interface method with this
    name and descriptor. *)
Definition miranda_index (k : klassOop) (name signature : Symbol) : Z :=
  position_of (fun m => matches name signature m
                        && flags_is_interface (klass_access_flags (klasses (method_holder m))))
    (vtable (klasses k)) 0.

(** Modelled from the spec: the type names occurring in a descriptor, that
    is the class names between an [L] and the next [;]. *)
Fixpoint class_names_from (s : string) (current : option string) : list Symbol :=
  match s with
  | EmptyString => []
  | String c rest =>
      match current with
      | None =>
          if Ascii.eqb c "L"%char then class_names_from rest (Some EmptyString)
          else class_names_from rest None
      | Some acc =>
          if Ascii.eqb c ";"%char then acc :: class_names_from rest None
          else class_names_from rest (Some (acc ++ String c EmptyString))
      end
  end.

Definition type_names (sig : Symbol) : list Symbol := class_names_from sig None.

Definition handle_eqb (a b : Handle) : bool :=
  match a, b with
  | None, None => true
  | Some x, Some y => Nat.eqb x y
  | _, _ => false
  end.

(** The type a loader resolves a name to: both [loader1] and [loader3]
    define a class named q/T of their own. *)
Definition find_class (loader : Handle) (type_name : Symbol) : option klassOop :=
  if symbol_eqb type_name "q/T" then
    if handle_eqb loader loader1 then Some T1_k
    else if handle_eqb loader loader3 then Some T3_k
    else None
  else if symbol_eqb type_name "java/lang/Object" then Some Object_k
  else None.

Definition disagree (l1 l2 : Handle) (type_name : Symbol) : bool :=
  match find_class l1 type_name, find_class l2 type_name with
  | Some c1, Some c2 => negb (Nat.eqb c1 c2)
  | _, _ => false
  end.

(** Modelled from the spec: the loader constraint check of section 4.4. *)
Definition signature_loaders_check (sig : Symbol) (l1 l2 : Handle) (is_method : bool)
  : outcome (option string) :=
  Normal (find (disagree l1 l2) (type_names sig)).

(** Modelled from the spec: the access rule of section 4.3 for a referring
    type R, a member declared in D and selected via S. *)
Definition field_access (R S D : klassOop) (flags : AccessFlags) (classloader_only : bool)
  : bool :=
  if flags_is_public flags then true
  else if flags_is_protected flags then
    String.eqb (package_of R) (package_of D)
    || (subtype_of R D
        && (flags_is_static flags || Nat.eqb S R || subtype_of R S))
  else if flags_is_private flags then Nat.eqb R D
  else String.eqb (package_of R) (package_of D)
       && handle_eqb (class_loader (klasses R)) (class_loader (klasses D)).

Definition set_state (st : State) (k : klassOop) (s : ClassState) : State :=
  fun k' => if Nat.eqb k' k then s else st k'.

(** Modelled from the spec: type initialization (section 5): reentrant for
    the initializing thread, and "a failed initialization is cached
    permanently as an error state".  The initializer of [Other] fails. *)
Definition run_initializer (k : klassOop) : stateful unit :=
  fun st =>
    match st k with
    | fully_initialized => (Normal tt, st)
    | being_initialized => (Normal tt, st)
    | initialization_error => (THROW java_lang_NoClassDefFoundError, st)
    | _ =>
        if Nat.eqb k Other_k then
          (THROW java_lang_ExceptionInInitializerError, set_state st k initialization_error)
        else (Normal tt, set_state st k fully_initialized)
    end.

(** The bootstrap collaborator: specifier 0 links, the others fail with a
    [NoClassDefFoundError], a [BootstrapMethodError], a
    [NullPointerException] and an exception class of the application. *)
Definition call_site_invoker (current_klass : KlassHandle) (bootstrap_specifier : Handle)
  (name signature : Symbol) : outcome (methodHandle * Handle * Handle) :=
  match bootstrap_specifier with
  | Some 0%nat => Normal (Some linkToCallSite_adapter, Some 500%nat, Some 501%nat)
  | Some 1%nat => THROW java_lang_NoClassDefFoundError
  | Some 2%nat => THROW java_lang_BootstrapMethodError
  | Some 3%nat => THROW java_lang_NullPointerException
  | _ => THROW (OtherThrowable "app/Failure" java_lang_RuntimeException)
  end.

Definition name_id (name : Symbol) : vmIntrinsicsID :=
  if symbol_eqb name "invokeBasic" then _invokeBasic
  else if symbol_eqb name "invoke" || symbol_eqb name "invokeExact" then _invokeGeneric
  else if symbol_eqb name "linkToVirtual" then _linkToVirtual
  else if symbol_eqb name "linkToStatic" then _linkToStatic
  else if symbol_eqb name "linkToSpecial" then _linkToSpecial
  else if symbol_eqb name "linkToInterface" then _linkToInterface
  else _none.

Definition signature_polymorphic (iid : vmIntrinsicsID) : bool :=
  match iid with
  | _invokeGeneric | _invokeBasic | _linkToVirtual | _linkToStatic | _linkToSpecial
  | _linkToInterface => true
  | _ => false
  end.

Definition linker_intrinsic (iid : vmIntrinsicsID) : bool :=
  match iid with
  | _linkToVirtual | _linkToStatic | _linkToSpecial | _linkToInterface => true
  | _ => false
  end.

#[export] Instance VM : Runtime := {|
  klass_part := klasses;
  oop_klass := fun o => (o - 100)%nat;
  is_subtype_of := subtype_of;
  uncached_lookup_method := lookup_in_chain number_of_klasses;
  lookup_method_in_all_interfaces := lookup_in_interfaces;
  find_field := fun k name sig => find_field_in number_of_klasses k name;
  index_of_miranda := miranda_index;
  should_be_initialized :=
    fun st k => negb (oop_is_array (klasses k)) && negb (is_initialized st k);
  initialize := run_initializer;
  can_be_statically_bound :=
    fun m => flags_is_final (access_flags m) || (vtable_index m =? nonvirtual_vtable_index);
  is_method_handle_intrinsic :=
    fun m => signature_polymorphic (intrinsic_id m)
             && negb (iid_eqb (intrinsic_id m) _invokeGeneric);
  Object_klass := Object_k;
  MethodHandle_klass := MethodHandle_k;
  ensure_MethodHandleNatives_booted := Normal tt;
  check_signature_loaders := signature_loaders_check;
  find_method_handle_intrinsic :=
    fun iid sig =>
      if iid_eqb iid _invokeBasic
         && symbol_eqb sig "(Ljava/lang/Object;)Ljava/lang/Object;"
      then Normal (Some invokeBasic_intrinsic) else Normal None;
  find_method_handle_invoker := fun name sig current => Normal (None, None, None);
  find_dynamic_call_site_invoker := call_site_invoker;
  verify_class_access := fun R S classloader_only => true;
  verify_field_access := field_access;
  signature_polymorphic_name_id := name_id;
  is_signature_polymorphic := signature_polymorphic;
  is_signature_polymorphic_intrinsic := fun iid => negb (iid_eqb iid _invokeGeneric);
  is_signature_polymorphic_static := linker_intrinsic;
  is_signature_polymorphic_name := fun name => negb (iid_eqb (name_id name) _none);
  is_signature_polymorphic_name_in :=
    fun k name => Nat.eqb k MethodHandle_k && negb (iid_eqb (name_id name) _none);
  is_signature_polymorphic_public_name :=
    fun k name => Nat.eqb k MethodHandle_k && iid_eqb (name_id name) _invokeGeneric;
  lookup_basic_type_signature :=
    fun sig keep_last_arg =>
      if symbol_eqb sig "([Ljava/lang/Object;)Ljava/lang/Object;"
      then Normal "(Ljava/lang/Object;)Ljava/lang/Object;" else Normal sig;
  EnableInvokeDynamic := true;
  AllowNonVirtualCalls := false;
  is_Compiler_thread := false;
  must_be_compiled := fun m => false;
  compile_method := fun m => Normal tt;
  max_super_walk := number_of_klasses
|}.

(** The length of the superclass chain of a class. *)
Definition rank (k : klassOop) : nat :=
  match k with
  | 0%nat => 0
  | 2%nat | 15%nat => 2
  | 3%nat => 3
  | _ => 1
  end.

(** Every class is linked, and [Object] and [MethodHandle] are initialized. *)
Definition st0 : State :=
  fun k =>
    match k with
    | 0%nat | 6%nat => fully_initialized
    | _ => linked
    end.

(** The constant pool of [A]: entry 1 is the field [X.count], entry 2 the
    field [X.LIMIT], entry 3 the field [X.size], entry 4 the method
    [A.s()V]. *)
Definition pool_of_A : constantPoolOopDesc := {|
  pool_holder := A_k;
  klass_ref_at := fun i => Normal (Some (if i =? 4 then A_k else X_k));
  klass_ref_at_if_loaded_check := fun i => Normal (Some (if i =? 4 then A_k else X_k));
  name_ref_at := fun i =>
    if i =? 1 then "count" else if i =? 2 then "LIMIT" else if i =? 3 then "size" else "s";
  signature_ref_at := fun i => if i =? 4 then "()V" else "I";
  has_preresolution := false;
  method_at_if_loaded := fun _ => None;
  secondary_entry_at := fun _ => mkCPCE true None None None;
  main_entry_constant_pool_index := fun i => i;
  resolve_bootstrap_specifier_at := fun i => Normal 0%nat
|}.

End World.

(* ------------------------------------------------------------------ *)
(** * Properties *)

(** ** Reasoning about [CHECK] *)

Lemma bind_Normal {A B : Type} (c : outcome A) (k : A -> outcome B) (b : B) :
  bind c k = Normal b -> exists a, c = Normal a /\ k a = Normal b.
Proof. destruct c; simpl; intros H; try discriminate; eauto. Qed.

Lemma vm_assert_Normal (c : bool) (u : unit) : vm_assert c = Normal u -> c = true.
Proof. destruct c; simpl; intros H; [reflexivity | discriminate]. Qed.

Lemma deref_Normal {A : Type} (h : option A) (a : A) : deref h = Normal a -> h = Some a.
Proof. destruct h; simpl; intros H; [injection H as ->; reflexivity | discriminate]. Qed.

Lemma symbol_eqb_eq (a b : Symbol) : symbol_eqb a b = true <-> a = b.
Proof. apply String.eqb_eq. Qed.

Lemma symbol_eqb_neq (a b : Symbol) : symbol_eqb a b = false <-> a <> b.
Proof. apply String.eqb_neq. Qed.

Lemma methodOop_eqb_eq (a b : methodOopDesc) : methodOop_eqb a b = true <-> a = b.
Proof.
  unfold methodOop_eqb. destruct (methodOop_eq_dec a b); split; intros H;
    congruence.
Qed.

(** Split [bind c k = Normal b] in hypothesis [H]: the value of [c] and the
    rest of the computation. *)
Ltac inv_bind H :=
  let a := fresh "a" in
  let Ha := fresh "Hstep" in
  apply bind_Normal in H; destruct H as (a & Ha & H).

Ltac inv_assert H :=
  let a := fresh "u" in
  let Ha := fresh "Hassert" in
  apply bind_Normal in H; destruct H as (a & Ha & H);
  apply vm_assert_Normal in Ha.

Section Properties.

Context {VM : Runtime}.

(** ** The CallInfo setters funnel into [set_common] *)

(** What [set_common] stores, read from its assignments. *)
Lemma set_common_methods st rk sk rm sm index ci :
  set_common st rk sk rm sm index = Normal ci ->
  ci = mkCallInfo rk sk rm sm index None None.
Proof.
  unfold set_common. intros H. apply bind_Normal in H as (u & _ & H).
  destruct (must_be_compiled sm).
  - destruct is_Compiler_thread; [congruence |].
    destruct (is_not_initialized st (method_holder sm)); [congruence |].
    apply bind_Normal in H as (u0 & _ & H). congruence.
  - congruence.
Qed.

Lemma set_common_fields st rk sk rm sm index ci :
  set_common st rk sk rm sm index = Normal ci ->
  _resolved_method ci = rm /\ _selected_method ci = sm.
Proof.
  intros H. apply set_common_methods in H. subst ci. split; reflexivity.
Qed.

Lemma set_static_methods st k m ci :
  set_static st k m = Normal ci ->
  _resolved_method ci = m /\ _selected_method ci = m /\ _resolved_klass ci = k.
Proof.
  unfold set_static. intros H. apply set_common_methods in H. subst ci.
  repeat split; reflexivity.
Qed.

Lemma set_interface_methods st rk sk rm sm ci :
  set_interface st rk sk rm sm = Normal ci ->
  _resolved_method ci = rm /\ _selected_method ci = sm.
Proof.
  unfold set_interface. intros H. apply bind_Normal in H as (index & _ & H).
  apply set_common_fields in H. exact H.
Qed.

(** ** The signatures of the methods of a CallInfo *)



(** ** Virtual linkage *)

Lemma method_at_vtable_Normal k index m :
  method_at_vtable k index = Normal m ->
  0 <= index /\ nth_error (vtable (klass_part k)) (Z.to_nat index) = Some m.
Proof.
  unfold method_at_vtable. intros H. inv_assert H. apply Z.leb_le in Hassert.
  split; [exact Hassert |].
  destruct (nth_error (vtable (klass_part k)) (Z.to_nat index)); [| discriminate].
  injection H as ->. reflexivity.
Qed.

(** C2: a successful run-time resolution of a virtual call selects: for a
    resolved method declared in an interface (a miranda method), the entry
    of the receiver class's vtable at the slot that the search of the
    resolved class's vtable for the method's name and signature
    ([index_of_miranda]) returns; else, for a resolved method with a
    non-negative vtable index, the entry of the receiver class's vtable at
    that index; else the resolved method itself. *)
Theorem virtual_call_selects_from_vtable st resolved_method resolved_klass recv
  recv_klass check_null_and_abstract info :
  runtime_resolve_virtual_method st resolved_method resolved_klass recv recv_klass
    check_null_and_abstract = Normal info ->
  if is_interface (method_holder resolved_method) then
    let slot :=
      index_of_miranda resolved_klass (name resolved_method) (signature resolved_method) in
    exists receiver,
      recv_klass = Some receiver /\
      0 <= slot /\
      nth_error (vtable (klass_part receiver)) (Z.to_nat slot)
      = Some (Some (_selected_method info))
  else if 0 <=? vtable_index resolved_method then
    exists receiver,
      recv_klass = Some receiver /\
      nth_error (vtable (klass_part receiver)) (Z.to_nat (vtable_index resolved_method))
      = Some (Some (_selected_method info))
  else _selected_method info = resolved_method.
Proof.
  unfold runtime_resolve_virtual_method. intros H.
  destruct (check_null_and_abstract && is_null recv); [discriminate |].
  apply bind_Normal in H as (u & _ & H).
  apply bind_Normal in H as ([index [sel |]] & Hselect & H); [| discriminate].
  destruct (check_null_and_abstract && is_abstract sel); [discriminate |].
  unfold set_virtual in H.
  apply bind_Normal in H as (u0 & _ & H).
  apply bind_Normal in H as (result & Hcommon & H).
  apply bind_Normal in H as (u1 & _ & H). injection H as <-.
  apply set_common_fields in Hcommon. destruct Hcommon as [_ Hsel].
  rewrite Hsel. clear Hsel.
  unfold virtual_select_method, vtable_index_of_miranda_method in Hselect.
  destruct (is_interface (method_holder resolved_method)).
  - apply bind_Normal in Hselect as (u2 & _ & Hselect).
    apply bind_Normal in Hselect as (inst & Hinst & Hselect).
    apply bind_Normal in Hselect as (entry & Hentry & Hselect).
    injection Hselect as <- <-. apply deref_Normal in Hinst.
    apply method_at_vtable_Normal in Hentry. cbv zeta. exists inst. tauto.
  - destruct (vtable_index resolved_method =? nonvirtual_vtable_index) eqn:Hnv.
    + apply Z.eqb_eq in Hnv. rewrite Hnv. simpl.
      apply bind_Normal in Hselect as (u2 & _ & Hselect).
      injection Hselect as _ <-. reflexivity.
    + apply bind_Normal in Hselect as (inst & Hinst & Hselect).
      apply bind_Normal in Hselect as (entry & Hentry & Hselect).
      injection Hselect as <- <-.
      apply deref_Normal in Hinst. apply method_at_vtable_Normal in Hentry.
      destruct Hentry as (Hle & Hnth). apply Z.leb_le in Hle. rewrite Hle.
      exists inst. tauto.
Qed.

(** ** Dynamically computed call sites *)

(** C7: when the bootstrap collaborator returns with an exception, an
    exception that is a [BootstrapMethodError] is passed on unchanged, any
    other [LinkageError] is wrapped in a [BootstrapMethodError] that has it
    as its cause, and an exception of any other class is passed on
    unchanged. *)
Theorem dynamic_call_error_translation st bootstrap_specifier method_name
  method_signature current_klass e :
  find_dynamic_call_site_invoker current_klass bootstrap_specifier method_name
    method_signature = Pending e ->
  resolve_dynamic_call st bootstrap_specifier method_name method_signature current_klass =
    if is_a e java_lang_BootstrapMethodError then Pending e
    else if is_a e java_lang_LinkageError then
           Pending (mkThrowable java_lang_BootstrapMethodError (Some e))
         else Pending e.
Proof.
  intros H. unfold resolve_dynamic_call. rewrite H.
  destruct (is_a e java_lang_BootstrapMethodError); [reflexivity |].
  destruct (is_a e java_lang_LinkageError); reflexivity.
Qed.

(** ** Method resolution *)

Lemma resolve_method_not_interface k n s cur chk :
  is_interface k = false ->
  resolve_method None k n s cur chk =
    (found <- resolve_method_lookup None k n s cur ;;
     match fst found with
     | None => THROW_CAUSE java_lang_NoSuchMethodError (snd found)
     | Some m => resolve_method_checks m k n s cur chk
     end).
Proof.
  intros Hi. unfold resolve_method. rewrite Hi.
  destruct (resolve_method_lookup None k n s cur) as [[m ne] | | |]; reflexivity.
Qed.

(** C3, as the code has it: for a class that is not an interface, method
    resolution searches (a) the class and its superclasses, where a match
    that is a signature-polymorphic intrinsic is discarded when the class
    is not an array and [EnableInvokeDynamic] is on; (b) only if (a) gives
    nothing and the class is not an array, the interfaces; (c) only if (b)
    gives nothing either, the polymorphic lookup; and the result is
    [NoSuchMethodError] when all of them give nothing.  For an array class
    nothing but (a) is searched. *)
Theorem resolve_method_search_order resolved_klass method_name method_signature
  current_klass check_access :
  is_interface resolved_klass = false ->
  let linkable (m : methodOopDesc) :=
    oop_is_array (klass_part resolved_klass)
    || negb (EnableInvokeDynamic && is_signature_polymorphic (intrinsic_id m)) in
  let in_klasses := uncached_lookup_method resolved_klass method_name method_signature in
  let in_interfaces :=
    lookup_method_in_all_interfaces resolved_klass method_name method_signature in
  let resolved :=
    resolve_method None resolved_klass method_name method_signature current_klass
      check_access in
  let checked (m : methodOopDesc) :=
    resolve_method_checks m resolved_klass method_name method_signature current_klass
      check_access in
  (forall m, in_klasses = Some m -> linkable m = true -> resolved = checked m)
  /\
  (in_klasses = None \/ (exists m, in_klasses = Some m /\ linkable m = false) ->
   (oop_is_array (klass_part resolved_klass) = true ->
    resolved = THROW_CAUSE java_lang_NoSuchMethodError None)
   /\
   (oop_is_array (klass_part resolved_klass) = false ->
    (forall i, in_interfaces = Some i -> resolved = checked i)
    /\
    (in_interfaces = None ->
     resolved =
       match lookup_polymorphic_method None resolved_klass method_name method_signature
               current_klass false with
       | Normal (Some p, _, _) => checked p
       | Normal (None, _, _) => THROW_CAUSE java_lang_NoSuchMethodError None
       | Pending e => THROW_CAUSE java_lang_NoSuchMethodError (Some e)
       | Fatal => Fatal
       | OutOfFuel => OutOfFuel
       end))).
Proof.
  intros Hi linkable in_klasses in_interfaces resolved checked.
  subst linkable in_klasses in_interfaces resolved checked. simpl.
  rewrite (resolve_method_not_interface _ _ _ _ _ Hi).
  unfold resolve_method_lookup, lookup_method_in_klasses, lookup_method_in_interfaces.
  split.
  - intros m Ha Hl. rewrite Ha.
    destruct (oop_is_array (klass_part resolved_klass)); simpl in *.
    + reflexivity.
    + apply negb_true_iff in Hl. rewrite Hl. simpl. reflexivity.
  - intros Hmiss.
    destruct (oop_is_array (klass_part resolved_klass)) eqn:Harr; simpl in *.
    + destruct Hmiss as [Hn | (m & Hm & Hl)]; [| discriminate].
      rewrite Hn. simpl. split; [reflexivity | intros; discriminate].
    + split; [intros; discriminate |]. intros _.
      destruct Hmiss as [Hn | (m & Hm & Hl)];
        [rewrite Hn | rewrite Hm; apply negb_false_iff in Hl; rewrite Hl]; simpl;
        (split;
         [ intros i Hif; rewrite Hif; reflexivity
         | intros Hif; rewrite Hif; simpl;
           destruct (lookup_polymorphic_method None resolved_klass method_name
                       method_signature current_klass false)
             as [[[[p |] ap] mt] | e | |]; reflexivity ]).
Qed.

(** ** Interface linkage *)

(** C4: in the run-time resolution of an interface call whose receiver
    check has passed, a receiver class that is not a subtype of the
    resolved interface gives [IncompatibleClassChangeError], whatever a
    lookup in the receiver's classes would find, and never
    [NoSuchMethodError]; for a receiver class that implements the
    interface, a selected method that is not public gives
    [IllegalAccessError], so that the selected method of every successful
    resolution is public. *)
Theorem interface_call_receiver_checks st resolved_method resolved_klass recv
  recv_klass receiver check_null_and_abstract :
  (check_null_and_abstract && is_null recv) = false ->
  recv_klass = Some receiver ->
  let resolved :=
    runtime_resolve_interface_method st resolved_method resolved_klass recv recv_klass
      check_null_and_abstract in
  (is_subtype_of receiver resolved_klass = false ->
   resolved = THROW java_lang_IncompatibleClassChangeError
   /\ forall e, resolved = Pending e -> exn_klass e <> java_lang_NoSuchMethodError)
  /\
  (is_subtype_of receiver resolved_klass = true ->
   forall sel_method,
     lookup_instance_method_in_klasses receiver (name resolved_method)
       (signature resolved_method) = Normal (Some sel_method) ->
     is_public sel_method = false ->
     resolved = THROW java_lang_IllegalAccessError)
  /\
  (forall info,
      resolved = Normal info ->
      is_subtype_of receiver resolved_klass = true
      /\ is_public (_selected_method info) = true).
Proof.
  intros Hnull -> resolved. subst resolved.
  unfold runtime_resolve_interface_method. rewrite Hnull. simpl.
  split; [| split].
  - intros Hsub. rewrite Hsub. simpl. split; [reflexivity |].
    intros e He. injection He as <-. simpl. discriminate.
  - intros Hsub sel_method Hsel Hpub. rewrite Hsub, Hsel. simpl. rewrite Hpub. reflexivity.
  - intros info H. destruct (is_subtype_of receiver resolved_klass); [| discriminate].
    split; [reflexivity |]. simpl in H. inv_bind H.
    destruct a as [sel_method |]; [| discriminate].
    destruct (is_public sel_method) eqn:Hpub; [| discriminate]. simpl in H.
    destruct (check_null_and_abstract && is_abstract sel_method); [discriminate |].
    apply set_interface_methods in H. destruct H as (_ & ->). exact Hpub.
Qed.

(** ** Static linkage *)

(** C5: resolving a static call on an interface gives
    [IncompatibleClassChangeError], and so does a resolved method that is
    not static; a call that links has a static method, and when
    initialization is requested and the class that declares the method
    should be initialized, [initialize] has run on that class and returned
    normally before the CallInfo is set. *)
Theorem static_call_linkage resolved_klass method_name method_signature current_klass
  check_access initialize_class st :
  let linked :=
    resolve_static_call resolved_klass method_name method_signature current_klass
      check_access initialize_class st in
  (is_interface resolved_klass = true ->
   linked = (THROW java_lang_IncompatibleClassChangeError, st))
  /\
  (forall m,
      resolve_method None resolved_klass method_name method_signature current_klass
        check_access = Normal m ->
      name m <> vmSymbols.class_initializer_name ->
      is_static m = false ->
      linked = (THROW java_lang_IncompatibleClassChangeError, st))
  /\
  (forall info st',
      linked = (Normal info, st') ->
      exists m,
        linktime_resolve_static_method None resolved_klass method_name method_signature
          current_klass check_access = Normal m /\
        is_static m = true /\
        _resolved_klass info = Some (method_holder m) /\
        is_static (_resolved_method info) = true /\
        if initialize_class && should_be_initialized st (method_holder m)
        then initialize (method_holder m) st = (Normal tt, st')
        else st' = st).
Proof.
  intros linked. subst linked. split; [| split].
  - intros Hi. unfold resolve_static_call, sbind, lift, linktime_resolve_static_method,
      resolve_method. rewrite Hi. reflexivity.
  - intros m Hm Hname Hs.
    unfold resolve_static_call, sbind, lift, linktime_resolve_static_method.
    rewrite Hm. simpl. apply symbol_eqb_neq in Hname. rewrite ?Hname. simpl.
    rewrite Hs. reflexivity.
  - intros info st' H. unfold resolve_static_call, sbind, lift, reading in H.
    destruct (linktime_resolve_static_method None resolved_klass method_name
                method_signature current_klass check_access) as [m | | |] eqn:Hm;
      try discriminate.
    exists m. split; [reflexivity |].
    assert (Hstatic : forall r rk' m',
               linktime_resolve_static_method r rk' method_name method_signature
                 current_klass check_access = Normal m' ->
               is_static m' = true).
    { intros r rk' m' Hl. unfold linktime_resolve_static_method in Hl.
      inv_bind Hl. inv_assert Hl. destruct (is_static a) eqn:Hsa; [| discriminate].
      injection Hl as <-. exact Hsa. }
    split; [eapply Hstatic; eassumption |].
    destruct (initialize_class && should_be_initialized st (method_holder m)).
    + destruct (initialize (method_holder m) st) as [[[] | | |] st1]; try discriminate.
      destruct (linktime_resolve_static_method (Some m) (method_holder m) method_name
                  method_signature current_klass check_access)
        as [m2 | | |] eqn:Hm2; try discriminate.
      injection H as H <-. apply set_static_methods in H.
      destruct H as (Hr & _ & Hk). rewrite Hr, Hk.
      repeat split; try reflexivity. eapply Hstatic; eassumption.
    + injection H as H <-. apply set_static_methods in H.
      destruct H as (Hr & _ & Hk). rewrite Hr, Hk.
      repeat split; try reflexivity. eapply Hstatic; eassumption.
Qed.

(** ** Special linkage *)

(** The loop of [lookup_instance_method_in_klasses] ends when the class
    hierarchy is ranked and the fuel exceeds the rank of the class of the
    method it starts from. *)
Lemma lookup_instance_method_loop_ends rank n s :
  hierarchy_ranked rank ->
  forall fuel result,
    (forall m, result = Some m -> (rank (method_holder m) < fuel)%nat) ->
    lookup_instance_method_loop fuel result n s <> OutOfFuel.
Proof.
  intros [Hsuper Hlookup]. induction fuel as [| fuel IH]; intros result Hrank.
  - destruct result as [m |]; simpl; [| discriminate].
    specialize (Hrank m eq_refl). lia.
  - destruct result as [m |]; simpl; [| discriminate].
    destruct (is_static m); [| discriminate].
    destruct (super (klass_part (method_holder m))) as [sup |] eqn:Hsup; simpl;
      [| discriminate].
    apply IH. intros m' Hm'. apply Hlookup in Hm'.
    specialize (Hsuper _ _ Hsup). specialize (Hrank m eq_refl). lia.
Qed.

Lemma lookup_instance_method_in_klasses_ends rank k n s :
  hierarchy_ranked rank ->
  (rank k < max_super_walk)%nat ->
  lookup_instance_method_in_klasses k n s <> OutOfFuel.
Proof.
  intros Hr Hk. unfold lookup_instance_method_in_klasses.
  eapply lookup_instance_method_loop_ends; [exact Hr |]. intros m Hm.
  destruct Hr as [_ Hlookup]. apply Hlookup in Hm. lia.
Qed.

(** With a lookup that matches name and signature exactly, the methods
    that the interface path and the special path select have the signature
    of the resolved method: the assertion of [set_common] holds on these
    paths by construction, as it does on the static and handle paths. *)
Lemma lookup_instance_method_loop_matches n s :
  lookup_matches_exactly ->
  forall fuel result m,
    (forall m', result = Some m' -> name m' = n /\ signature m' = s) ->
    lookup_instance_method_loop fuel result n s = Normal (Some m) ->
    name m = n /\ signature m = s.
Proof.
  intros Hexact. induction fuel as [| fuel IH]; intros result m Hres H.
  - destruct result as [m0 |]; simpl in H; [| discriminate].
    destruct (is_static m0); [discriminate |].
    injection H as <-. apply Hres. reflexivity.
  - destruct result as [m0 |]; simpl in H; [| discriminate].
    destruct (is_static m0).
    + inv_bind H. eapply IH; [| eassumption].
      intros m' Hm'. eapply Hexact. eassumption.
    + injection H as <-. apply Hres. reflexivity.
Qed.

Lemma lookup_instance_method_in_klasses_matches k n s m :
  lookup_matches_exactly ->
  lookup_instance_method_in_klasses k n s = Normal (Some m) ->
  name m = n /\ signature m = s.
Proof.
  intros Hexact H. unfold lookup_instance_method_in_klasses in H.
  eapply lookup_instance_method_loop_matches; [exact Hexact | | eassumption].
  intros m' Hm'. eapply Hexact. eassumption.
Qed.

Lemma special_select_method_signature rm rk cur chk sel :
  lookup_matches_exactly ->
  special_select_method rm rk cur chk = Normal sel ->
  signature sel = signature rm.
Proof.
  intros Hexact H. unfold special_select_method in H.
  destruct chk; [| injection H as <-; reflexivity].
  inv_bind H.
  destruct ((is_super a || negb AllowNonVirtualCalls)
            && is_subtype_of a (method_holder rm)
            && negb (Nat.eqb a (method_holder rm))
            && negb (symbol_eqb (name rm) vmSymbols.object_initializer_name));
    [| injection H as <-; reflexivity].
  inv_bind H. inv_bind H. destruct a1 as [found |]; [| discriminate].
  apply lookup_instance_method_in_klasses_matches in Hstep1; [| exact Hexact].
  destruct (negb (methodOop_eqb found rm)).
  - inv_bind H. injection H as <-. tauto.
  - injection H as <-. tauto.
Qed.

(** ** The signatures of the methods of a CallInfo, continued *)




(** C6, as the code has it: with access checking requested, a caller class
    that has ACC_SUPER and is a proper subtype of the class of the
    resolved method, and a method that is not a constructor, the selected
    method is looked up again from the immediate superclass of the caller,
    and [AbstractMethodError] is the result when that finds nothing; a
    method found there that is not the resolved method must pass the
    loader constraint check against the caller, whose exception is the
    result of the call when it fails; without access checking the
    resolved method is selected as it is.  Whatever method is selected, a
    static one gives
    [IncompatibleClassChangeError], otherwise an abstract one gives
    [AbstractMethodError], otherwise it is the method of the CallInfo. *)
Theorem special_call_selection st resolved_method resolved_klass current_klass current
  super_klass :
  current_klass = Some current ->
  is_super current = true ->
  is_subtype_of current (method_holder resolved_method) = true ->
  current <> method_holder resolved_method ->
  name resolved_method <> vmSymbols.object_initializer_name ->
  super (klass_part current) = Some super_klass ->
  let looked_up :=
    lookup_instance_method_in_klasses super_klass (name resolved_method)
      (signature resolved_method) in
  (looked_up = Normal None ->
   runtime_resolve_special_method st resolved_method resolved_klass current_klass true
   = THROW java_lang_AbstractMethodError)
  /\
  (forall sel_method,
      looked_up = Normal (Some sel_method) ->
      sel_method = resolved_method
      \/ check_method_loader_constraints sel_method resolved_klass (name sel_method)
           (signature sel_method) current = Normal tt ->
      special_select_method resolved_method resolved_klass current_klass true
      = Normal sel_method)
  /\
  special_select_method resolved_method resolved_klass current_klass false
  = Normal resolved_method
  /\
  (forall check_access sel_method,
      special_select_method resolved_method resolved_klass current_klass check_access
      = Normal sel_method ->
      runtime_resolve_special_method st resolved_method resolved_klass current_klass
        check_access =
        if is_static sel_method then THROW java_lang_IncompatibleClassChangeError
        else if is_abstract sel_method then THROW java_lang_AbstractMethodError
             else set_static st (Some resolved_klass) sel_method)
  /\
  (forall sel_method e,
      looked_up = Normal (Some sel_method) ->
      sel_method <> resolved_method ->
      check_method_loader_constraints sel_method resolved_klass (name sel_method)
        (signature sel_method) current = Pending e ->
      special_select_method resolved_method resolved_klass current_klass true = Pending e
      /\
      runtime_resolve_special_method st resolved_method resolved_klass current_klass true
      = Pending e).
Proof.
  intros -> Hsuper Hsub Hneq Hname Hsup looked_up. subst looked_up.
  assert (Hcond :
    (is_super current || negb AllowNonVirtualCalls)
    && is_subtype_of current (method_holder resolved_method)
    && negb (Nat.eqb current (method_holder resolved_method))
    && negb (symbol_eqb (name resolved_method) vmSymbols.object_initializer_name) = true).
  { rewrite Hsuper, Hsub. apply Nat.eqb_neq in Hneq. rewrite Hneq.
    apply symbol_eqb_neq in Hname. rewrite Hname. reflexivity. }
  split; [| split; [| split; [| split]]].
  - intros Hl. unfold runtime_resolve_special_method, special_select_method. simpl.
    rewrite Hcond, Hsup. simpl. rewrite Hl. reflexivity.
  - intros sel_method Hl Hok. unfold special_select_method. simpl.
    rewrite Hcond, Hsup. simpl. rewrite Hl. simpl.
    destruct (methodOop_eqb sel_method resolved_method) eqn:Heq; simpl; [reflexivity |].
    destruct Hok as [-> | Hok].
    + assert (methodOop_eqb resolved_method resolved_method = true)
        by (apply methodOop_eqb_eq; reflexivity).
      congruence.
    + rewrite Hok. reflexivity.
  - reflexivity.
  - intros check_access sel_method Hsel. unfold runtime_resolve_special_method.
    rewrite Hsel. reflexivity.
  - intros sel_method e Hl Hdiff Hfail.
    assert (Hselect : special_select_method resolved_method resolved_klass
                        (Some current) true = Pending e).
    { unfold special_select_method. simpl. rewrite Hcond, Hsup. simpl. rewrite Hl. simpl.
      destruct (methodOop_eqb sel_method resolved_method) eqn:Heq.
      - apply methodOop_eqb_eq in Heq. contradiction.
      - simpl. rewrite Hfail. reflexivity. }
    split; [exact Hselect |].
    unfold runtime_resolve_special_method. rewrite Hselect. reflexivity.
Qed.

(** ** Loader constraints *)

(** C8, as the code has it: when access checking is requested, a class
    method or an interface method that has been found and checked is
    rejected with [LinkageError] as soon as the loader of the referring
    class and the loader of the declaring class disagree on a type name of
    the descriptor; a field is rejected in the same way, with or without
    access checking. *)
Theorem loader_constraints_after_resolution type_names find_class type_name :
  check_signature_loaders_contract type_names find_class ->
  (forall resolved_klass method_name method_signature current m,
      resolve_method None resolved_klass method_name method_signature (Some current) false
      = Normal m ->
      check_method_accessability current resolved_klass (method_holder m) m = Normal tt ->
      In type_name (type_names method_signature) ->
      loaders_disagree find_class (class_loader (klass_part current))
        (class_loader (klass_part (method_holder m))) type_name ->
      resolve_method None resolved_klass method_name method_signature (Some current) true
      = THROW java_lang_LinkageError)
  /\
  (forall resolved_klass method_name method_signature current m,
      resolve_interface_method resolved_klass method_name method_signature (Some current)
        false = Normal m ->
      In type_name (type_names method_signature) ->
      loaders_disagree find_class (class_loader (klass_part current))
        (class_loader (klass_part (method_holder m))) type_name ->
      resolve_interface_method resolved_klass method_name method_signature (Some current)
        true = THROW java_lang_LinkageError)
  /\
  (forall pool index byte (check_only update_pool : bool) st st' resolved_klass sel_klass fd,
      let is_static := bc_eqb byte _getstatic || bc_eqb byte _putstatic in
      let is_put := bc_eqb byte _putfield || bc_eqb byte _putstatic in
      (bc_eqb byte _getstatic || bc_eqb byte _putstatic
       || bc_eqb byte _getfield || bc_eqb byte _putfield) = true ->
      (if update_pool then resolve_klass pool index else resolve_klass_no_update pool index)
      = Normal (Some resolved_klass) ->
      find_field resolved_klass (name_ref_at pool index) (signature_ref_at pool index)
      = Some (sel_klass, fd) ->
      check_field_accessability (pool_holder pool) resolved_klass sel_klass fd
      = Normal tt ->
      is_static = fd_is_static fd ->
      (is_put && flags_is_final (fd_access_flags fd)
       && negb (Nat.eqb sel_klass (pool_holder pool))) = false ->
      (if is_static && negb check_only
       then initialize sel_klass st = (Normal tt, st')
       else st' = st) ->
      In type_name (type_names (signature_ref_at pool index)) ->
      loaders_disagree find_class (class_loader (klass_part (pool_holder pool)))
        (class_loader (klass_part sel_klass)) type_name ->
      resolve_field pool index byte check_only update_pool st
      = (THROW java_lang_LinkageError, st')).
Proof.
  intros Hcontract. split; [| split].
  - intros resolved_klass method_name method_signature current m Hm Hacc Hin Hdis.
    unfold resolve_method in *.
    destruct (is_interface resolved_klass); [discriminate |].
    destruct (resolve_method_lookup None resolved_klass method_name method_signature
                (Some current)) as [[[m' |] ne] | | |];
      try discriminate.
    simpl in *. unfold resolve_method_checks in *.
    destruct (is_abstract m' && negb (klass_is_abstract resolved_klass)); [discriminate |].
    injection Hm as ->. simpl. rewrite Hacc. simpl.
    unfold check_method_loader_constraints.
    destruct (Hcontract method_signature _ _ true type_name Hin Hdis) as (failed & ->). reflexivity.
  - intros resolved_klass method_name method_signature current m Hm Hin Hdis.
    unfold resolve_interface_method in *.
    destruct (negb (is_interface resolved_klass)); [discriminate |].
    destruct (lookup_instance_method_in_klasses resolved_klass method_name
                method_signature) as [r | | |]; try discriminate.
    simpl in *.
    destruct (if is_null r && negb (oop_is_array (klass_part resolved_klass))
              then lookup_method_in_interfaces resolved_klass method_name method_signature
              else Normal r) as [[m' |] | | |];
      try discriminate.
    simpl in *. injection Hm as ->.
    unfold check_method_loader_constraints.
    destruct (Hcontract method_signature _ _ true type_name Hin Hdis) as (failed & ->). reflexivity.
  - intros pool index byte check_only update_pool st st' resolved_klass sel_klass fd
      is_static is_put Hbyte Hk Hf Hacc Hstatic Hfinal Hinit Hin Hdis.
    subst is_static is_put.
    unfold resolve_field, sbind, lift. rewrite Hbyte. simpl. rewrite Hk, Hf, Hacc.
    rewrite <- Hstatic. rewrite Bool.eqb_reflx. simpl. rewrite Hfinal.
    unfold check_field_loader_constraints.
    destruct (Hcontract (signature_ref_at pool index) _ _ false type_name Hin Hdis)
      as (failed & Hfailed).
    destruct ((bc_eqb byte _getstatic || bc_eqb byte _putstatic) && negb check_only).
    + rewrite Hinit, Hfailed. reflexivity.
    + subst st'. rewrite Hfailed. reflexivity.
Qed.

(** ** Access checks *)

Lemma changed_to_public_is_public (flags : AccessFlags) :
  flags_is_public (Z.lor (Z.land flags (Z.lnot JVM_ACC_PROTECTED)) JVM_ACC_PUBLIC) = true.
Proof.
  unfold flags_is_public, has_flag. apply negb_true_iff, Z.eqb_neq. intros H.
  rewrite Z.land_lor_distr_l in H. apply Z.lor_eq_0_iff in H.
  destruct H as [_ H]. discriminate H.
Qed.

Lemma changed_to_public_not_protected (flags : AccessFlags) :
  flags_is_protected (Z.lor (Z.land flags (Z.lnot JVM_ACC_PROTECTED)) JVM_ACC_PUBLIC)
  = false.
Proof.
  unfold flags_is_protected, has_flag. apply negb_false_iff, Z.eqb_eq.
  rewrite Z.land_lor_distr_l, <- Z.land_assoc.
  change (Z.land (Z.lnot JVM_ACC_PROTECTED) JVM_ACC_PROTECTED) with 0.
  change (Z.land JVM_ACC_PUBLIC JVM_ACC_PROTECTED) with 0.
  rewrite Z.land_0_r. reflexivity.
Qed.

(** C9: in the access check of a method named clone that is selected in
    [Object] for a resolved class that is an array, the flags handed to
    the access check are the declared flags with protected cleared and
    public set, so that an access check that permits every public member
    permits every referring class; for every other member the declared
    flags are handed over unchanged. *)
Theorem array_clone_is_public ref_klass resolved_klass sel_klass sel_method :
  let declared := access_flags sel_method in
  let changed := Z.lor (Z.land declared (Z.lnot JVM_ACC_PROTECTED)) JVM_ACC_PUBLIC in
  (name sel_method = vmSymbols.clone_name ->
   sel_klass = Object_klass ->
   oop_is_array (klass_part resolved_klass) = true ->
   flags_is_protected declared = true ->
   check_method_accessability ref_klass resolved_klass sel_klass sel_method
   = (if verify_field_access ref_klass resolved_klass sel_klass changed true
      then Normal tt else THROW java_lang_IllegalAccessError)
   /\ flags_is_public changed = true
   /\ flags_is_protected changed = false
   /\ (public_always_permitted ->
       check_method_accessability ref_klass resolved_klass sel_klass sel_method
       = Normal tt))
  /\
  (name sel_method <> vmSymbols.clone_name
   \/ sel_klass <> Object_klass
   \/ oop_is_array (klass_part resolved_klass) = false ->
   check_method_accessability ref_klass resolved_klass sel_klass sel_method
   = (if verify_field_access ref_klass resolved_klass sel_klass declared true
      then Normal tt else THROW java_lang_IllegalAccessError)).
Proof.
  intros declared changed. subst declared changed. split.
  - intros Hname Hsel Harr Hprot.
    assert (Hcheck :
      check_method_accessability ref_klass resolved_klass sel_klass sel_method
      = (if verify_field_access ref_klass resolved_klass sel_klass
              (Z.lor (Z.land (access_flags sel_method) (Z.lnot JVM_ACC_PROTECTED))
                 JVM_ACC_PUBLIC) true
         then Normal tt else THROW java_lang_IllegalAccessError)).
    { unfold check_method_accessability.
      apply symbol_eqb_eq in Hname. rewrite Hname.
      subst sel_klass. rewrite Nat.eqb_refl, Harr, Hprot. simpl.
      destruct (verify_field_access _ _ _ _ _); reflexivity. }
    split; [exact Hcheck |].
    split; [apply changed_to_public_is_public |].
    split; [apply changed_to_public_not_protected |].
    intros Hpublic. rewrite Hcheck.
    rewrite (Hpublic _ _ _ _ _ (changed_to_public_is_public (access_flags sel_method))).
    reflexivity.
  - intros Hother. unfold check_method_accessability.
    assert (Hcond :
      symbol_eqb (name sel_method) vmSymbols.clone_name
      && Nat.eqb sel_klass Object_klass
      && oop_is_array (klass_part resolved_klass) = false).
    { destruct Hother as [Hn | [Hs | Ha]].
      - apply symbol_eqb_neq in Hn. rewrite Hn. reflexivity.
      - apply Nat.eqb_neq in Hs. rewrite Hs. apply andb_false_iff. left.
        apply andb_false_r.
      - rewrite Ha. apply andb_false_r. }
    rewrite Hcond. simpl.
    destruct (verify_field_access _ _ _ _ _); reflexivity.
Qed.

(** ** Final fields *)

(** C10, as the code has it: for a final field declared in another class
    than the referring one, on which the ordinary access check passes,
    putfield on an instance field and putstatic on a static field give
    [IllegalAccessError]; putfield on a static field and putstatic on an
    instance field give [IncompatibleClassChangeError], which is checked
    first; getfield and getstatic of the same field go on to
    initialization and the loader constraints and succeed when these
    do. *)
Theorem final_field_put_restricted pool index (check_only update_pool : bool) st
  resolved_klass sel_klass fd :
  (if update_pool then resolve_klass pool index else resolve_klass_no_update pool index)
  = Normal (Some resolved_klass) ->
  find_field resolved_klass (name_ref_at pool index) (signature_ref_at pool index)
  = Some (sel_klass, fd) ->
  flags_is_final (fd_access_flags fd) = true ->
  sel_klass <> pool_holder pool ->
  check_field_accessability (pool_holder pool) resolved_klass sel_klass fd = Normal tt ->
  let info :=
    FieldAccessInfo_set (fd_field_holder fd) (fd_name fd) (fd_index fd) (fd_offset fd)
      (fd_field_type fd) (fd_access_flags fd) in
  let loader_constraints :=
    check_field_loader_constraints (pool_holder pool) sel_klass (name_ref_at pool index)
      (signature_ref_at pool index) in
  (forall byte,
      (byte = _putfield /\ fd_is_static fd = false)
      \/ (byte = _putstatic /\ fd_is_static fd = true) ->
      resolve_field pool index byte check_only update_pool st
      = (THROW java_lang_IllegalAccessError, st))
  /\
  (forall byte,
      (byte = _putfield /\ fd_is_static fd = true)
      \/ (byte = _putstatic /\ fd_is_static fd = false) ->
      resolve_field pool index byte check_only update_pool st
      = (THROW java_lang_IncompatibleClassChangeError, st))
  /\
  (fd_is_static fd = false ->
   loader_constraints = Normal tt ->
   resolve_field pool index _getfield check_only update_pool st = (Normal info, st))
  /\
  (fd_is_static fd = true ->
   forall st',
     (if negb check_only then initialize sel_klass st = (Normal tt, st') else st' = st) ->
     loader_constraints = Normal tt ->
     resolve_field pool index _getstatic check_only update_pool st = (Normal info, st')).
Proof.
  intros Hk Hf Hfinal Hneq Hacc info loader_constraints.
  subst info loader_constraints. apply Nat.eqb_neq in Hneq.
  split; [| split; [| split]].
  - intros byte [[-> Hs] | [-> Hs]];
      unfold resolve_field, sbind, lift; simpl; rewrite Hk, Hf, Hacc, Hs; simpl;
      rewrite Hfinal, Hneq; reflexivity.
  - intros byte [[-> Hs] | [-> Hs]];
      unfold resolve_field, sbind, lift; simpl; rewrite Hk, Hf, Hacc, Hs; reflexivity.
  - intros Hs Hl. unfold resolve_field, sbind, lift. simpl.
    rewrite Hk, Hf, Hacc, Hs. simpl. rewrite Hl. reflexivity.
  - intros Hs st' Hinit Hl. unfold resolve_field, sbind, lift. simpl.
    rewrite Hk, Hf, Hacc, Hs. simpl.
    destruct (negb check_only).
    + rewrite Hinit, Hl. reflexivity.
    + subst st'. rewrite Hl. reflexivity.
Qed.

End Properties.

(* ------------------------------------------------------------------ *)
(** * Further behaviour of the resolver *)

Section Behaviour.

Context {VM : Runtime}.

(** ** Lookup of instance methods *)

Lemma lookup_instance_method_loop_instance n s :
  forall fuel result m,
    lookup_instance_method_loop fuel result n s = Normal (Some m) -> is_static m = false.
Proof.
  induction fuel as [| fuel IH]; intros result m H.
  - destruct result as [m0 |]; simpl in H; [| discriminate].
    destruct (is_static m0) eqn:E; [discriminate |]. injection H as <-. exact E.
  - destruct result as [m0 |]; simpl in H; [| discriminate].
    destruct (is_static m0) eqn:E.
    + inv_bind H. eapply IH; eassumption.
    + injection H as <-. exact E.
Qed.

Lemma lookup_instance_method_loop_not_pending n s :
  forall fuel result e, lookup_instance_method_loop fuel result n s <> Pending e.
Proof.
  induction fuel as [| fuel IH]; intros result e; destruct result as [m0 |]; simpl;
    try discriminate.
  - destruct (is_static m0); discriminate.
  - destruct (is_static m0); [| discriminate].
    destruct (super (klass_part (method_holder m0))); simpl; [apply IH | discriminate].
Qed.

(** X1: [lookup_instance_method_in_klasses] "returns first instance
    method": a method it returns is never static, it never leaves an
    exception pending, and when the lookup in the class finds nothing or
    finds an instance method, that is its result. *)
Theorem instance_lookup_skips_static_methods klass method_name method_signature :
  let result := lookup_instance_method_in_klasses klass method_name method_signature in
  let first := uncached_lookup_method klass method_name method_signature in
  (forall m, result = Normal (Some m) -> is_static m = false) /\
  (forall e, result <> Pending e) /\
  (first = None -> result = Normal None) /\
  (forall m, first = Some m -> is_static m = false -> result = Normal (Some m)).
Proof.
  intros result first. subst result first. unfold lookup_instance_method_in_klasses.
  repeat split.
  - intros m H. eapply lookup_instance_method_loop_instance; eassumption.
  - intros e. apply lookup_instance_method_loop_not_pending.
  - intros ->. destruct max_super_walk; reflexivity.
  - intros m -> Hm. destruct max_super_walk; simpl; rewrite Hm; reflexivity.
Qed.

Lemma lookup_instance_method_loop_returns rank n s :
  hierarchy_ranked rank ->
  (forall k m, uncached_lookup_method k n s = Some m -> is_static m = true ->
               super (klass_part (method_holder m)) <> None) ->
  forall fuel result,
    (forall m, result = Some m ->
               (rank (method_holder m) < fuel)%nat /\
               (is_static m = true -> super (klass_part (method_holder m)) <> None)) ->
    exists r, lookup_instance_method_loop fuel result n s = Normal r.
Proof.
  intros [Hsuper Hlookup] Hstatic. induction fuel as [| fuel IH]; intros result Hres.
  - destruct result as [m |]; simpl; [| eauto].
    destruct (Hres m eq_refl) as [Hlt _]. lia.
  - destruct result as [m |]; simpl; [| eauto].
    destruct (is_static m) eqn:E; [| eauto].
    destruct (Hres m eq_refl) as [Hlt Hsup]. specialize (Hsup E).
    destruct (super (klass_part (method_holder m))) as [sup |] eqn:Esup; [| congruence].
    simpl. apply IH. intros m' Hm'. split.
    + apply Hlookup in Hm'. specialize (Hsuper _ _ Esup). lia.
    + intros Hs. eapply Hstatic; eassumption.
Qed.

(** X2: in a class hierarchy that is well founded, with a bound on the walk
    that exceeds the rank of the class, and when every static method a
    lookup of this name and signature can find is declared in a class that
    has a superclass, the loop of [lookup_instance_method_in_klasses] ends
    and returns normally, with no method or with an instance method. *)
Theorem instance_lookup_returns rank klass method_name method_signature :
  hierarchy_ranked rank ->
  (rank klass < max_super_walk)%nat ->
  (forall k m, uncached_lookup_method k method_name method_signature = Some m ->
               is_static m = true -> super (klass_part (method_holder m)) <> None) ->
  exists r,
    lookup_instance_method_in_klasses klass method_name method_signature = Normal r /\
    (forall m, r = Some m -> is_static m = false).
Proof.
  intros Hr Hk Hstatic.
  destruct (@lookup_instance_method_loop_returns rank _ _ Hr Hstatic max_super_walk
              (uncached_lookup_method klass method_name method_signature)) as [r Hres].
  - intros m Hm. split.
    + destruct Hr as [_ Hlookup]. apply Hlookup in Hm. lia.
    + intros Hs. eapply Hstatic; eassumption.
  - exists r. split; [exact Hres |].
    intros m ->. eapply lookup_instance_method_loop_instance. exact Hres.
Qed.

(** ** Method resolution *)

(** X3: a method that [resolve_method] returns was looked up in a class
    that is not an interface, is abstract only if that class is abstract,
    and, when access checking is requested, has passed the accessibility
    check and the loader constraint check against the referring class. *)
Theorem resolve_method_postconditions incoming resolved_klass method_name method_signature
  current_klass check_access m :
  resolve_method incoming resolved_klass method_name method_signature current_klass
    check_access = Normal m ->
  is_interface resolved_klass = false /\
  (is_abstract m = true -> klass_is_abstract resolved_klass = true) /\
  (check_access = true ->
   exists current,
     current_klass = Some current /\
     check_method_accessability current resolved_klass (method_holder m) m = Normal tt /\
     check_method_loader_constraints m resolved_klass method_name method_signature current
     = Normal tt).
Proof.
  unfold resolve_method. intros H.
  destruct (is_interface resolved_klass); [discriminate |].
  inv_bind H. destruct a as [[m0 |] nested]; [| discriminate].
  unfold resolve_method_checks in H.
  split; [reflexivity |].
  assert (Hconcrete : is_abstract m0 = true -> klass_is_abstract resolved_klass = true).
  { intros Eabs. rewrite Eabs in H.
    destruct (klass_is_abstract resolved_klass); [reflexivity | discriminate]. }
  destruct (is_abstract m0 && negb (klass_is_abstract resolved_klass)); [discriminate |].
  destruct check_access.
  - destruct current_klass as [current |]; simpl in H; [| discriminate].
    destruct (check_method_accessability current resolved_klass (method_holder m0) m0)
      as [[] | | |] eqn:Eacc; try discriminate. simpl in H.
    destruct (check_method_loader_constraints m0 resolved_klass method_name
                method_signature current) as [[] | | |] eqn:Eloader; try discriminate.
    injection H as <-. split; [exact Hconcrete |]. intros _. eauto.
  - injection H as <-. split; [exact Hconcrete | discriminate].
Qed.

(** X4: requesting access checks never changes which method is found:
    [resolve_method] with [check_access] is [resolve_method] without it
    followed by the accessibility check and the loader constraint check,
    and [resolve_interface_method] with [check_access] adds the loader
    constraint check only. *)
Theorem access_checks_follow_lookup incoming resolved_klass method_name method_signature
  current_klass :
  resolve_method incoming resolved_klass method_name method_signature current_klass true
  = (m <- resolve_method incoming resolved_klass method_name method_signature
            current_klass false ;;
     vm_assert (negb (is_null current_klass)) ;;;
     current <- deref current_klass ;;
     check_method_accessability current resolved_klass (method_holder m) m ;;;
     check_method_loader_constraints m resolved_klass method_name method_signature
       current ;;;
     Normal m)
  /\
  resolve_interface_method resolved_klass method_name method_signature current_klass true
  = (m <- resolve_interface_method resolved_klass method_name method_signature
            current_klass false ;;
     current <- deref current_klass ;;
     check_method_loader_constraints m resolved_klass method_name method_signature
       current ;;;
     Normal m).
Proof.
  split.
  - unfold resolve_method.
    destruct (is_interface resolved_klass); [reflexivity |].
    destruct (resolve_method_lookup incoming resolved_klass method_name method_signature
                current_klass) as [[[m |] nested] | | |]; simpl; try reflexivity.
    unfold resolve_method_checks.
    destruct (is_abstract m && negb (klass_is_abstract resolved_klass)); reflexivity.
  - unfold resolve_interface_method.
    destruct (negb (is_interface resolved_klass)); [reflexivity |].
    destruct (lookup_instance_method_in_klasses resolved_klass method_name
                method_signature) as [found | | |]; simpl; try reflexivity.
    destruct (if is_null found && negb (oop_is_array (klass_part resolved_klass))
              then lookup_method_in_interfaces resolved_klass method_name method_signature
              else Normal found) as [[m |] | | |]; reflexivity.
Qed.

(** X5: the signature-polymorphic lookup concerns [MethodHandle] only, and
    without a place for the appendix it never asks for an invoker: for
    another class, and for a name that is not an intrinsic when no appendix
    is wanted, [lookup_polymorphic_method] hands back the result it was
    given; so a method that neither the superclass chain nor the interfaces
    of such a class have gives a [NoSuchMethodError] without a cause. *)
Theorem polymorphic_lookup_is_for_MethodHandle incoming resolved_klass method_name
  method_signature current_klass :
  (resolved_klass <> MethodHandle_klass ->
   forall want_appendix,
     lookup_polymorphic_method incoming resolved_klass method_name method_signature
       current_klass want_appendix = Normal (incoming, None, None)) /\
  (is_signature_polymorphic_intrinsic (signature_polymorphic_name_id method_name) = false ->
   lookup_polymorphic_method incoming resolved_klass method_name method_signature
     current_klass false = Normal (incoming, None, None)) /\
  (is_interface resolved_klass = false ->
   resolved_klass <> MethodHandle_klass ->
   uncached_lookup_method resolved_klass method_name method_signature = None ->
   (oop_is_array (klass_part resolved_klass) = false ->
    lookup_method_in_all_interfaces resolved_klass method_name method_signature = None) ->
   forall check_access,
     resolve_method incoming resolved_klass method_name method_signature current_klass
       check_access = THROW java_lang_NoSuchMethodError).
Proof.
  assert (Hother : resolved_klass <> MethodHandle_klass ->
            forall r want_appendix,
              lookup_polymorphic_method r resolved_klass method_name method_signature
                current_klass want_appendix = Normal (r, None, None)).
  { intros Hk r want_appendix. unfold lookup_polymorphic_method.
    apply Nat.eqb_neq in Hk. rewrite Hk, andb_false_r. reflexivity. }
  repeat split.
  - intros Hk want_appendix. apply Hother. exact Hk.
  - intros Hiid. unfold lookup_polymorphic_method. rewrite Hiid, andb_false_r.
    destruct (EnableInvokeDynamic && Nat.eqb resolved_klass MethodHandle_klass
              && negb (iid_eqb (signature_polymorphic_name_id method_name) _none));
      reflexivity.
  - intros Hi Hk Hlookup Hinterfaces check_access.
    unfold resolve_method, resolve_method_lookup, lookup_method_in_klasses,
      lookup_method_in_interfaces.
    rewrite Hi, Hlookup.
    destruct (oop_is_array (klass_part resolved_klass)); simpl; [reflexivity |].
    rewrite (Hinterfaces eq_refl). simpl. rewrite (Hother Hk). reflexivity.
Qed.

(** ** Linking special and virtual calls *)

(** X6: a constructor is never inherited: when [resolve_method] finds an
    [<init>] declared in another class than the resolved class,
    [linktime_resolve_special_method] gives [NoSuchMethodError]; it gives
    [IncompatibleClassChangeError] for a static method; and the method of
    a special call that links is the one [resolve_method] found, is not
    static, and, if it is [<init>], is declared in the resolved class. *)
Theorem special_linkage_checks incoming resolved_klass method_name method_signature
  current_klass check_access :
  let resolved :=
    resolve_method incoming resolved_klass method_name method_signature current_klass
      check_access in
  let linked :=
    linktime_resolve_special_method incoming resolved_klass method_name method_signature
      current_klass check_access in
  (forall m,
      resolved = Normal m ->
      name m = vmSymbols.object_initializer_name ->
      method_holder m <> resolved_klass ->
      linked = THROW java_lang_NoSuchMethodError)
  /\
  (forall m,
      resolved = Normal m ->
      (name m = vmSymbols.object_initializer_name -> method_holder m = resolved_klass) ->
      is_static m = true ->
      linked = THROW java_lang_IncompatibleClassChangeError)
  /\
  (forall m,
      linked = Normal m ->
      resolved = Normal m /\ is_static m = false /\
      (name m = vmSymbols.object_initializer_name -> method_holder m = resolved_klass)).
Proof.
  intros resolved linked. subst resolved linked.
  unfold linktime_resolve_special_method. repeat split.
  - intros m -> Hname Hholder. simpl.
    apply symbol_eqb_eq in Hname. apply Nat.eqb_neq in Hholder.
    rewrite Hname, Hholder. reflexivity.
  - intros m -> Hinit Hs. simpl.
    destruct (symbol_eqb (name m) vmSymbols.object_initializer_name) eqn:En.
    + apply symbol_eqb_eq in En. rewrite (Hinit En), Nat.eqb_refl. simpl.
      rewrite Hs. reflexivity.
    + simpl. rewrite Hs. reflexivity.
  - inv_bind H.
    destruct (symbol_eqb (name a) vmSymbols.object_initializer_name
              && negb (Nat.eqb (method_holder a) resolved_klass)); [discriminate |].
    destruct (is_static a); [discriminate |]. injection H as <-. exact Hstep.
  - inv_bind H.
    destruct (symbol_eqb (name a) vmSymbols.object_initializer_name
              && negb (Nat.eqb (method_holder a) resolved_klass)); [discriminate |].
    destruct (is_static a) eqn:Es; [discriminate |]. injection H as <-. exact Es.
  - intros Hname. inv_bind H.
    destruct (symbol_eqb (name a) vmSymbols.object_initializer_name) eqn:En,
             (Nat.eqb (method_holder a) resolved_klass) eqn:Eh; simpl in H;
      try discriminate.
    + destruct (is_static a); [discriminate |]. injection H as <-.
      apply Nat.eqb_eq. exact Eh.
    + destruct (is_static a); [discriminate |]. injection H as <-.
      apply symbol_eqb_neq in En. contradiction.
    + destruct (is_static a); [discriminate |]. injection H as <-.
      apply symbol_eqb_neq in En. contradiction.
Qed.

(** X7: linking a virtual call to a static method gives
    [IncompatibleClassChangeError]; the method of a virtual call that links
    is the one [resolve_method] found and is not static. *)
Theorem virtual_linkage_checks incoming resolved_klass method_name method_signature
  current_klass check_access :
  let resolved :=
    resolve_method incoming resolved_klass method_name method_signature current_klass
      check_access in
  let linked :=
    linktime_resolve_virtual_method incoming resolved_klass method_name method_signature
      current_klass check_access in
  (forall m,
      resolved = Normal m ->
      name m <> vmSymbols.object_initializer_name ->
      name m <> vmSymbols.class_initializer_name ->
      is_static m = true ->
      linked = THROW java_lang_IncompatibleClassChangeError)
  /\
  (forall m,
      linked = Normal m ->
      resolved = Normal m /\ is_static m = false).
Proof.
  intros resolved linked. subst resolved linked.
  unfold linktime_resolve_virtual_method. split.
  - intros m -> Hinit Hclinit Hs. simpl.
    apply symbol_eqb_neq in Hinit, Hclinit. rewrite ?Hinit, ?Hclinit. simpl.
    rewrite Hs. reflexivity.
  - intros m H.
    apply bind_Normal in H as (found & Hfound & H).
    apply bind_Normal in H as (u & _ & H).
    apply bind_Normal in H as (u0 & _ & H).
    destruct (is_static found) eqn:Es; [discriminate |]. injection H as <-.
    split; assumption.
Qed.

(** ** Virtual calls at run time *)

(** The index and the method that [virtual_select_method] returns. *)
Lemma virtual_select_method_index resolved_method resolved_klass recv_klass index sel :
  virtual_select_method resolved_method resolved_klass recv_klass = Normal (index, sel) ->
  index
  = (if is_interface (method_holder resolved_method)
     then index_of_miranda resolved_klass (name resolved_method)
            (signature resolved_method)
     else vtable_index resolved_method) /\
  (0 <= index \/
   (index = nonvirtual_vtable_index /\
    is_interface (method_holder resolved_method) = false /\
    sel = Some resolved_method)).
Proof.
  unfold virtual_select_method, vtable_index_of_miranda_method. intros H.
  destruct (is_interface (method_holder resolved_method)).
  - apply bind_Normal in H as (u & _ & H).
    apply bind_Normal in H as (inst & _ & H).
    apply bind_Normal in H as (entry & Hentry & H). injection H as <- _.
    apply method_at_vtable_Normal in Hentry. split; [reflexivity | tauto].
  - destruct (vtable_index resolved_method =? nonvirtual_vtable_index) eqn:Enon.
    + apply bind_Normal in H as (u & _ & H). injection H as <- <-.
      apply Z.eqb_eq in Enon. split; [reflexivity | auto].
    + apply bind_Normal in H as (inst & _ & H).
      apply bind_Normal in H as (entry & Hentry & H). injection H as <- _.
      apply method_at_vtable_Normal in Hentry. split; [reflexivity | tauto].
Qed.

(** What [runtime_resolve_virtual_method] hands to [set_common]. *)
Lemma runtime_resolve_virtual_method_fields st resolved_method resolved_klass recv
  recv_klass check_null_and_abstract info :
  runtime_resolve_virtual_method st resolved_method resolved_klass recv recv_klass
    check_null_and_abstract = Normal info ->
  exists sel,
    virtual_select_method resolved_method resolved_klass recv_klass
    = Normal (_vtable_index info, Some sel) /\
    info = mkCallInfo (Some resolved_klass) recv_klass resolved_method sel
             (_vtable_index info) None None.
Proof.
  unfold runtime_resolve_virtual_method. intros H.
  destruct (check_null_and_abstract && is_null recv); [discriminate |].
  apply bind_Normal in H as (u & _ & H).
  apply bind_Normal in H as ([index [sel |]] & Hselect & H); [| discriminate].
  destruct (check_null_and_abstract && is_abstract sel); [discriminate |].
  unfold set_virtual in H.
  apply bind_Normal in H as (u0 & _ & H).
  apply bind_Normal in H as (result & Hcommon & H).
  apply bind_Normal in H as (u1 & _ & H). injection H as <-.
  exists sel. unfold set_common in Hcommon.
  apply bind_Normal in Hcommon as (u2 & _ & Hcommon).
  assert (Hresult : result = mkCallInfo (Some resolved_klass) recv_klass resolved_method
                               sel index None None).
  { destruct (must_be_compiled sel).
    - destruct is_Compiler_thread; [congruence |].
      destruct (is_not_initialized st (method_holder sel)); [congruence |].
      apply bind_Normal in Hcommon as (u3 & _ & Hcommon). congruence.
    - congruence. }
  subst result. simpl. split; [exact Hselect | reflexivity].
Qed.

Lemma runtime_virtual_index_range st resolved_method resolved_klass recv recv_klass
  check_null_and_abstract info :
  runtime_resolve_virtual_method st resolved_method resolved_klass recv recv_klass
    check_null_and_abstract = Normal info ->
  0 <= _vtable_index info \/ _vtable_index info = nonvirtual_vtable_index.
Proof.
  intros H. apply runtime_resolve_virtual_method_fields in H.
  destruct H as (sel & Hselect & _).
  apply virtual_select_method_index in Hselect. tauto.
Qed.

(** X8: the null check of [runtime_resolve_virtual_method] comes first and
    is made only when [check_null_and_abstract] is set; for a resolved
    method whose class is linked, an empty vtable slot gives
    [AbstractMethodError] with or without the flag; and a call resolved
    with the flag has a receiver and a selected method that is not
    abstract. *)
Theorem virtual_call_runtime_checks st resolved_method resolved_klass recv recv_klass
  check_null_and_abstract :
  let result :=
    runtime_resolve_virtual_method st resolved_method resolved_klass recv recv_klass
      check_null_and_abstract in
  (check_null_and_abstract = true -> recv = None ->
   result = THROW java_lang_NullPointerException)
  /\
  (forall index,
      (check_null_and_abstract = false \/ recv <> None) ->
      is_linked st (method_holder resolved_method) = true ->
      virtual_select_method resolved_method resolved_klass recv_klass
      = Normal (index, None) ->
      result = THROW java_lang_AbstractMethodError)
  /\
  (forall info,
      result = Normal info ->
      check_null_and_abstract = true ->
      recv <> None /\ is_abstract (_selected_method info) = false).
Proof.
  intros result. subst result. unfold runtime_resolve_virtual_method. split; [| split].
  - intros -> ->. reflexivity.
  - intros index Hrecv Hlinked Hsel.
    assert (Hnull : check_null_and_abstract && is_null recv = false).
    { destruct Hrecv as [-> | Hrecv]; [reflexivity |].
      destruct recv; [apply andb_false_r | contradiction]. }
    rewrite Hnull, Hlinked, Hsel. reflexivity.
  - intros info H.
    destruct (check_null_and_abstract && is_null recv) eqn:Enull; [discriminate |].
    apply bind_Normal in H as (u & _ & H).
    apply bind_Normal in H as ([index [sel |]] & _ & H); [| discriminate].
    destruct (check_null_and_abstract && is_abstract sel) eqn:Eabs; [discriminate |].
    unfold set_virtual in H.
    apply bind_Normal in H as (u0 & _ & H).
    apply bind_Normal in H as (result & Hcommon & H).
    apply bind_Normal in H as (u1 & _ & H). injection H as <-.
    apply set_common_fields in Hcommon. destruct Hcommon as [_ ->].
    intros ->. simpl in Enull, Eabs. split; [| exact Eabs].
    intros ->. discriminate.
Qed.

(** X9: the CallInfo of a virtual call that resolved holds the resolved
    class, the class of the receiver as selected class, the resolved
    method, and as vtable index, for a resolved method of an interface, the
    miranda slot that the search of the resolved class's vtable for its
    name and signature ([index_of_miranda]) returns, and the vtable index
    of the resolved method otherwise; that index is not negative unless it
    is [nonvirtual_vtable_index], and then the resolved method itself is
    selected. *)
Theorem virtual_call_info st resolved_method resolved_klass recv recv_klass
  check_null_and_abstract info :
  runtime_resolve_virtual_method st resolved_method resolved_klass recv recv_klass
    check_null_and_abstract = Normal info ->
  _resolved_klass info = Some resolved_klass /\
  _selected_klass info = recv_klass /\
  _resolved_method info = resolved_method /\
  _vtable_index info
  = (if is_interface (method_holder resolved_method)
     then index_of_miranda resolved_klass (name resolved_method)
            (signature resolved_method)
     else vtable_index resolved_method) /\
  (0 <= _vtable_index info \/
   (_vtable_index info = nonvirtual_vtable_index /\
    is_interface (method_holder resolved_method) = false /\
    _selected_method info = resolved_method)).
Proof.
  intros H. apply runtime_resolve_virtual_method_fields in H.
  destruct H as (sel & Hselect & Hinfo).
  apply virtual_select_method_index in Hselect. destruct Hselect as [Hindex Hrange].
  rewrite Hinfo. simpl.
  do 3 (split; [reflexivity |]). split; [exact Hindex |].
  destruct Hrange as [Hle | (Hnon & Hi & Hsel)]; [left; exact Hle |].
  right. injection Hsel as ->. auto.
Qed.

(** X10: [resolve_virtual_vtable_index] never leaves an exception pending,
    and a caller can tell a failure from its result: the index is
    [invalid_vtable_index] exactly when the resolution of the virtual call
    threw, and otherwise it is the index of the CallInfo, which is not
    negative or is [nonvirtual_vtable_index]. *)
Theorem vtable_index_tells_failure st receiver_klass resolved_klass method_name
  method_signature current_klass :
  let call :=
    resolve_virtual_call st None receiver_klass resolved_klass method_name
      method_signature current_klass true false in
  let result :=
    resolve_virtual_vtable_index st receiver_klass resolved_klass method_name
      method_signature current_klass in
  (forall e, result <> Pending e) /\
  (forall index,
      result = Normal index ->
      (index = invalid_vtable_index <-> exists e, call = Pending e) /\
      (index <> invalid_vtable_index ->
       (0 <= index \/ index = nonvirtual_vtable_index) /\
       exists info, call = Normal info /\ _vtable_index info = index)).
Proof.
  intros call result. subst call result. unfold resolve_virtual_vtable_index.
  destruct (resolve_virtual_call st None receiver_klass resolved_klass method_name
              method_signature current_klass true false) as [info | e | |] eqn:Ecall;
    simpl; (split; [discriminate |]); intros index H; try discriminate.
  - injection H as <-.
    assert (Hindex : 0 <= _vtable_index info
                     \/ _vtable_index info = nonvirtual_vtable_index).
    { unfold resolve_virtual_call in Ecall. inv_bind Ecall.
      apply runtime_virtual_index_range in Ecall. exact Ecall. }
    split; [split |].
    + intros Hinv. unfold invalid_vtable_index, nonvirtual_vtable_index in *. lia.
    + intros [e He]. discriminate.
    + intros _. split; [exact Hindex | eauto].
  - injection H as <-. split; [split; eauto; reflexivity |].
    intros Hne. contradiction.
Qed.

(** ** Interface and special calls at run time *)

(** X11: the CallInfo of an interface call that resolved holds the resolved
    class, the class of the receiver as selected class and the resolved
    method; the selected method is an instance method, and is not abstract
    when [check_null_and_abstract] is set; the vtable index is
    [invalid_vtable_index] unless the resolved method is declared in
    [Object], and then it is the index of the resolved method. *)
Theorem interface_call_info st resolved_method resolved_klass recv recv_klass
  check_null_and_abstract info :
  runtime_resolve_interface_method st resolved_method resolved_klass recv recv_klass
    check_null_and_abstract = Normal info ->
  _resolved_klass info = Some resolved_klass /\
  _selected_klass info = recv_klass /\
  _resolved_method info = resolved_method /\
  is_static (_selected_method info) = false /\
  (check_null_and_abstract = true ->
   recv <> None /\ is_abstract (_selected_method info) = false) /\
  _vtable_index info
  = (if Nat.eqb (method_holder resolved_method) Object_klass
     then vtable_index resolved_method else invalid_vtable_index).
Proof.
  unfold runtime_resolve_interface_method. intros H.
  destruct (check_null_and_abstract && is_null recv) eqn:Enull; [discriminate |].
  apply bind_Normal in H as (receiver & _ & H).
  destruct (negb (is_subtype_of receiver resolved_klass)); [discriminate |].
  apply bind_Normal in H as ([sel |] & Hlookup & H); [| discriminate].
  destruct (negb (is_public sel)); [discriminate |].
  destruct (check_null_and_abstract && is_abstract sel) eqn:Eabs; [discriminate |].
  apply lookup_instance_method_loop_instance in Hlookup.
  unfold set_interface in H.
  apply bind_Normal in H as (index & Hindex & H).
  unfold set_common in H. apply bind_Normal in H as (u & _ & H).
  assert (Hinfo : info = mkCallInfo (Some resolved_klass) recv_klass resolved_method sel
                           index None None).
  { destruct (must_be_compiled sel).
    - destruct is_Compiler_thread; [congruence |].
      destruct (is_not_initialized st (method_holder sel)); [congruence |].
      apply bind_Normal in H as (u0 & _ & H). congruence.
    - congruence. }
  subst info. simpl.
  do 3 (split; [reflexivity |]). split; [exact Hlookup |]. split.
  - intros ->. simpl in Enull, Eabs. split; [| exact Eabs].
    intros ->. discriminate.
  - destruct (Nat.eqb (method_holder resolved_method) Object_klass).
    + apply bind_Normal in Hindex as (u0 & _ & Hindex). congruence.
    + congruence.
Qed.

(** X12: a special call that resolved binds statically to the selected
    method: the CallInfo holds it as resolved and as selected method with
    [nonvirtual_vtable_index] and the resolved class twice; the method is
    neither static nor abstract, and without access checking it is the
    method resolved at link time. *)
Theorem special_call_info st resolved_method resolved_klass current_klass check_access
  info :
  runtime_resolve_special_method st resolved_method resolved_klass current_klass
    check_access = Normal info ->
  _resolved_klass info = Some resolved_klass /\
  _selected_klass info = Some resolved_klass /\
  _resolved_method info = _selected_method info /\
  _vtable_index info = nonvirtual_vtable_index /\
  special_select_method resolved_method resolved_klass current_klass check_access
  = Normal (_selected_method info) /\
  is_static (_selected_method info) = false /\
  is_abstract (_selected_method info) = false /\
  (check_access = false -> _selected_method info = resolved_method).
Proof.
  unfold runtime_resolve_special_method. intros H. inv_bind H.
  destruct (is_static a) eqn:Es; [discriminate |].
  destruct (is_abstract a) eqn:Ea; [discriminate |].
  unfold set_static in H. apply set_common_methods in H. subst info. simpl.
  repeat split; try assumption.
  intros ->. unfold special_select_method in Hstep. injection Hstep as <-. reflexivity.
Qed.

(** ** Method handle and dynamic calls *)

Lemma iid_eqb_eq (a b : vmIntrinsicsID) : iid_eqb a b = true <-> a = b.
Proof.
  unfold iid_eqb. destruct (vmIntrinsicsID_eq_dec a b); split; intros H; congruence.
Qed.

Lemma set_handle_fields st resolved_method resolved_appendix resolved_method_type info :
  set_handle st resolved_method resolved_appendix resolved_method_type = Normal info ->
  exists m,
    resolved_method = Some m /\
    info = mkCallInfo (Some MethodHandle_klass) (Some MethodHandle_klass) m m
             nonvirtual_vtable_index resolved_appendix resolved_method_type.
Proof.
  unfold set_handle. intros H. destruct resolved_method as [m |]; [| discriminate].
  exists m. split; [reflexivity |].
  apply bind_Normal in H as (u & _ & H).
  apply bind_Normal in H as (u0 & _ & H).
  apply bind_Normal in H as (result & Hcommon & H). injection H as <-.
  unfold set_common in Hcommon. apply bind_Normal in Hcommon as (u1 & _ & Hcommon).
  assert (Hresult : result = mkCallInfo (Some MethodHandle_klass) (Some MethodHandle_klass)
                               m m nonvirtual_vtable_index None None).
  { destruct (must_be_compiled m).
    - destruct is_Compiler_thread; [congruence |].
      destruct (is_not_initialized st (method_holder m)); [congruence |].
      apply bind_Normal in Hcommon as (u2 & _ & Hcommon). congruence.
    - congruence. }
  subst result. reflexivity.
Qed.

(** X13: [set_handle] throws [InternalError] for a null method ("resolved
    method is null"); the CallInfo it builds binds statically to the
    method it was given, as resolved and as selected method, with
    [MethodHandle] as resolved and selected class, and carries the appendix
    and the method type it was given. *)
Theorem handle_call_info st resolved_method resolved_appendix resolved_method_type :
  let result := set_handle st resolved_method resolved_appendix resolved_method_type in
  (resolved_method = None -> result = THROW java_lang_InternalError) /\
  (forall info,
      result = Normal info ->
      exists m,
        resolved_method = Some m /\
        _resolved_method info = m /\ _selected_method info = m /\
        _resolved_klass info = Some MethodHandle_klass /\
        _selected_klass info = Some MethodHandle_klass /\
        _vtable_index info = nonvirtual_vtable_index /\
        _resolved_appendix info = resolved_appendix /\
        _resolved_method_type info = resolved_method_type).
Proof.
  intros result. subst result. split.
  - intros ->. reflexivity.
  - intros info H. apply set_handle_fields in H. destruct H as (m & Hm & ->).
    exists m. simpl. repeat split; try reflexivity. exact Hm.
Qed.


(** ** Compilation on resolution *)

(** X15: [set_common] does not force compilation for a compiler thread or
    for a method whose class has not started initialization: there, and
    for a method that need not be compiled, it returns the CallInfo
    whatever the compile broker would do; otherwise it asks for the
    compilation of the selected method first, and an exception of the
    compile broker becomes its result. *)
Theorem compilation_on_resolution st resolved_klass selected_klass resolved_method
  selected_method index :
  signature resolved_method = signature selected_method ->
  let info :=
    mkCallInfo resolved_klass selected_klass resolved_method selected_method index
      None None in
  let result :=
    set_common st resolved_klass selected_klass resolved_method selected_method index in
  (must_be_compiled selected_method = false \/ is_Compiler_thread = true
   \/ is_not_initialized st (method_holder selected_method) = true ->
   result = Normal info)
  /\
  (must_be_compiled selected_method = true -> is_Compiler_thread = false ->
   is_not_initialized st (method_holder selected_method) = false ->
   result = (compile_method selected_method ;;; Normal info) /\
   forall e, compile_method selected_method = Pending e -> result = Pending e).
Proof.
  intros Hsig info result. subst info result. unfold set_common.
  apply symbol_eqb_eq in Hsig. rewrite Hsig. simpl. split.
  - intros [Hc | [Hc | Hc]].
    + rewrite Hc. reflexivity.
    + rewrite Hc. destruct (must_be_compiled selected_method); reflexivity.
    + rewrite Hc. destruct (must_be_compiled selected_method), is_Compiler_thread;
        reflexivity.
  - intros -> -> ->. split; [reflexivity |]. intros e ->. reflexivity.
Qed.

(** ** Field resolution *)

(** X16: the errors of field resolution come in this order: a class that
    cannot be resolved and a field that the class does not have give
    [NoSuchFieldError]; then a field that the referring class may not
    access gives [IllegalAccessError], whatever its static-ness or
    finality; then a static-ness that does not match the bytecode gives
    [IncompatibleClassChangeError].  None of these initializes a class. *)
Theorem field_resolution_errors pool index byte (check_only update_pool : bool) st :
  (bc_eqb byte _getstatic || bc_eqb byte _putstatic
   || bc_eqb byte _getfield || bc_eqb byte _putfield) = true ->
  let klass :=
    if update_pool then resolve_klass pool index else resolve_klass_no_update pool index in
  let field := name_ref_at pool index in
  let sig := signature_ref_at pool index in
  let result := resolve_field pool index byte check_only update_pool st in
  (klass = Normal None -> result = (THROW java_lang_NoSuchFieldError, st))
  /\
  (forall resolved_klass,
      klass = Normal (Some resolved_klass) ->
      find_field resolved_klass field sig = None ->
      result = (THROW java_lang_NoSuchFieldError, st))
  /\
  (forall resolved_klass sel_klass fd,
      klass = Normal (Some resolved_klass) ->
      find_field resolved_klass field sig = Some (sel_klass, fd) ->
      verify_field_access (pool_holder pool) resolved_klass sel_klass
        (fd_access_flags fd) true = false ->
      result = (THROW java_lang_IllegalAccessError, st))
  /\
  (forall resolved_klass sel_klass fd,
      klass = Normal (Some resolved_klass) ->
      find_field resolved_klass field sig = Some (sel_klass, fd) ->
      verify_field_access (pool_holder pool) resolved_klass sel_klass
        (fd_access_flags fd) true = true ->
      fd_is_static fd <> (bc_eqb byte _getstatic || bc_eqb byte _putstatic) ->
      result = (THROW java_lang_IncompatibleClassChangeError, st)).
Proof.
  intros Hbyte klass field sig result. subst klass field sig result.
  unfold resolve_field, sbind, lift. rewrite Hbyte. simpl.
  split; [| split; [| split]].
  - intros ->. reflexivity.
  - intros resolved_klass -> ->. reflexivity.
  - intros resolved_klass sel_klass fd -> -> Hacc.
    unfold check_field_accessability. rewrite Hacc. reflexivity.
  - intros resolved_klass sel_klass fd -> -> Hacc Hstatic.
    unfold check_field_accessability. rewrite Hacc. simpl.
    destruct (Bool.eqb (bc_eqb byte _getstatic || bc_eqb byte _putstatic)
                (fd_is_static fd)) eqn:E; [| reflexivity].
    apply Bool.eqb_prop in E. congruence.
Qed.

(** X17: field resolution initializes a class only for a static access
    that is not just a check: with [check_only], and for every bytecode
    other than [getstatic] and [putstatic], the initialization states are
    the same after the call as before, whatever its result. *)
Theorem field_resolution_keeps_state pool index byte (check_only update_pool : bool) st :
  check_only = true \/ (byte <> _getstatic /\ byte <> _putstatic) ->
  snd (resolve_field pool index byte check_only update_pool st) = st.
Proof.
  intros Hcase.
  assert (Hinit : (bc_eqb byte _getstatic || bc_eqb byte _putstatic) && negb check_only
                  = false).
  { destruct Hcase as [-> | [Hg Hp]]; [apply andb_false_r |].
    unfold bc_eqb. destruct (Bytecode_eq_dec byte _getstatic); [contradiction |].
    destruct (Bytecode_eq_dec byte _putstatic); [contradiction |]. reflexivity. }
  unfold resolve_field, sbind, lift. rewrite Hinit.
  destruct (vm_assert (bc_eqb byte _getstatic || bc_eqb byte _putstatic
                       || bc_eqb byte _getfield || bc_eqb byte _putfield));
    try reflexivity.
  destruct (if update_pool then resolve_klass pool index
            else resolve_klass_no_update pool index) as [[resolved_klass |] | | |];
    try reflexivity.
  destruct (find_field resolved_klass (name_ref_at pool index) (signature_ref_at pool index))
    as [[sel_klass fd] |]; [| reflexivity].
  destruct (check_field_accessability (pool_holder pool) resolved_klass sel_klass fd);
    try reflexivity.
  destruct (negb (Bool.eqb (bc_eqb byte _getstatic || bc_eqb byte _putstatic)
                    (fd_is_static fd))); [reflexivity |].
  destruct ((bc_eqb byte _putfield || bc_eqb byte _putstatic)
            && flags_is_final (fd_access_flags fd)
            && negb (Nat.eqb sel_klass (pool_holder pool))); [reflexivity |].
  destruct (check_field_loader_constraints (pool_holder pool) sel_klass
              (name_ref_at pool index) (signature_ref_at pool index)); reflexivity.
Qed.

(** X18: a field resolution that succeeds has found the field in a resolved
    class, passed the access check, met a static-ness that agrees with the
    bytecode, and, for a put on a final field, a field of the referring
    class itself; the class of a static field has been initialized unless
    [check_only], and nothing else changed the initialization states; the
    loader constraints hold; and the result describes the field found. *)
Theorem field_resolution_postconditions pool index byte (check_only update_pool : bool)
  st info st' :
  resolve_field pool index byte check_only update_pool st = (Normal info, st') ->
  let is_static := bc_eqb byte _getstatic || bc_eqb byte _putstatic in
  let is_put := bc_eqb byte _putfield || bc_eqb byte _putstatic in
  let field := name_ref_at pool index in
  let sig := signature_ref_at pool index in
  exists resolved_klass sel_klass fd,
    (if update_pool then resolve_klass pool index else resolve_klass_no_update pool index)
    = Normal (Some resolved_klass) /\
    find_field resolved_klass field sig = Some (sel_klass, fd) /\
    verify_field_access (pool_holder pool) resolved_klass sel_klass (fd_access_flags fd)
      true = true /\
    fd_is_static fd = is_static /\
    (is_put = true -> flags_is_final (fd_access_flags fd) = true ->
     sel_klass = pool_holder pool) /\
    (if is_static && negb check_only then initialize sel_klass st = (Normal tt, st')
     else st' = st) /\
    check_field_loader_constraints (pool_holder pool) sel_klass field sig = Normal tt /\
    info = FieldAccessInfo_set (fd_field_holder fd) (fd_name fd) (fd_index fd)
             (fd_offset fd) (fd_field_type fd) (fd_access_flags fd).
Proof.
  intros H. cbv zeta. unfold resolve_field, sbind, lift in H.
  destruct (vm_assert (bc_eqb byte _getstatic || bc_eqb byte _putstatic
                       || bc_eqb byte _getfield || bc_eqb byte _putfield));
    try discriminate.
  destruct (if update_pool then resolve_klass pool index
            else resolve_klass_no_update pool index) as [[resolved_klass |] | | |]
    eqn:Eklass; try discriminate.
  destruct (find_field resolved_klass (name_ref_at pool index) (signature_ref_at pool index))
    as [[sel_klass fd] |] eqn:Efind; [| discriminate].
  exists resolved_klass, sel_klass, fd. split; [reflexivity |]. split; [exact Efind |].
  unfold check_field_accessability in H.
  destruct (verify_field_access (pool_holder pool) resolved_klass sel_klass
              (fd_access_flags fd) true) eqn:Eacc; simpl in H; [| discriminate].
  split; [reflexivity |].
  destruct (Bool.eqb (bc_eqb byte _getstatic || bc_eqb byte _putstatic) (fd_is_static fd))
    eqn:Estatic; simpl in H; [| discriminate].
  apply Bool.eqb_prop in Estatic. split; [symmetry; exact Estatic |].
  destruct ((bc_eqb byte _putfield || bc_eqb byte _putstatic)
            && flags_is_final (fd_access_flags fd)
            && negb (Nat.eqb sel_klass (pool_holder pool))) eqn:Efinal; [discriminate |].
  split.
  { intros Hput Hfinal. rewrite Hput, Hfinal in Efinal. simpl in Efinal.
    apply negb_false_iff in Efinal. apply Nat.eqb_eq. exact Efinal. }
  destruct ((bc_eqb byte _getstatic || bc_eqb byte _putstatic) && negb check_only).
  - destruct (initialize sel_klass st) as [[[] | | |] st1]; try discriminate.
    destruct (check_field_loader_constraints (pool_holder pool) sel_klass
                (name_ref_at pool index) (signature_ref_at pool index)) as [[] | | |];
      try discriminate.
    injection H as <- <-. auto.
  - destruct (check_field_loader_constraints (pool_holder pool) sel_klass
                (name_ref_at pool index) (signature_ref_at pool index)) as [[] | | |];
      try discriminate.
    injection H as <- <-. auto.
Qed.

(** ** Static calls and initialization *)

(** X19: a static call initializes a class only after link-time resolution
    went through: when that fails, its exception is the result and the
    initialization states are untouched; an exception of the initializer
    is the result, with the states the initializer left; without
    [initialize_class], as in [resolve_static_call_or_null], the states are
    never changed. *)
Theorem static_call_initialization resolved_klass method_name method_signature
  current_klass check_access initialize_class st :
  let linked :=
    linktime_resolve_static_method None resolved_klass method_name method_signature
      current_klass check_access in
  let result :=
    resolve_static_call resolved_klass method_name method_signature current_klass
      check_access initialize_class st in
  (forall e, linked = Pending e -> result = (Pending e, st))
  /\
  (forall m e st1,
      linked = Normal m ->
      initialize_class = true ->
      should_be_initialized st (method_holder m) = true ->
      initialize (method_holder m) st = (Pending e, st1) ->
      result = (Pending e, st1))
  /\
  (initialize_class = false -> snd result = st)
  /\
  snd (resolve_static_call_or_null resolved_klass method_name method_signature
         current_klass st) = st.
Proof.
  assert (Hno : forall chk,
            snd (resolve_static_call resolved_klass method_name method_signature
                   current_klass chk false st) = st).
  { intros chk. unfold resolve_static_call, sbind, lift, reading.
    destruct (linktime_resolve_static_method None resolved_klass method_name
                method_signature current_klass chk); reflexivity. }
  intros linked result. subst linked result. split; [| split; [| split]].
  - intros e He. unfold resolve_static_call, sbind, lift. rewrite He. reflexivity.
  - intros m e st1 Hm -> Hshould Hinit.
    unfold resolve_static_call, sbind, lift. rewrite Hm, Hshould. simpl.
    rewrite Hinit. reflexivity.
  - intros ->. apply Hno.
  - unfold resolve_static_call_or_null. specialize (Hno true).
    destruct (resolve_static_call resolved_klass method_name method_signature
                current_klass true false st) as [info st1]. exact Hno.
Qed.

(** ** Selection for special calls *)

(** X20: the selected method of a special call is the resolved method
    itself, with no lookup from the superclass of the caller, for a
    constructor, for a method of the calling class itself, for a caller
    that is not a subtype of the class of the method, and for a caller
    without ACC_SUPER when [AllowNonVirtualCalls] is set. *)
Theorem special_call_keeps_resolved_method resolved_method resolved_klass current
  check_access :
  name resolved_method = vmSymbols.object_initializer_name
  \/ current = method_holder resolved_method
  \/ is_subtype_of current (method_holder resolved_method) = false
  \/ (is_super current = false /\ AllowNonVirtualCalls = true) ->
  special_select_method resolved_method resolved_klass (Some current) check_access
  = Normal resolved_method.
Proof.
  intros Hcase. unfold special_select_method.
  destruct check_access; [| reflexivity]. simpl.
  assert (Hcond :
    (is_super current || negb AllowNonVirtualCalls)
    && is_subtype_of current (method_holder resolved_method)
    && negb (Nat.eqb current (method_holder resolved_method))
    && negb (symbol_eqb (name resolved_method) vmSymbols.object_initializer_name) = false).
  { destruct Hcase as [Hinit | [Hsame | [Hsub | [Hsuper Hallow]]]].
    - apply symbol_eqb_eq in Hinit. rewrite Hinit. apply andb_false_r.
    - subst current. rewrite Nat.eqb_refl. simpl. rewrite andb_false_r. reflexivity.
    - rewrite Hsub. rewrite andb_false_r. reflexivity.
    - rewrite Hsuper, Hallow. reflexivity. }
  rewrite Hcond. reflexivity.
Qed.

(** ** Kind of call and kind of class *)

(** X21: a virtual call and a special call on an interface, and an
    interface call on a class that is not an interface, give
    [IncompatibleClassChangeError], whatever the receiver. *)
Theorem call_kind_must_match_class_kind st recv recv_klass resolved_klass method_name
  method_signature current_klass check_access check_null_and_abstract :
  (is_interface resolved_klass = true ->
   resolve_virtual_call st recv recv_klass resolved_klass method_name method_signature
     current_klass check_access check_null_and_abstract
   = THROW java_lang_IncompatibleClassChangeError /\
   resolve_special_call st resolved_klass method_name method_signature current_klass
     check_access
   = THROW java_lang_IncompatibleClassChangeError)
  /\
  (is_interface resolved_klass = false ->
   resolve_interface_call st recv recv_klass resolved_klass method_name method_signature
     current_klass check_access check_null_and_abstract
   = THROW java_lang_IncompatibleClassChangeError).
Proof.
  split.
  - intros Hi.
    unfold resolve_virtual_call, linktime_resolve_virtual_method, resolve_special_call,
      linktime_resolve_special_method, resolve_method.
    rewrite Hi. split; reflexivity.
  - intros Hi.
    unfold resolve_interface_call, linktime_resolve_interface_method,
      resolve_interface_method.
    rewrite Hi. reflexivity.
Qed.

(** X22: the receiver is looked at after linking: a virtual or an interface
    call on a null receiver, resolved with [check_null_and_abstract], gives
    the exception of link-time resolution when that fails, and
    [NullPointerException] only when it succeeds. *)
Theorem null_receiver_is_checked_after_linking st recv_klass resolved_klass method_name
  method_signature current_klass check_access :
  resolve_virtual_call st None recv_klass resolved_klass method_name method_signature
    current_klass check_access true
  = (linktime_resolve_virtual_method None resolved_klass method_name method_signature
       current_klass check_access ;;;
     THROW java_lang_NullPointerException)
  /\
  resolve_interface_call st None recv_klass resolved_klass method_name method_signature
    current_klass check_access true
  = (linktime_resolve_interface_method resolved_klass method_name method_signature
       current_klass check_access ;;;
     THROW java_lang_NullPointerException).
Proof.
  split.
  - unfold resolve_virtual_call.
    destruct (linktime_resolve_virtual_method None resolved_klass method_name
                method_signature current_klass check_access); reflexivity.
  - unfold resolve_interface_call.
    destruct (linktime_resolve_interface_method resolved_klass method_name
                method_signature current_klass check_access); reflexivity.
Qed.

(** ** Interface method resolution *)

(** X23: [resolve_interface_method] rejects a class that is not an
    interface with [IncompatibleClassChangeError]; in an interface it
    takes the first instance method of the interface or of [Object], only
    when there is none the method that the superinterfaces have, and gives
    [NoSuchMethodError] when that fails too. *)
Theorem interface_method_search_order resolved_klass method_name method_signature
  current_klass :
  let resolved check_access :=
    resolve_interface_method resolved_klass method_name method_signature current_klass
      check_access in
  let in_klasses :=
    lookup_instance_method_in_klasses resolved_klass method_name method_signature in
  let in_interfaces :=
    lookup_method_in_all_interfaces resolved_klass method_name method_signature in
  (is_interface resolved_klass = false ->
   forall check_access,
     resolved check_access = THROW java_lang_IncompatibleClassChangeError)
  /\
  (is_interface resolved_klass = true ->
   (forall m, in_klasses = Normal (Some m) -> resolved false = Normal m)
   /\
   (in_klasses = Normal None -> oop_is_array (klass_part resolved_klass) = false ->
    (forall m, in_interfaces = Some m -> resolved false = Normal m)
    /\
    (in_interfaces = None ->
     forall check_access, resolved check_access = THROW java_lang_NoSuchMethodError))).
Proof.
  intros resolved in_klasses in_interfaces. subst resolved in_klasses in_interfaces.
  unfold resolve_interface_method, lookup_method_in_interfaces. split.
  - intros ->. reflexivity.
  - intros ->. simpl. split.
    + intros m ->. reflexivity.
    + intros -> ->. simpl. split.
      * intros m ->. reflexivity.
      * intros ->. reflexivity.
Qed.

(** ** Method handle calls *)

(** X24: a method handle call that resolved was made on [MethodHandle]
    with a signature-polymorphic name; its method, appendix and method
    type are those of the polymorphic lookup; with access checking, the
    method of an intrinsic name has passed the accessibility check.  When
    the lookup finds no method and access is not checked, the result is
    [InternalError]. *)
Theorem handle_call_postconditions st resolved_klass method_name method_signature
  current_klass check_access :
  let result :=
    resolve_handle_call st resolved_klass method_name method_signature current_klass
      check_access in
  let looked_up :=
    lookup_polymorphic_method None resolved_klass method_name method_signature
      current_klass true in
  (forall info,
      result = Normal info ->
      resolved_klass = MethodHandle_klass /\
      is_signature_polymorphic_name method_name = true /\
      looked_up = Normal (Some (_resolved_method info), _resolved_appendix info,
                          _resolved_method_type info) /\
      (check_access = true ->
       is_signature_polymorphic_intrinsic (signature_polymorphic_name_id method_name)
       = true ->
       exists current,
         current_klass = Some current /\
         check_method_accessability current resolved_klass
           (method_holder (_resolved_method info)) (_resolved_method info) = Normal tt))
  /\
  (forall appendix method_type,
      resolved_klass = MethodHandle_klass ->
      is_signature_polymorphic_name method_name = true ->
      looked_up = Normal (None, appendix, method_type) ->
      check_access = false ->
      result = THROW java_lang_InternalError).
Proof.
  intros result looked_up. subst result looked_up. unfold resolve_handle_call. split.
  - intros info H. inv_assert H. inv_assert H. apply Nat.eqb_eq in Hassert.
    inv_bind H. destruct a as [[m appendix] method_type]. inv_bind H.
    apply set_handle_fields in H. destruct H as (rm & -> & ->). simpl.
    repeat split; try assumption.
    intros -> Hintrinsic. rewrite Hintrinsic in Hstep0.
    inv_assert Hstep0. inv_assert Hstep0. inv_bind Hstep0.
    apply deref_Normal in Hstep1. simpl in Hstep0. destruct a.
    exists a0. split; assumption.
  - intros appendix method_type Hk Hname Hlookup ->.
    apply Nat.eqb_eq in Hk. rewrite Hk, Hname, Hlookup. reflexivity.
Qed.

(** ** Resolution for the compiler and the verifier *)

(** X25: a method that [resolve_method_statically] returns is, for
    [invokedynamic], [MethodHandle.invoke] resolved with access checks
    from the class of the constant pool; for another bytecode it is the
    method already recorded for the constant pool entry, or else the
    result of interface method resolution on an interface for
    [invokeinterface], and of class method resolution on a class that is
    not an interface for every other bytecode, always with access checks. *)
Theorem static_resolution_by_bytecode code pool index m resolved_klass :
  resolve_method_statically code pool index = Normal (m, resolved_klass) ->
  let method_name := name_ref_at pool index in
  let method_signature := signature_ref_at pool index in
  let current_klass := Some (pool_holder pool) in
  if bc_eqb code _invokedynamic then
    resolved_klass = Some MethodHandle_klass /\
    resolve_method None MethodHandle_klass vmSymbols.invoke_name method_signature
      current_klass true = Normal m
  else
    resolve_klass pool index = Normal resolved_klass /\
    (method_at_if_loaded pool index = Some m \/
     exists klass,
       resolved_klass = Some klass /\
       if bc_eqb code _invokeinterface then
         is_interface klass = true /\
         resolve_interface_method klass method_name method_signature current_klass true
         = Normal m
       else
         is_interface klass = false /\
         resolve_method None klass method_name method_signature current_klass true
         = Normal m).
Proof.
  intros H. cbv zeta. unfold resolve_method_statically in H.
  destruct (bc_eqb code _invokedynamic).
  - inv_bind H. injection H as <- <-. auto.
  - inv_bind H.
    destruct (if has_preresolution pool
                 || match a with
                    | Some k => Nat.eqb k MethodHandle_klass
                                && is_signature_polymorphic_name_in k
                                     (name_ref_at pool index)
                    | None => false
                    end
              then method_at_if_loaded pool index else None) as [result_oop |] eqn:Epre.
    + injection H as <- <-. split; [exact Hstep |]. left.
      destruct (has_preresolution pool
                || match a with
                   | Some k => Nat.eqb k MethodHandle_klass
                               && is_signature_polymorphic_name_in k
                                    (name_ref_at pool index)
                   | None => false
                   end); [exact Epre | discriminate].
    + inv_bind H. apply deref_Normal in Hstep0. inv_bind H.
      injection H as <- <-. split; [exact Hstep |]. right.
      exists a0. split; [exact Hstep0 |].
      destruct (bc_eqb code _invokeinterface).
      * split; [| exact Hstep1]. unfold resolve_interface_method in Hstep1.
        destruct (is_interface a0); [reflexivity | discriminate].
      * split; [| exact Hstep1]. unfold resolve_method in Hstep1.
        destruct (is_interface a0); [discriminate | reflexivity].
Qed.

(** ** Initialization states and flags of a class *)

(** X26: the predicates on the initialization state of a class agree with
    the order of the states: an initialized class is linked and a linked
    class is loaded; [is_not_initialized] excludes not only an initialized
    class but also one whose initialization has started or has failed; a
    class in the error state still counts as linked. *)
Theorem init_state_predicates st k :
  (is_initialized st k = true -> is_linked st k = true) /\
  (is_linked st k = true -> is_loaded st k = true) /\
  (is_loaded st k = true -> object_is_parsable st k = true) /\
  (is_not_initialized st k = false <->
   is_being_initialized st k = true \/ is_initialized st k = true
   \/ is_in_error_state st k = true) /\
  (is_in_error_state st k = true ->
   is_linked st k = true /\ is_initialized st k = false).
Proof.
  unfold is_initialized, is_linked, is_loaded, object_is_parsable, is_not_initialized,
    is_being_initialized, is_in_error_state.
  destruct (st k); simpl; intuition discriminate.
Qed.

Lemma land_bit_eqb_0 (z k : Z) :
  0 <= k -> (Z.land z (Z.shiftl 1 k) =? 0) = negb (Z.testbit z k).
Proof.
  intros Hk. rewrite Z.shiftl_1_l. destruct (Z.testbit z k) eqn:Ebit; simpl.
  - apply Z.eqb_neq. intros H0.
    assert (Hb : Z.testbit (Z.land z (2 ^ k)) k = true).
    { rewrite Z.land_spec, Ebit, Z.pow2_bits_true by exact Hk. reflexivity. }
    rewrite H0, Z.bits_0 in Hb. discriminate.
  - apply Z.eqb_eq. apply Z.bits_inj'. intros n Hn.
    rewrite Z.land_spec, Z.bits_0, Z.pow2_bits_eqb by exact Hk.
    destruct (Z.eqb_spec k n) as [<- | Hne]; [rewrite Ebit; reflexivity |].
    apply andb_false_r.
Qed.

Lemma u2_bit_after_assignment (z k j : Z) (b : bool) :
  0 <= k < 16 -> 0 <= j < 16 ->
  Z.testbit (if b then to_u2 (Z.lor z (Z.shiftl 1 k))
             else to_u2 (Z.land z (Z.lnot (Z.shiftl 1 k)))) j
  = if j =? k then b else Z.testbit z j.
Proof.
  intros Hk Hj. unfold to_u2. rewrite Z.shiftl_1_l.
  destruct b.
  - rewrite Z.mod_pow2_bits_low, Z.lor_spec, Z.pow2_bits_eqb by lia.
    rewrite (Z.eqb_sym k j). destruct (j =? k); [apply orb_true_r | apply orb_false_r].
  - rewrite Z.mod_pow2_bits_low, Z.land_spec, Z.lnot_spec, Z.pow2_bits_eqb by lia.
    rewrite (Z.eqb_sym k j). destruct (j =? k); [apply andb_false_r | apply andb_true_r].
Qed.

Lemma misc_flag_after_assignment (z k j : Z) (b : bool) :
  0 <= k < 16 -> 0 <= j < 16 ->
  negb (Z.land (if b then to_u2 (Z.lor z (Z.shiftl 1 k))
                else to_u2 (Z.land z (Z.lnot (Z.shiftl 1 k)))) (Z.shiftl 1 j) =? 0)
  = if j =? k then b else negb (Z.land z (Z.shiftl 1 j) =? 0).
Proof.
  intros Hk Hj. rewrite !land_bit_eqb_0, !negb_involutive by lia.
  apply u2_bit_after_assignment; assumption.
Qed.

Lemma to_u2_range (z : Z) : 0 <= to_u2 z < 2 ^ 16.
Proof. unfold to_u2. apply Z.mod_pos_bound. reflexivity. Qed.

(** X27: the setters of the bits of [_misc_flags] and their getters: after
    [set_has_nonstatic_fields], [set_should_verify_class] or
    [set_is_anonymous] the getter of that bit returns the value that was
    set, after [set_rewritten] the class is rewritten, the three other
    bits are as before, and the flags fit in sixteen bits. *)
Theorem misc_flags_are_independent (_misc_flags : Z) (b : bool) :
  let nonstatic := set_has_nonstatic_fields _misc_flags b in
  let verify := set_should_verify_class _misc_flags b in
  let anonymous := set_is_anonymous _misc_flags b in
  let rewritten := set_rewritten _misc_flags in
  (has_nonstatic_fields nonstatic = b /\
   is_rewritten nonstatic = is_rewritten _misc_flags /\
   should_verify_class nonstatic = should_verify_class _misc_flags /\
   is_anonymous nonstatic = is_anonymous _misc_flags /\
   0 <= nonstatic < 2 ^ 16)
  /\
  (should_verify_class verify = b /\
   is_rewritten verify = is_rewritten _misc_flags /\
   has_nonstatic_fields verify = has_nonstatic_fields _misc_flags /\
   is_anonymous verify = is_anonymous _misc_flags /\
   0 <= verify < 2 ^ 16)
  /\
  (is_anonymous anonymous = b /\
   is_rewritten anonymous = is_rewritten _misc_flags /\
   has_nonstatic_fields anonymous = has_nonstatic_fields _misc_flags /\
   should_verify_class anonymous = should_verify_class _misc_flags /\
   0 <= anonymous < 2 ^ 16)
  /\
  (is_rewritten rewritten = true /\
   has_nonstatic_fields rewritten = has_nonstatic_fields _misc_flags /\
   should_verify_class rewritten = should_verify_class _misc_flags /\
   is_anonymous rewritten = is_anonymous _misc_flags /\
   0 <= rewritten < 2 ^ 16).
Proof.
  cbv zeta.
  unfold set_has_nonstatic_fields, set_should_verify_class, set_is_anonymous, set_rewritten,
    has_nonstatic_fields, should_verify_class, is_anonymous, is_rewritten,
    _misc_rewritten, _misc_has_nonstatic_fields, _misc_should_verify_class,
    _misc_is_anonymous.
  pose proof (fun k j c => @misc_flag_after_assignment _misc_flags k j c) as Hset.
  pose proof (fun k j => Hset k j true) as Hrewritten. cbv iota in Hrewritten.
  repeat split;
    try (rewrite Hset by lia; reflexivity);
    try (rewrite Hrewritten by lia; reflexivity);
    try (destruct b; apply to_u2_range);
    apply to_u2_range.
Qed.

End Behaviour.

(* ------------------------------------------------------------------ *)
(** * The properties on the class table *)

#[local] Existing Instance World.VM.

(** The collaborators of the class table keep the promises of the design. *)

Lemma World_public_always_permitted : public_always_permitted (VM := World.VM).
Proof.
  intros ref_klass resolved_klass sel_klass flags classloader_only Hpublic.
  simpl. unfold World.field_access. rewrite Hpublic. reflexivity.
Qed.

Lemma World_disagree_reflect l1 l2 type_name :
  loaders_disagree World.find_class l1 l2 type_name ->
  World.disagree l1 l2 type_name = true.
Proof.
  intros (c1 & c2 & H1 & H2 & Hneq). unfold World.disagree. rewrite H1, H2.
  apply negb_true_iff, Nat.eqb_neq. exact Hneq.
Qed.

Lemma World_check_signature_loaders_contract :
  check_signature_loaders_contract (VM := World.VM) World.type_names World.find_class.
Proof.
  intros sig l1 l2 is_method type_name Hin Hdis. simpl.
  unfold World.signature_loaders_check.
  destruct (find (World.disagree l1 l2) (World.type_names sig)) as [failed |] eqn:Hfind.
  - exists failed. reflexivity.
  - apply World_disagree_reflect in Hdis.
    pose proof (find_none _ _ Hfind _ Hin) as Hnone. congruence.
Qed.

(** C2 on the class table, one call for each case: [Shape.area] resolved
    in [AbstractShape] is a miranda method, whose slot 1 holds [Disk.area]
    in the vtable of the receiver class [Disk]; [A.m] has vtable index 1,
    and the receiver class [B] has [B.m] in this slot; the final method
    [A.t] has no vtable index. *)
Lemma virtual_call_selects_from_vtable_witness :
  let by_miranda :=
    mkCallInfo (Some World.AbstractShape_k) (Some World.Disk_k) World.Shape_area
      World.Disk_area 1 None None in
  let by_index :=
    mkCallInfo (Some World.A_k) (Some World.B_k) World.A_m World.B_m 1 None None in
  let by_itself :=
    mkCallInfo (Some World.A_k) (Some World.A_k) World.A_t World.A_t
      nonvirtual_vtable_index None None in
  (runtime_resolve_virtual_method World.st0 World.Shape_area World.AbstractShape_k
     (Some 115%nat) (Some World.Disk_k) true = Normal by_miranda
   /\ runtime_resolve_virtual_method World.st0 World.A_m World.A_k (Some 102%nat)
        (Some World.B_k) true = Normal by_index
   /\ runtime_resolve_virtual_method World.st0 World.A_t World.A_k (Some 101%nat)
        (Some World.A_k) true = Normal by_itself)
  /\ (exists receiver,
         Some World.Disk_k = Some receiver /\
         0 <= index_of_miranda World.AbstractShape_k "area" "()D" /\
         nth_error (vtable (World.klasses receiver))
           (Z.to_nat (index_of_miranda World.AbstractShape_k "area" "()D"))
         = Some (Some World.Disk_area))
  /\ (exists receiver,
         Some World.B_k = Some receiver /\
         nth_error (vtable (World.klasses receiver)) 1 = Some (Some World.B_m))
  /\ _selected_method by_itself = World.A_t.
Proof.
  assert (Hmiranda : runtime_resolve_virtual_method World.st0 World.Shape_area
                       World.AbstractShape_k (Some 115%nat) (Some World.Disk_k) true
                     = Normal (mkCallInfo (Some World.AbstractShape_k) (Some World.Disk_k)
                                 World.Shape_area World.Disk_area 1 None None))
    by (vm_compute; reflexivity).
  assert (Hindex : runtime_resolve_virtual_method World.st0 World.A_m World.A_k
                     (Some 102%nat) (Some World.B_k) true
                   = Normal (mkCallInfo (Some World.A_k) (Some World.B_k) World.A_m
                               World.B_m 1 None None))
    by (vm_compute; reflexivity).
  assert (Hitself : runtime_resolve_virtual_method World.st0 World.A_t World.A_k
                      (Some 101%nat) (Some World.A_k) true
                    = Normal (mkCallInfo (Some World.A_k) (Some World.A_k) World.A_t
                                World.A_t nonvirtual_vtable_index None None))
    by (vm_compute; reflexivity).
  split; [split; [exact Hmiranda | split; [exact Hindex | exact Hitself]] |].
  split; [| split].
  - exact (@virtual_call_selects_from_vtable World.VM _ _ _ _ _ _ _ Hmiranda).
  - exact (@virtual_call_selects_from_vtable World.VM _ _ _ _ _ _ _ Hindex).
  - exact (@virtual_call_selects_from_vtable World.VM _ _ _ _ _ _ _ Hitself).
Defined.

(** C3 on the class table: [m()V] is found in [A] itself. *)
Lemma resolve_method_search_order_witness :
  is_interface (VM := World.VM) World.A_k = false
  /\ resolve_method (VM := World.VM) None World.A_k "m" "()V" (Some World.C_k) true
     = resolve_method_checks World.A_m World.A_k "m" "()V" (Some World.C_k) true.
Proof.
  split; [reflexivity |].
  apply (proj1 (resolve_method_search_order (VM := World.VM) World.A_k "m" "()V"
                  (Some World.C_k) true eq_refl)); reflexivity.
Defined.

(** C3 as stated fails: [MethodHandle] declares a method with exactly the
    name and the descriptor asked for, and resolution does not stop at it
    but returns the intrinsic of the polymorphic lookup. *)
Lemma resolve_method_discards_polymorphic_match :
  is_interface (VM := World.VM) World.MethodHandle_k = false
  /\ @uncached_lookup_method World.VM World.MethodHandle_k "invokeBasic"
       "([Ljava/lang/Object;)Ljava/lang/Object;"
     = Some World.MethodHandle_invokeBasic
  /\ resolve_method_checks (VM := World.VM) World.MethodHandle_invokeBasic
       World.MethodHandle_k "invokeBasic" "([Ljava/lang/Object;)Ljava/lang/Object;"
       (Some World.A_k) false
     = Normal World.MethodHandle_invokeBasic
  /\ resolve_method (VM := World.VM) None World.MethodHandle_k "invokeBasic"
       "([Ljava/lang/Object;)Ljava/lang/Object;" (Some World.A_k) false
     = Normal World.invokeBasic_intrinsic
  /\ World.invokeBasic_intrinsic <> World.MethodHandle_invokeBasic.
Proof.
  repeat split; try (vm_compute; reflexivity).
  intros H. discriminate H.
Qed.

(** C4 on the class table: [Other] does not implement [Shape]; [Square]
    implements it with an [area] that is not public. *)
Lemma interface_call_receiver_checks_witness :
  ((true && is_null (Some 109%nat)) = false
   /\ Some World.Other_k = Some World.Other_k
   /\ runtime_resolve_interface_method (VM := World.VM) World.st0 World.Shape_area
        World.Shape_k (Some 109%nat) (Some World.Other_k) true
      = THROW java_lang_IncompatibleClassChangeError)
  /\ runtime_resolve_interface_method (VM := World.VM) World.st0 World.Shape_area
       World.Shape_k (Some 107%nat) (Some World.Square_k) true
     = THROW java_lang_IllegalAccessError.
Proof.
  split; [split; [reflexivity | split; [reflexivity |]] |].
  - apply (proj1 (interface_call_receiver_checks (VM := World.VM) World.st0
                    World.Shape_area World.Shape_k (Some 109%nat) true
                    (eq_refl : (true && is_null (Some 109%nat)) = false)
                    (eq_refl : Some World.Other_k = Some World.Other_k))).
    reflexivity.
  - apply (proj1 (proj2 (interface_call_receiver_checks (VM := World.VM) World.st0
                    World.Shape_area World.Shape_k (Some 107%nat) true
                    (eq_refl : (true && is_null (Some 107%nat)) = false)
                    (eq_refl : Some World.Square_k = Some World.Square_k)))
             eq_refl World.Square_area); reflexivity.
Defined.

(** C5 on the class table: invokestatic on the interface [Shape], on the
    instance method [A.m], and on the static method [A.s], which
    initializes [A]. *)
Lemma static_call_linkage_witness :
  resolve_static_call (VM := World.VM) World.Shape_k "area" "()D" (Some World.A_k)
    true true World.st0
  = (THROW java_lang_IncompatibleClassChangeError, World.st0)
  /\ resolve_static_call (VM := World.VM) World.A_k "m" "()V" (Some World.C_k)
       true true World.st0
     = (THROW java_lang_IncompatibleClassChangeError, World.st0)
  /\ World.run_initializer World.A_k World.st0
     = (Normal tt, World.set_state World.st0 World.A_k fully_initialized).
Proof.
  split; [| split].
  - apply (proj1 (static_call_linkage (VM := World.VM) World.Shape_k "area" "()D"
                    (Some World.A_k) true true World.st0)).
    reflexivity.
  - apply (proj1 (proj2 (static_call_linkage (VM := World.VM) World.A_k "m" "()V"
                           (Some World.C_k) true true World.st0)) World.A_m).
    + vm_compute. reflexivity.
    + discriminate.
    + reflexivity.
  - destruct (proj2 (proj2 (static_call_linkage (VM := World.VM) World.A_k "s" "()V"
                              (Some World.C_k) true true World.st0))
                (mkCallInfo (Some World.A_k) (Some World.A_k) World.A_s World.A_s
                   nonvirtual_vtable_index None None)
                (World.set_state World.st0 World.A_k fully_initialized) eq_refl)
      as (m & Hm & _ & _ & _ & Hinit).
    vm_compute in Hm. injection Hm as <-. exact Hinit.
Defined.

(** C6 on the class table: [C], a subclass of [B] and [A] with ACC_SUPER,
    calls [A.m] with invokespecial: [B.m] is selected. *)
Lemma special_call_selection_witness :
  (Some World.C_k = Some World.C_k
   /\ is_super World.C_k = true
   /\ is_subtype_of World.C_k (method_holder World.A_m) = true
   /\ World.C_k <> method_holder World.A_m
   /\ name World.A_m <> vmSymbols.object_initializer_name
   /\ super (klass_part World.C_k) = Some World.B_k)
  /\ special_select_method World.A_m World.A_k (Some World.C_k) true = Normal World.B_m.
Proof.
  assert (Hcur : Some World.C_k = Some World.C_k) by reflexivity.
  assert (Hsuper : is_super World.C_k = true) by reflexivity.
  assert (Hsub : is_subtype_of World.C_k (method_holder World.A_m) = true) by reflexivity.
  assert (Hneq : World.C_k <> method_holder World.A_m) by discriminate.
  assert (Hname : name World.A_m <> vmSymbols.object_initializer_name) by discriminate.
  assert (Hsup : super (klass_part World.C_k) = Some World.B_k) by reflexivity.
  split; [repeat split; assumption |].
  apply (proj1 (proj2 (special_call_selection World.st0 World.A_m World.A_k
                         Hcur Hsuper Hsub Hneq Hname Hsup))
           World.B_m).
  - vm_compute. reflexivity.
  - right. vm_compute. reflexivity.
Defined.

(** C6 as stated fails: the same call resolved without access checking
    selects [A.m], not the method [B.m] that a lookup from the superclass
    of the caller finds. *)
Lemma special_call_without_access_check :
  is_super World.C_k = true
  /\ is_subtype_of World.C_k (method_holder World.A_m) = true
  /\ World.C_k <> method_holder World.A_m
  /\ name World.A_m <> vmSymbols.object_initializer_name
  /\ super (klass_part World.C_k) = Some World.B_k
  /\ lookup_instance_method_in_klasses World.B_k (name World.A_m) (signature World.A_m)
     = Normal (Some World.B_m)
  /\ runtime_resolve_special_method World.st0 World.A_m World.A_k (Some World.C_k) false
     = Normal (mkCallInfo (Some World.A_k) (Some World.A_k) World.A_m World.A_m
                 nonvirtual_vtable_index None None)
  /\ World.A_m <> World.B_m.
Proof.
  repeat split; try (vm_compute; reflexivity); discriminate.
Qed.

(** C7 on the class table: the bootstrap method fails with a
    [NoClassDefFoundError], which is a [LinkageError]. *)
Lemma dynamic_call_error_translation_witness :
  find_dynamic_call_site_invoker (Some World.A_k) (Some 1%nat) "run" "()V"
  = Pending (mkThrowable java_lang_NoClassDefFoundError None)
  /\ resolve_dynamic_call World.st0 (Some 1%nat) "run" "()V" (Some World.A_k)
     = Pending (mkThrowable java_lang_BootstrapMethodError
                  (Some (mkThrowable java_lang_NoClassDefFoundError None))).
Proof.
  assert (H : find_dynamic_call_site_invoker (Some World.A_k) (Some 1%nat) "run" "()V"
              = Pending (mkThrowable java_lang_NoClassDefFoundError None))
    by reflexivity.
  split; [exact H |].
  exact (dynamic_call_error_translation World.st0 (Some 1%nat) "run" "()V"
           (Some World.A_k) H).
Defined.

(** C8 on the class table: [A], defined by loader 1, refers to
    [X.f(Lq/T;)V], declared by a class of loader 3, and the two loaders
    have classes of their own for q/T. *)
Lemma loader_constraints_after_resolution_witness :
  check_signature_loaders_contract World.type_names World.find_class
  /\ resolve_method None World.X_k "f" "(Lq/T;)V" (Some World.A_k) true
     = THROW java_lang_LinkageError.
Proof.
  split; [exact World_check_signature_loaders_contract |].
  apply (proj1 (loader_constraints_after_resolution "q/T"
                  World_check_signature_loaders_contract)
           World.X_k "f" "(Lq/T;)V" World.A_k World.X_f).
  - vm_compute. reflexivity.
  - vm_compute. reflexivity.
  - left. reflexivity.
  - exists World.T1_k, World.T3_k. repeat split; try reflexivity. discriminate.
Defined.

(** C8 as stated fails: without access checking the same resolution
    succeeds, although the two loaders disagree on q/T; so it does through
    [linktime_resolve_virtual_method_or_null], which hands the referring
    class and [check_access] on. *)
Lemma loader_constraints_skipped_without_access_check :
  In "q/T" (World.type_names (signature World.X_f))
  /\ loaders_disagree World.find_class (class_loader (klass_part World.A_k))
       (class_loader (klass_part (method_holder World.X_f))) "q/T"
  /\ check_signature_loaders (signature World.X_f) (class_loader (klass_part World.A_k))
       (class_loader (klass_part (method_holder World.X_f))) true
     = Normal (Some "q/T")
  /\ resolve_method None World.X_k "f" "(Lq/T;)V" (Some World.A_k) false
     = Normal World.X_f
  /\ linktime_resolve_virtual_method_or_null World.X_k "f" "(Lq/T;)V" (Some World.A_k)
       false
     = Normal (Some World.X_f).
Proof.
  split; [left; reflexivity |].
  split; [exists World.T1_k, World.T3_k; repeat split; try reflexivity; discriminate |].
  repeat split; vm_compute; reflexivity.
Qed.

(** C9 on the class table: [X] calls clone on an int array. *)
Lemma array_clone_is_public_witness :
  (name World.Object_clone = vmSymbols.clone_name
   /\ World.Object_k = Object_klass
   /\ oop_is_array (klass_part World.IntArray_k) = true
   /\ flags_is_protected (access_flags World.Object_clone) = true)
  /\ check_method_accessability World.X_k World.IntArray_k World.Object_k
       World.Object_clone
     = Normal tt.
Proof.
  split; [repeat split |].
  apply (proj1 (array_clone_is_public World.X_k World.IntArray_k World.Object_k
                  World.Object_clone));
    try reflexivity.
  exact World_public_always_permitted.
Defined.

(** C10 on the class table: [A] writes the final instance field
    [X.count]. *)
Lemma final_field_put_restricted_witness :
  ((if true then resolve_klass World.pool_of_A 1 else resolve_klass_no_update World.pool_of_A 1)
   = Normal (Some World.X_k)
   /\ find_field World.X_k (name_ref_at World.pool_of_A 1)
        (signature_ref_at World.pool_of_A 1)
      = Some (World.X_k, World.X_count)
   /\ flags_is_final (fd_access_flags World.X_count) = true
   /\ World.X_k <> pool_holder World.pool_of_A
   /\ check_field_accessability (pool_holder World.pool_of_A) World.X_k World.X_k
        World.X_count
      = Normal tt)
  /\ resolve_field World.pool_of_A 1 _putfield false true World.st0
     = (THROW java_lang_IllegalAccessError, World.st0).
Proof.
  assert (Hk : (if true then resolve_klass World.pool_of_A 1
                else resolve_klass_no_update World.pool_of_A 1)
               = Normal (Some World.X_k)) by reflexivity.
  assert (Hf : find_field World.X_k (name_ref_at World.pool_of_A 1)
                 (signature_ref_at World.pool_of_A 1)
               = Some (World.X_k, World.X_count)) by reflexivity.
  assert (Hfinal : flags_is_final (fd_access_flags World.X_count) = true) by reflexivity.
  assert (Hneq : World.X_k <> pool_holder World.pool_of_A) by discriminate.
  assert (Hacc : check_field_accessability (pool_holder World.pool_of_A) World.X_k
                   World.X_k World.X_count = Normal tt) by reflexivity.
  split; [repeat split; assumption |].
  apply (proj1 (final_field_put_restricted World.pool_of_A 1 false true World.st0
                  Hk Hf Hfinal Hneq Hacc)
           _putfield).
  left. split; reflexivity.
Defined.

(** C10 as stated fails: putfield on the final static field [X.LIMIT],
    declared in another class than the referring class [A] and accessible
    to it, gives [IncompatibleClassChangeError], not an access error. *)
Lemma put_on_static_mismatch_is_incompatible :
  find_field World.X_k (name_ref_at World.pool_of_A 2) (signature_ref_at World.pool_of_A 2)
  = Some (World.X_k, World.X_LIMIT)
  /\ flags_is_final (fd_access_flags World.X_LIMIT) = true
  /\ World.X_k <> pool_holder World.pool_of_A
  /\ check_field_accessability (pool_holder World.pool_of_A) World.X_k World.X_k
       World.X_LIMIT
     = Normal tt
  /\ fst (resolve_field World.pool_of_A 2 _putfield false true World.st0)
     = THROW java_lang_IncompatibleClassChangeError
  /\ exn_klass (mkThrowable java_lang_IncompatibleClassChangeError None)
     <> java_lang_IllegalAccessError.
Proof.
  repeat split; try (vm_compute; reflexivity); discriminate.
Qed.

(* ------------------------------------------------------------------ *)
(** * The class table is well formed *)

Lemma World_declared_holder k m :
  In m (World.declared_methods k) -> method_holder m = k.
Proof.
  do 16 (destruct k as [| k];
         [ simpl; intros H;
           repeat (destruct H as [<- | H]; [reflexivity |]); destruct H |]).
  simpl. intros [].
Qed.

Lemma World_declared_matches k n s m :
  find (World.matches n s) (World.declared_methods k) = Some m ->
  name m = n /\ signature m = s.
Proof.
  intros H. apply find_some in H. destruct H as [_ H].
  unfold World.matches in H. apply andb_true_iff in H.
  destruct H as [Hn Hs]. apply symbol_eqb_eq in Hn, Hs. tauto.
Qed.

Lemma World_super_rank k s :
  super (World.klasses k) = Some s -> (World.rank s < World.rank k)%nat.
Proof.
  do 16 (destruct k as [| k];
         [ simpl; intros H; try discriminate H; injection H as <-; simpl; lia |]).
  simpl. intros H. injection H as <-. simpl. lia.
Qed.

Lemma World_lookup_in_chain fuel :
  forall k n s m,
    World.lookup_in_chain fuel k n s = Some m ->
    (World.rank (method_holder m) <= World.rank k)%nat
    /\ name m = n /\ signature m = s.
Proof.
  induction fuel as [| fuel IH]; intros k n s m H; simpl in H;
    destruct (find (World.matches n s) (World.declared_methods k)) as [m0 |] eqn:Hfind.
  - injection H as <-. split; [| eapply World_declared_matches; eassumption].
    apply find_some in Hfind. destruct Hfind as [Hin _].
    apply World_declared_holder in Hin. rewrite Hin. lia.
  - discriminate.
  - injection H as <-. split; [| eapply World_declared_matches; eassumption].
    apply find_some in Hfind. destruct Hfind as [Hin _].
    apply World_declared_holder in Hin. rewrite Hin. lia.
  - destruct (super (World.klasses k)) as [sup |] eqn:Hsup; [| discriminate].
    apply IH in H. apply World_super_rank in Hsup.
    destruct H as (Hr & Hn & Hs). repeat split; try assumption. lia.
Qed.

Lemma World_hierarchy_ranked : hierarchy_ranked World.rank.
Proof.
  split.
  - intros k s. apply World_super_rank.
  - intros k n s m H. apply World_lookup_in_chain in H. tauto.
Qed.


Lemma World_rank_bound k : (World.rank k < World.number_of_klasses)%nat.
Proof.
  unfold World.number_of_klasses.
  do 16 (destruct k as [| k]; [simpl; lia |]). simpl. lia.
Qed.

(** On the class table the lookup of an instance method always ends. *)
Lemma World_lookup_instance_method_ends k n s :
  lookup_instance_method_in_klasses k n s <> OutOfFuel.
Proof.
  eapply lookup_instance_method_in_klasses_ends.
  - exact World_hierarchy_ranked.
  - apply World_rank_bound.
Qed.

(** The vtables of the class table are filled as the design says. *)






(* ------------------------------------------------------------------ *)
(** * Scenarios of the design on the class table *)

(** A virtual call resolved against [A] with a receiver of class [B]
    selects the override [B.m]. *)
Example virtual_call_selects_override :
  or_default (resolve_virtual_call World.st0 (Some 102%nat) (Some World.B_k) World.A_k
                "m" "()V" (Some World.C_k) true true)
    _selected_method World.A_m
  = Normal World.B_m.
Proof. vm_compute. reflexivity. Qed.

(** The resolver does not check that the receiver of a virtual call is an
    instance of the resolved class: for a receiver of the unrelated class
    [Square], the slot of [A.m] holds [Square.area], a method of another
    signature, and the assertion of [set_common] is all that objects. *)
Example virtual_call_on_unrelated_receiver :
  virtual_select_method World.A_m World.A_k (Some World.Square_k)
  = Normal (1, Some World.Square_area)
  /\ signature World.Square_area <> signature World.A_m
  /\ is_subtype_of World.Square_k World.A_k = false
  /\ runtime_resolve_virtual_method World.st0 World.A_m World.A_k (Some 107%nat)
       (Some World.Square_k) true = Fatal.
Proof.
  split; [vm_compute; reflexivity |]. split; [discriminate |].
  split; vm_compute; reflexivity.
Qed.

(** A final method has no vtable index: it is selected as it is. *)
Example virtual_call_of_final_method :
  or_default (resolve_virtual_call World.st0 (Some 101%nat) (Some World.A_k) World.A_k
                "t" "()V" (Some World.C_k) true true)
    (fun info => (_selected_method info, _vtable_index info)) (World.A_m, 0)
  = Normal (World.A_t, nonvirtual_vtable_index).
Proof. vm_compute. reflexivity. Qed.

(** [AbstractShape] inherits [area] from the interface [Shape]: the call
    goes through the miranda slot of its vtable to [Disk.area]. *)
Example virtual_call_of_miranda_method :
  or_default (resolve_virtual_call World.st0 (Some 115%nat) (Some World.Disk_k)
                World.AbstractShape_k "area" "()D" (Some World.A_k) true true)
    (fun info => (_resolved_method info, _selected_method info, _vtable_index info))
    (World.A_m, World.A_m, 0)
  = Normal (World.Shape_area, World.Disk_area, 1).
Proof. vm_compute. reflexivity. Qed.

(** A null receiver is reported before anything else. *)
Example interface_call_on_null_receiver :
  resolve_interface_call World.st0 None None World.Shape_k "area" "()D"
    (Some World.A_k) true true
  = THROW java_lang_NullPointerException.
Proof. vm_compute. reflexivity. Qed.

Example interface_call_selects_implementation :
  or_default (resolve_interface_call World.st0 (Some 108%nat) (Some World.Circle_k)
                World.Shape_k "area" "()D" (Some World.A_k) true true)
    _selected_method World.A_m
  = Normal World.Circle_area.
Proof. vm_compute. reflexivity. Qed.

(** An array class finds [clone] in [Object] and never looks at
    interfaces. *)
Example array_resolves_clone :
  resolve_method None World.IntArray_k "clone" "()Ljava/lang/Object;"
    (Some World.X_k) true
  = Normal World.Object_clone.
Proof. vm_compute. reflexivity. Qed.

Example array_has_no_area :
  resolve_method None World.IntArray_k "area" "()D" (Some World.X_k) true
  = THROW java_lang_NoSuchMethodError.
Proof. vm_compute. reflexivity. Qed.

(** The same protected [clone] is not accessible to [X] on a class that is
    not an array. *)
Example clone_of_a_class_is_protected :
  check_method_accessability World.X_k World.A_k World.Object_k World.Object_clone
  = THROW java_lang_IllegalAccessError.
Proof. vm_compute. reflexivity. Qed.

(** invokestatic of [A.s] initializes [A]. *)
Example static_call_initializes :
  snd (resolve_static_call World.A_k "s" "()V" (Some World.C_k) true true World.st0)
    World.A_k
  = fully_initialized.
Proof. vm_compute. reflexivity. Qed.

(** A bootstrap method that links, one that fails with a
    [BootstrapMethodError], and one that fails with an exception that is
    not a [LinkageError]. *)
Example dynamic_call_links :
  or_default (resolve_dynamic_call World.st0 (Some 0%nat) "run" "()V" (Some World.A_k))
    (fun info => (_selected_method info, _resolved_appendix info)) (World.A_m, None)
  = Normal (World.linkToCallSite_adapter, Some 500%nat).
Proof. vm_compute. reflexivity. Qed.

Example dynamic_call_passes_on_bootstrap_error :
  resolve_dynamic_call World.st0 (Some 2%nat) "run" "()V" (Some World.A_k)
  = THROW java_lang_BootstrapMethodError.
Proof. vm_compute. reflexivity. Qed.

Example dynamic_call_passes_on_other_exception :
  resolve_dynamic_call World.st0 (Some 3%nat) "run" "()V" (Some World.A_k)
  = THROW java_lang_NullPointerException.
Proof. vm_compute. reflexivity. Qed.

(** Reading the final field [X.count] from [A] is allowed, and so is
    writing the field [X.size], which is not final. *)
Example getfield_of_final_field :
  fst (resolve_field World.pool_of_A 1 _getfield false true World.st0)
  = Normal (mkFieldAccessInfo World.X_k "count" 0 12 T_INT
              (JVM_ACC_PUBLIC + JVM_ACC_FINAL)).
Proof. vm_compute. reflexivity. Qed.

Example putfield_of_other_field :
  fst (resolve_field World.pool_of_A 3 _putfield false true World.st0)
  = Normal (mkFieldAccessInfo World.X_k "size" 2 16 T_INT JVM_ACC_PUBLIC).
Proof. vm_compute. reflexivity. Qed.

(* ------------------------------------------------------------------ *)
(** * The further behaviour on the class table *)

Lemma World_lookup_declared fuel :
  forall k n s m,
    World.lookup_in_chain fuel k n s = Some m ->
    In m (World.declared_methods (method_holder m)).
Proof.
  induction fuel as [| fuel IH]; intros k n s m H; simpl in H;
    destruct (find (World.matches n s) (World.declared_methods k)) as [m0 |] eqn:Hfind.
  - injection H as <-. apply find_some in Hfind. destruct Hfind as [Hin _].
    rewrite (World_declared_holder _ _ Hin). exact Hin.
  - discriminate.
  - injection H as <-. apply find_some in Hfind. destruct Hfind as [Hin _].
    rewrite (World_declared_holder _ _ Hin). exact Hin.
  - destruct (super (World.klasses k)) as [sup |]; [| discriminate].
    eapply IH. exact H.
Qed.

(** [Object.registerNatives] is the only static method of the class table
    that is declared in a class without a superclass. *)
Lemma World_static_holder_has_super h m :
  In m (World.declared_methods h) ->
  is_static m = true ->
  name m <> "registerNatives" ->
  super (World.klasses h) <> None.
Proof.
  do 16 (destruct h as [| h];
         [ simpl; intros H Hstatic Hname;
           repeat (destruct H as [<- | H];
                   [ first [ discriminate
                           | exfalso; apply Hname; reflexivity ] |]);
           destruct H |]).
  simpl. intros [].
Qed.

(** X2 on the class table: the lookup of [s()V] from [A] meets the static
    method [A.s], goes on in [Object] and ends there without a method. *)
Lemma instance_lookup_returns_witness :
  (hierarchy_ranked World.rank
   /\ (World.rank World.A_k < max_super_walk)%nat
   /\ (forall k m, uncached_lookup_method k "s" "()V" = Some m -> is_static m = true ->
                   super (klass_part (method_holder m)) <> None))
  /\ exists r,
       lookup_instance_method_in_klasses World.A_k "s" "()V" = Normal r /\
       (forall m, r = Some m -> is_static m = false).
Proof.
  assert (Hrank : (World.rank World.A_k < max_super_walk)%nat) by (vm_compute; lia).
  assert (Hstatic : forall k m,
             uncached_lookup_method k "s" "()V" = Some m -> is_static m = true ->
             super (klass_part (method_holder m)) <> None).
  { intros k m Hm Hs.
    change (World.lookup_in_chain World.number_of_klasses k "s" "()V" = Some m) in Hm.
    pose proof (World_lookup_in_chain _ _ _ _ Hm) as (_ & Hname & _).
    apply World_lookup_declared in Hm.
    apply (World_static_holder_has_super _ _ Hm Hs). rewrite Hname. discriminate. }
  split; [split; [exact World_hierarchy_ranked | split; assumption] |].
  exact (@instance_lookup_returns World.VM World.rank World.A_k "s" "()V"
           World_hierarchy_ranked Hrank Hstatic).
Defined.

(** X3 on the class table: [C] resolves [A.m()V] with access checks. *)
Lemma resolve_method_postconditions_witness :
  resolve_method None World.A_k "m" "()V" (Some World.C_k) true = Normal World.A_m
  /\ is_interface World.A_k = false
  /\ (is_abstract World.A_m = true -> klass_is_abstract World.A_k = true)
  /\ (true = true ->
      exists current,
        Some World.C_k = Some current /\
        check_method_accessability current World.A_k (method_holder World.A_m) World.A_m
        = Normal tt /\
        check_method_loader_constraints World.A_m World.A_k "m" "()V" current = Normal tt).
Proof.
  assert (H : resolve_method None World.A_k "m" "()V" (Some World.C_k) true
              = Normal World.A_m) by (vm_compute; reflexivity).
  split; [exact H |].
  exact (@resolve_method_postconditions World.VM None World.A_k "m" "()V"
           (Some World.C_k) true World.A_m H).
Defined.

(** X5 on the class table: the array class [int[]] has no [area()D], and
    the interfaces are not searched for it. *)
Lemma polymorphic_lookup_is_for_MethodHandle_witness :
  resolve_method None World.IntArray_k "area" "()D" (Some World.A_k) true
  = THROW java_lang_NoSuchMethodError.
Proof.
  apply (proj2 (proj2 (@polymorphic_lookup_is_for_MethodHandle World.VM None
                          World.IntArray_k "area" "()D" (Some World.A_k)))).
  - reflexivity.
  - discriminate.
  - reflexivity.
  - discriminate.
Defined.

(** X7 on the class table: a virtual call of the static method [A.s]. *)
Lemma virtual_linkage_checks_witness :
  linktime_resolve_virtual_method None World.A_k "s" "()V" (Some World.C_k) true
  = THROW java_lang_IncompatibleClassChangeError.
Proof.
  apply (proj1 (@virtual_linkage_checks World.VM None World.A_k "s" "()V"
                  (Some World.C_k) true) World.A_s).
  - vm_compute. reflexivity.
  - discriminate.
  - discriminate.
  - reflexivity.
Defined.

(** X9 on the class table: [Shape.area], resolved in [AbstractShape], is
    called on a receiver of class [Disk] through the miranda slot, and
    [A.m] on a receiver of class [B] through its vtable index. *)
Lemma virtual_call_info_witness :
  let by_miranda :=
    mkCallInfo (Some World.AbstractShape_k) (Some World.Disk_k) World.Shape_area
      World.Disk_area 1 None None in
  let by_index :=
    mkCallInfo (Some World.A_k) (Some World.B_k) World.A_m World.B_m 1 None None in
  (runtime_resolve_virtual_method World.st0 World.Shape_area World.AbstractShape_k
     (Some 115%nat) (Some World.Disk_k) true = Normal by_miranda
   /\ runtime_resolve_virtual_method World.st0 World.A_m World.A_k (Some 102%nat)
        (Some World.B_k) true = Normal by_index)
  /\ _vtable_index by_miranda = index_of_miranda World.AbstractShape_k "area" "()D"
  /\ _vtable_index by_index = vtable_index World.A_m.
Proof.
  assert (Hmiranda : runtime_resolve_virtual_method World.st0 World.Shape_area
                       World.AbstractShape_k (Some 115%nat) (Some World.Disk_k) true
                     = Normal (mkCallInfo (Some World.AbstractShape_k) (Some World.Disk_k)
                                 World.Shape_area World.Disk_area 1 None None))
    by (vm_compute; reflexivity).
  assert (Hindex : runtime_resolve_virtual_method World.st0 World.A_m World.A_k
                     (Some 102%nat) (Some World.B_k) true
                   = Normal (mkCallInfo (Some World.A_k) (Some World.B_k) World.A_m
                               World.B_m 1 None None))
    by (vm_compute; reflexivity).
  split; [split; assumption |]. split.
  - exact (proj1 (proj2 (proj2 (proj2
             (@virtual_call_info World.VM _ _ _ _ _ _ _ Hmiranda))))).
  - exact (proj1 (proj2 (proj2 (proj2
             (@virtual_call_info World.VM _ _ _ _ _ _ _ Hindex))))).
Defined.

(** X10 on the class table: [A] has no method [nosuch()V], and has [m()V]
    at index 1. *)
Lemma vtable_index_tells_failure_witness :
  resolve_virtual_vtable_index World.st0 (Some World.B_k) World.A_k "nosuch" "()V"
    (Some World.C_k) = Normal invalid_vtable_index
  /\ (invalid_vtable_index = invalid_vtable_index <->
      exists e,
        resolve_virtual_call World.st0 None (Some World.B_k) World.A_k "nosuch" "()V"
          (Some World.C_k) true false = Pending e).
Proof.
  assert (H : resolve_virtual_vtable_index World.st0 (Some World.B_k) World.A_k "nosuch"
                "()V" (Some World.C_k) = Normal invalid_vtable_index)
    by (vm_compute; reflexivity).
  split; [exact H |].
  exact (proj1 (proj2 (@vtable_index_tells_failure World.VM World.st0 (Some World.B_k)
                         World.A_k "nosuch" "()V" (Some World.C_k))
                  invalid_vtable_index H)).
Defined.

(** X11 on the class table: [Shape.area] called on a [Circle]. *)
Lemma interface_call_info_witness :
  let info :=
    mkCallInfo (Some World.Shape_k) (Some World.Circle_k) World.Shape_area
      World.Circle_area invalid_vtable_index None None in
  runtime_resolve_interface_method World.st0 World.Shape_area World.Shape_k
    (Some 108%nat) (Some World.Circle_k) true = Normal info
  /\ is_static (_selected_method info) = false.
Proof.
  assert (H : runtime_resolve_interface_method World.st0 World.Shape_area World.Shape_k
                (Some 108%nat) (Some World.Circle_k) true
              = Normal (mkCallInfo (Some World.Shape_k) (Some World.Circle_k)
                          World.Shape_area World.Circle_area invalid_vtable_index
                          None None)) by (vm_compute; reflexivity).
  split; [exact H |].
  exact (proj1 (proj2 (proj2 (proj2
           (@interface_call_info World.VM World.st0 World.Shape_area World.Shape_k
              (Some 108%nat) (Some World.Circle_k) true _ H))))).
Defined.

(** X12 on the class table: [C] calls [A.m] by [invokespecial], and [B.m]
    of its superclass is bound. *)
Lemma special_call_info_witness :
  let info :=
    mkCallInfo (Some World.A_k) (Some World.A_k) World.B_m World.B_m
      nonvirtual_vtable_index None None in
  runtime_resolve_special_method World.st0 World.A_m World.A_k (Some World.C_k) true
  = Normal info
  /\ _resolved_method info = _selected_method info.
Proof.
  assert (H : runtime_resolve_special_method World.st0 World.A_m World.A_k
                (Some World.C_k) true
              = Normal (mkCallInfo (Some World.A_k) (Some World.A_k) World.B_m World.B_m
                          nonvirtual_vtable_index None None))
    by (vm_compute; reflexivity).
  split; [exact H |].
  exact (proj1 (proj2 (proj2
           (@special_call_info World.VM World.st0 World.A_m World.A_k (Some World.C_k)
              true _ H)))).
Defined.

(** X13 on the class table: a null method, and the adapter of a call site
    with its appendix and method type. *)
Lemma handle_call_info_witness :
  let info :=
    mkCallInfo (Some World.MethodHandle_k) (Some World.MethodHandle_k)
      World.linkToCallSite_adapter World.linkToCallSite_adapter nonvirtual_vtable_index
      (Some 500%nat) (Some 501%nat) in
  set_handle World.st0 None (Some 500%nat) (Some 501%nat) = THROW java_lang_InternalError
  /\ set_handle World.st0 (Some World.linkToCallSite_adapter) (Some 500%nat)
       (Some 501%nat) = Normal info
  /\ exists m,
       Some World.linkToCallSite_adapter = Some m /\
       _resolved_method info = m /\ _selected_method info = m /\
       _resolved_klass info = Some MethodHandle_klass /\
       _selected_klass info = Some MethodHandle_klass /\
       _vtable_index info = nonvirtual_vtable_index /\
       _resolved_appendix info = Some 500%nat /\
       _resolved_method_type info = Some 501%nat.
Proof.
  assert (H : set_handle World.st0 (Some World.linkToCallSite_adapter) (Some 500%nat)
                (Some 501%nat)
              = Normal (mkCallInfo (Some World.MethodHandle_k) (Some World.MethodHandle_k)
                          World.linkToCallSite_adapter World.linkToCallSite_adapter
                          nonvirtual_vtable_index (Some 500%nat) (Some 501%nat)))
    by (vm_compute; reflexivity).
  split; [| split; [exact H |]].
  - exact (proj1 (@handle_call_info World.VM World.st0 None (Some 500%nat)
                    (Some 501%nat))
             eq_refl).
  - exact (proj2 (@handle_call_info World.VM World.st0
                    (Some World.linkToCallSite_adapter) (Some 500%nat) (Some 501%nat))
             _ H).
Defined.


(** X15 on the class table, where no method must be compiled. *)
Lemma compilation_on_resolution_witness :
  signature World.A_m = signature World.B_m
  /\ set_common World.st0 (Some World.A_k) (Some World.B_k) World.A_m World.B_m 1
     = Normal (mkCallInfo (Some World.A_k) (Some World.B_k) World.A_m World.B_m 1
                 None None).
Proof.
  assert (H : signature World.A_m = signature World.B_m) by reflexivity.
  split; [exact H |].
  apply (proj1 (@compilation_on_resolution World.VM World.st0 (Some World.A_k)
                  (Some World.B_k) World.A_m World.B_m 1 H)).
  left. reflexivity.
Defined.

(** X16 on the class table: [putstatic] on the instance field [X.count],
    which [A] may access. *)
Lemma field_resolution_errors_witness :
  (bc_eqb _putstatic _getstatic || bc_eqb _putstatic _putstatic
   || bc_eqb _putstatic _getfield || bc_eqb _putstatic _putfield) = true
  /\ resolve_field World.pool_of_A 1 _putstatic false true World.st0
     = (THROW java_lang_IncompatibleClassChangeError, World.st0).
Proof.
  assert (H : (bc_eqb _putstatic _getstatic || bc_eqb _putstatic _putstatic
               || bc_eqb _putstatic _getfield || bc_eqb _putstatic _putfield) = true)
    by reflexivity.
  split; [exact H |].
  apply (proj2 (proj2 (proj2
           (@field_resolution_errors World.VM World.pool_of_A 1 _putstatic false true
              World.st0 H)))
           World.X_k World.X_k World.X_count).
  - reflexivity.
  - reflexivity.
  - reflexivity.
  - discriminate.
Defined.

(** X17 on the class table: [getstatic] of [X.LIMIT] as a check only. *)
Lemma field_resolution_keeps_state_witness :
  (true = true \/ (_getstatic <> _getstatic /\ _getstatic <> _putstatic))
  /\ snd (resolve_field World.pool_of_A 2 _getstatic true true World.st0) = World.st0.
Proof.
  assert (H : true = true \/ (_getstatic <> _getstatic /\ _getstatic <> _putstatic))
    by (left; reflexivity).
  split; [exact H |].
  exact (@field_resolution_keeps_state World.VM World.pool_of_A 2 _getstatic true true
           World.st0 H).
Defined.

(** X18 on the class table: [getstatic] of [X.LIMIT] initializes [X]. *)
Lemma field_resolution_postconditions_witness :
  let info :=
    FieldAccessInfo_set World.X_k "LIMIT" 1 96 T_INT
      (JVM_ACC_PUBLIC + JVM_ACC_STATIC + JVM_ACC_FINAL) in
  let st' := World.set_state World.st0 World.X_k fully_initialized in
  resolve_field World.pool_of_A 2 _getstatic false true World.st0 = (Normal info, st')
  /\ exists resolved_klass sel_klass fd,
       find_field resolved_klass "LIMIT" "I" = Some (sel_klass, fd) /\
       initialize sel_klass World.st0 = (Normal tt, st').
Proof.
  assert (H : resolve_field World.pool_of_A 2 _getstatic false true World.st0
              = (Normal (FieldAccessInfo_set World.X_k "LIMIT" 1 96 T_INT
                           (JVM_ACC_PUBLIC + JVM_ACC_STATIC + JVM_ACC_FINAL)),
                 World.set_state World.st0 World.X_k fully_initialized))
    by reflexivity.
  split; [exact H |].
  destruct (@field_resolution_postconditions World.VM World.pool_of_A 2 _getstatic false
              true World.st0 _ _ H)
    as (resolved_klass & sel_klass & fd & _ & Hfind & _ & _ & _ & Hinit & _).
  exists resolved_klass, sel_klass, fd. split; [exact Hfind | exact Hinit].
Defined.

(** X20 on the class table: [A] calls its own method [A.m]. *)
Lemma special_call_keeps_resolved_method_witness :
  (name World.A_m = vmSymbols.object_initializer_name
   \/ World.A_k = method_holder World.A_m
   \/ is_subtype_of World.A_k (method_holder World.A_m) = false
   \/ (is_super World.A_k = false /\ AllowNonVirtualCalls = true))
  /\ special_select_method World.A_m World.A_k (Some World.A_k) true = Normal World.A_m.
Proof.
  assert (H : name World.A_m = vmSymbols.object_initializer_name
              \/ World.A_k = method_holder World.A_m
              \/ is_subtype_of World.A_k (method_holder World.A_m) = false
              \/ (is_super World.A_k = false /\ AllowNonVirtualCalls = true))
    by (right; left; reflexivity).
  split; [exact H |].
  exact (@special_call_keeps_resolved_method World.VM World.A_m World.A_k World.A_k true
           H).
Defined.

(** X25 on the class table: entry 4 of the constant pool of [A] is the
    static method [A.s()V]. *)
Lemma static_resolution_by_bytecode_witness :
  resolve_method_statically _invokestatic World.pool_of_A 4
  = Normal (World.A_s, Some World.A_k)
  /\ resolve_klass World.pool_of_A 4 = Normal (Some World.A_k).
Proof.
  assert (H : resolve_method_statically _invokestatic World.pool_of_A 4
              = Normal (World.A_s, Some World.A_k)) by (vm_compute; reflexivity).
  split; [exact H |].
  exact (proj1 (@static_resolution_by_bytecode World.VM _invokestatic World.pool_of_A 4
                  World.A_s (Some World.A_k) H)).
Defined.

(** X1 on the class table: the static method [A.s] is skipped, and
    [Object] has no [s()V]. *)
Lemma instance_lookup_skips_static_methods_witness :
  uncached_lookup_method World.A_k "s" "()V" = Some World.A_s
  /\ lookup_instance_method_in_klasses World.A_k "s" "()V" = Normal None
  /\ (forall m,
         lookup_instance_method_in_klasses World.A_k "s" "()V" = Normal (Some m) ->
         is_static m = false).
Proof.
  split; [reflexivity |]. split; [vm_compute; reflexivity |].
  exact (proj1 (@instance_lookup_skips_static_methods World.VM World.A_k "s" "()V")).
Defined.

(** X6 on the class table: [C] links a special call of [A.m]. *)
Lemma special_linkage_checks_witness :
  linktime_resolve_special_method None World.A_k "m" "()V" (Some World.C_k) true
  = Normal World.A_m
  /\ resolve_method None World.A_k "m" "()V" (Some World.C_k) true = Normal World.A_m
  /\ is_static World.A_m = false
  /\ (name World.A_m = vmSymbols.object_initializer_name ->
      method_holder World.A_m = World.A_k).
Proof.
  assert (H : linktime_resolve_special_method None World.A_k "m" "()V" (Some World.C_k)
                true = Normal World.A_m) by (vm_compute; reflexivity).
  split; [exact H |].
  exact (proj2 (proj2 (@special_linkage_checks World.VM None World.A_k "m" "()V"
                         (Some World.C_k) true))
           World.A_m H).
Defined.

(** X8 on the class table: [A.m] called on a null receiver. *)
Lemma virtual_call_runtime_checks_witness :
  runtime_resolve_virtual_method World.st0 World.A_m World.A_k None None true
  = THROW java_lang_NullPointerException.
Proof.
  exact (proj1 (@virtual_call_runtime_checks World.VM World.st0 World.A_m World.A_k None
                  None true)
           eq_refl eq_refl).
Defined.

(** X19 on the class table: a static call that does not link leaves the
    initialization states alone. *)
Lemma static_call_initialization_witness :
  linktime_resolve_static_method None World.Other_k "x" "()V" (Some World.A_k) true
  = THROW java_lang_NoSuchMethodError
  /\ resolve_static_call World.Other_k "x" "()V" (Some World.A_k) true true World.st0
     = (THROW java_lang_NoSuchMethodError, World.st0).
Proof.
  assert (H : linktime_resolve_static_method None World.Other_k "x" "()V"
                (Some World.A_k) true
              = THROW java_lang_NoSuchMethodError) by (vm_compute; reflexivity).
  split; [exact H |].
  exact (proj1 (@static_call_initialization World.VM World.Other_k "x" "()V"
                  (Some World.A_k) true true World.st0)
           _ H).
Defined.

(** X21 on the class table: an interface call on the class [A]. *)
Lemma call_kind_must_match_class_kind_witness :
  resolve_interface_call World.st0 (Some 102%nat) (Some World.B_k) World.A_k "m" "()V"
    (Some World.C_k) true true
  = THROW java_lang_IncompatibleClassChangeError.
Proof.
  exact (proj2 (@call_kind_must_match_class_kind World.VM World.st0 (Some 102%nat)
                  (Some World.B_k) World.A_k "m" "()V" (Some World.C_k) true true)
           eq_refl).
Defined.

(** X23 on the class table: [clone] resolved in the interface [Shape] is
    the method of [Object]. *)
Lemma interface_method_search_order_witness :
  resolve_interface_method World.Shape_k "clone" "()Ljava/lang/Object;" (Some World.A_k)
    false
  = Normal World.Object_clone.
Proof.
  apply (proj1 (proj2 (@interface_method_search_order World.VM World.Shape_k "clone"
                         "()Ljava/lang/Object;" (Some World.A_k))
                  eq_refl)).
  vm_compute. reflexivity.
Defined.

(** X24 on the class table: [A] links [MethodHandle.invokeBasic]. *)
Lemma handle_call_postconditions_witness :
  let info :=
    mkCallInfo (Some World.MethodHandle_k) (Some World.MethodHandle_k)
      World.invokeBasic_intrinsic World.invokeBasic_intrinsic nonvirtual_vtable_index
      None None in
  resolve_handle_call World.st0 World.MethodHandle_k "invokeBasic"
    "([Ljava/lang/Object;)Ljava/lang/Object;" (Some World.A_k) true = Normal info
  /\ lookup_polymorphic_method None World.MethodHandle_k "invokeBasic"
       "([Ljava/lang/Object;)Ljava/lang/Object;" (Some World.A_k) true
     = Normal (Some (_resolved_method info), _resolved_appendix info,
               _resolved_method_type info).
Proof.
  assert (H : resolve_handle_call World.st0 World.MethodHandle_k "invokeBasic"
                "([Ljava/lang/Object;)Ljava/lang/Object;" (Some World.A_k) true
              = Normal (mkCallInfo (Some World.MethodHandle_k) (Some World.MethodHandle_k)
                          World.invokeBasic_intrinsic World.invokeBasic_intrinsic
                          nonvirtual_vtable_index None None))
    by (vm_compute; reflexivity).
  split; [exact H |].
  exact (proj1 (proj2 (proj2
           (proj1 (@handle_call_postconditions World.VM World.st0 World.MethodHandle_k
                     "invokeBasic" "([Ljava/lang/Object;)Ljava/lang/Object;"
                     (Some World.A_k) true)
              _ H)))).
Defined.
